(** * librq: a shallow embedding of the RISP queue client (librq.c)

    The client keeps one [rq_t] per process.  Connections, subscriptions and
    in-flight messages are heap records that the C code reaches through
    pointers; here a pointer is an index into a store kept inside [rq_t], so
    that two references to one record really share it.  Every [assert] of the
    source is kept: a failed assertion ends the run with [Fail AssertFailed],
    and a step the C standard leaves undefined (a dangling or NULL
    dereference) ends it with [Fail Undefined]. *)

From Stdlib Require Import ZArith Lia String Ascii.
From stdpp Require Import base list.

Local Open Scope Z_scope.

(** ** Results of a run *)

Inductive failure : Type :=
| AssertFailed
| Undefined.

Inductive res (A : Type) : Type :=
| Ret (a : A)
| Fail (f : failure).

Arguments Ret {A} a.
Arguments Fail {A} f.

#[global] Instance res_ret : MRet res := fun _ a => Ret a.
#[global] Instance res_bind : MBind res := fun _ _ k m =>
  match m with
  | Ret a => k a
  | Fail f => Fail f
  end.

(** [assert(e)] of <assert.h>. *)
Definition assert (b : bool) : res unit :=
  if b then Ret tt else Fail AssertFailed.

(** ** Pointers and scalar types *)

(** A pointer to an [rq_message_t] / [rq_conn_t]: its index in the store. *)
Definition msg_ptr := nat.
Definition conn_ptr := nat.
(** The address of a user callback, as the library stores it. *)
Definition fn_ptr := nat.
(** The opaque [void *arg] handed back to callbacks. *)
Definition arg_ptr := nat.

Definition msg_id_t := Z.
Definition queue_id_t := Z.

Definition INVALID_HANDLE : Z := -1.

(** ** Messages *)

Inductive rq_msgstate : Type :=
| rq_msgstate_new
| rq_msgstate_delivering
| rq_msgstate_delivered
| rq_msgstate_replied.

Definition rq_msgstate_eqb (a b : rq_msgstate) : bool :=
  match a, b with
  | rq_msgstate_new, rq_msgstate_new
  | rq_msgstate_delivering, rq_msgstate_delivering
  | rq_msgstate_delivered, rq_msgstate_delivered
  | rq_msgstate_replied, rq_msgstate_replied => true
  | _, _ => false
  end.

(** [rq_message_t].  The back pointer [msg->rq] is left out: the model has
    one client.  [msg_data] is the expanding buffer, [None] for NULL. *)
Record rq_message_t : Type := mk_msg {
  msg_queue : option string;
  msg_id : msg_id_t;
  msg_src_id : msg_id_t;
  msg_broadcast : Z;
  msg_noreply : Z;
  msg_state : rq_msgstate;
  msg_conn : option conn_ptr;
  msg_reply_handler : option fn_ptr;
  msg_fail_handler : option fn_ptr;
  msg_arg : option arg_ptr;
  msg_data : option string
}.

Definition msg_set_id (v : msg_id_t) (m : rq_message_t) : rq_message_t :=
  mk_msg (msg_queue m) v (msg_src_id m) (msg_broadcast m) (msg_noreply m)
         (msg_state m) (msg_conn m) (msg_reply_handler m) (msg_fail_handler m)
         (msg_arg m) (msg_data m).

Definition msg_set_src_id (v : msg_id_t) (m : rq_message_t) : rq_message_t :=
  mk_msg (msg_queue m) (msg_id m) v (msg_broadcast m) (msg_noreply m)
         (msg_state m) (msg_conn m) (msg_reply_handler m) (msg_fail_handler m)
         (msg_arg m) (msg_data m).

Definition msg_set_noreply (v : Z) (m : rq_message_t) : rq_message_t :=
  mk_msg (msg_queue m) (msg_id m) (msg_src_id m) (msg_broadcast m) v
         (msg_state m) (msg_conn m) (msg_reply_handler m) (msg_fail_handler m)
         (msg_arg m) (msg_data m).

Definition msg_set_state (v : rq_msgstate) (m : rq_message_t) : rq_message_t :=
  mk_msg (msg_queue m) (msg_id m) (msg_src_id m) (msg_broadcast m)
         (msg_noreply m) v (msg_conn m) (msg_reply_handler m)
         (msg_fail_handler m) (msg_arg m) (msg_data m).

Definition msg_set_data (v : option string) (m : rq_message_t) : rq_message_t :=
  mk_msg (msg_queue m) (msg_id m) (msg_src_id m) (msg_broadcast m)
         (msg_noreply m) (msg_state m) (msg_conn m) (msg_reply_handler m)
         (msg_fail_handler m) (msg_arg m) v.

(** The field values [rq_msg_new] writes before the record is placed in the
    table (librq.c 1511-1529). *)
Definition msg_initial (conn : option conn_ptr) : rq_message_t :=
  {| msg_queue := None;
     msg_id := -1;
     msg_src_id := -1;
     msg_broadcast := 0;
     msg_noreply := 0;
     msg_state := rq_msgstate_new;
     msg_conn := conn;
     msg_reply_handler := None;
     msg_fail_handler := None;
     msg_arg := None;
     msg_data := match conn with Some _ => None | None => Some EmptyString end |}.

(** The field values [rq_msg_clear] leaves in a record it returns to the pool
    (librq.c 1592-1603); the other fields keep what they held. *)
Definition msg_cleared (m : rq_message_t) : rq_message_t :=
  {| msg_queue := None;
     msg_id := -1;
     msg_src_id := msg_src_id m;
     msg_broadcast := 0;
     msg_noreply := 0;
     msg_state := rq_msgstate_new;
     msg_conn := msg_conn m;
     msg_reply_handler := msg_reply_handler m;
     msg_fail_handler := msg_fail_handler m;
     msg_arg := msg_arg m;
     msg_data := None |}.

(** ** RISP commands and buffers *)

(** The command names of rq-proto.h that librq.c uses.  Their opcode values
    live in that header; nothing below depends on them. *)
Inductive rq_cmd : Type :=
| RQ_CMD_CLEAR | RQ_CMD_PING | RQ_CMD_PONG | RQ_CMD_REQUEST | RQ_CMD_REPLY
| RQ_CMD_DELIVERED | RQ_CMD_UNDELIVERED | RQ_CMD_BROADCAST | RQ_CMD_NOREPLY
| RQ_CMD_CLOSING | RQ_CMD_CONSUMING | RQ_CMD_CONSUME | RQ_CMD_EXCLUSIVE
| RQ_CMD_SERVER_FULL | RQ_CMD_ID | RQ_CMD_QUEUEID | RQ_CMD_TIMEOUT
| RQ_CMD_MAX | RQ_CMD_PRIORITY | RQ_CMD_QUEUE | RQ_CMD_PAYLOAD.

(** What one call of a rispbuf encoder appends to a buffer.  The byte layout
    is rispbuf's business; an outgoing buffer is kept as the sequence of
    encoder calls that filled it. *)
Inductive risp_item : Type :=
| Cmd (c : rq_cmd)
| CmdShortInt (c : rq_cmd) (v : Z)
| CmdInt (c : rq_cmd) (v : Z)
| CmdLargeInt (c : rq_cmd) (v : Z)
| CmdShortStr (c : rq_cmd) (s : string)
| CmdLargeStr (c : rq_cmd) (s : string).

(** An outgoing expanding buffer. *)
Definition expbuf_t := list risp_item.

Definition addCmd (buf : expbuf_t) (c : rq_cmd) : expbuf_t := buf ++ [Cmd c].
Definition addCmdShortInt (buf : expbuf_t) (c : rq_cmd) (v : Z) : expbuf_t :=
  buf ++ [CmdShortInt c v].
Definition addCmdInt (buf : expbuf_t) (c : rq_cmd) (v : Z) : expbuf_t :=
  buf ++ [CmdInt c v].
Definition addCmdLargeInt (buf : expbuf_t) (c : rq_cmd) (v : Z) : expbuf_t :=
  buf ++ [CmdLargeInt c v].
Definition addCmdShortStr (buf : expbuf_t) (c : rq_cmd) (s : string) : expbuf_t :=
  buf ++ [CmdShortStr c s].
Definition addCmdLargeStr (buf : expbuf_t) (c : rq_cmd) (s : string) : expbuf_t :=
  buf ++ [CmdLargeStr c s].

(** The C cast [(short int) v] on a 16-bit two's complement [short]. *)
Definition short_int (v : Z) : Z := (v + 32768) mod 65536 - 32768.

(** ** C strings *)

(** The text a [char *] denotes: the bytes before the first NUL. *)
Fixpoint cstr (s : string) : string :=
  match s with
  | EmptyString => EmptyString
  | String c t => if Ascii.eqb c Ascii.zero then EmptyString else String c (cstr t)
  end.

Definition strlen (s : string) : Z := Z.of_nat (String.length (cstr s)).

(** [strcmp(a, b) == 0]. *)
Definition strcmp_eq (a b : string) : bool := String.eqb (cstr a) (cstr b).

(** ** The parameter accumulator *)

(** Modelled from the spec: the bit names of rq.h, which is not under src/.
    The accumulator has "a mask bitfield tracking which fields have been set"
    and "a noreply flag"; each name is one bit of its word. *)
Definition RQ_DATA_MASK_PRIORITY : Z := 1.
Definition RQ_DATA_MASK_QUEUEID : Z := 2.
Definition RQ_DATA_MASK_TIMEOUT : Z := 4.
Definition RQ_DATA_MASK_ID : Z := 8.
Definition RQ_DATA_MASK_QUEUE : Z := 16.
Definition RQ_DATA_MASK_PAYLOAD : Z := 32.
Definition RQ_DATA_FLAG_NOREPLY : Z := 256.

Definition BIT_TEST (word bit : Z) : bool := negb (Z.land word bit =? 0).
Definition BIT_SET (word bit : Z) : Z := Z.lor word bit.

(** [rq_data_t].  [data_payload] is NULL until a PAYLOAD arrives; [data_queue]
    is allocated by [rq_data_init] and lives as long as the record. *)
Record rq_data_t : Type := mk_data {
  data_flags : Z;
  data_mask : Z;
  data_id : msg_id_t;
  data_qid : queue_id_t;
  data_timeout : Z;
  data_priority : Z;
  data_payload : option string;
  data_queue : string
}.

Definition data_set_payload (v : option string) (d : rq_data_t) : rq_data_t :=
  mk_data (data_flags d) (data_mask d) (data_id d) (data_qid d)
          (data_timeout d) (data_priority d) v (data_queue d).

(** librq.c 138-154. *)
Definition rq_data_init : rq_data_t :=
  {| data_flags := 0; data_mask := 0; data_id := 0; data_qid := 0;
     data_timeout := 0; data_priority := 0;
     data_payload := None; data_queue := EmptyString |}.

(** ** Subscriptions *)

(** [rq_queue_t].  [q_queue] is the [strdup]ed name. *)
Record rq_queue_t : Type := mk_queue {
  q_queue : string;
  q_qid : queue_id_t;
  q_exclusive : Z;
  q_max : Z;
  q_priority : Z;
  q_handler : fn_ptr;
  q_accepted : option fn_ptr;
  q_dropped : option fn_ptr;
  q_arg : option arg_ptr
}.

Definition q_set_qid (v : queue_id_t) (q : rq_queue_t) : rq_queue_t :=
  mk_queue (q_queue q) v (q_exclusive q) (q_max q) (q_priority q)
           (q_handler q) (q_accepted q) (q_dropped q) (q_arg q).

(** ** Connections *)

(** [rq_conn_t].  An event registration is [true] when the pointer is not
    NULL (the event exists and is added to the reactor).  [conn_readbuf] and
    [conn_inbuf] hold raw bytes; [conn_sendbuf] and [conn_outbuf] hold
    encoded commands. *)
Record rq_conn_t : Type := mk_conn {
  conn_hostname : string;
  conn_handle : Z;
  conn_read_event : bool;
  conn_write_event : bool;
  conn_connect_event : bool;
  conn_readbuf : option (list Z);
  conn_inbuf : option (list Z);
  conn_sendbuf : option expbuf_t;
  conn_outbuf : option expbuf_t;
  conn_data : option rq_data_t;
  conn_active : Z;
  conn_closing : Z;
  conn_shutdown : Z
}.

Definition conn_set_handle (v : Z) (c : rq_conn_t) : rq_conn_t :=
  mk_conn (conn_hostname c) v (conn_read_event c) (conn_write_event c)
          (conn_connect_event c) (conn_readbuf c) (conn_inbuf c)
          (conn_sendbuf c) (conn_outbuf c) (conn_data c) (conn_active c)
          (conn_closing c) (conn_shutdown c).

Definition conn_set_read_event (v : bool) (c : rq_conn_t) : rq_conn_t :=
  mk_conn (conn_hostname c) (conn_handle c) v (conn_write_event c)
          (conn_connect_event c) (conn_readbuf c) (conn_inbuf c)
          (conn_sendbuf c) (conn_outbuf c) (conn_data c) (conn_active c)
          (conn_closing c) (conn_shutdown c).

Definition conn_set_write_event (v : bool) (c : rq_conn_t) : rq_conn_t :=
  mk_conn (conn_hostname c) (conn_handle c) (conn_read_event c) v
          (conn_connect_event c) (conn_readbuf c) (conn_inbuf c)
          (conn_sendbuf c) (conn_outbuf c) (conn_data c) (conn_active c)
          (conn_closing c) (conn_shutdown c).

Definition conn_set_connect_event (v : bool) (c : rq_conn_t) : rq_conn_t :=
  mk_conn (conn_hostname c) (conn_handle c) (conn_read_event c)
          (conn_write_event c) v (conn_readbuf c) (conn_inbuf c)
          (conn_sendbuf c) (conn_outbuf c) (conn_data c) (conn_active c)
          (conn_closing c) (conn_shutdown c).

Definition conn_set_readbuf (v : option (list Z)) (c : rq_conn_t) : rq_conn_t :=
  mk_conn (conn_hostname c) (conn_handle c) (conn_read_event c)
          (conn_write_event c) (conn_connect_event c) v (conn_inbuf c)
          (conn_sendbuf c) (conn_outbuf c) (conn_data c) (conn_active c)
          (conn_closing c) (conn_shutdown c).

Definition conn_set_inbuf (v : option (list Z)) (c : rq_conn_t) : rq_conn_t :=
  mk_conn (conn_hostname c) (conn_handle c) (conn_read_event c)
          (conn_write_event c) (conn_connect_event c) (conn_readbuf c) v
          (conn_sendbuf c) (conn_outbuf c) (conn_data c) (conn_active c)
          (conn_closing c) (conn_shutdown c).

Definition conn_set_sendbuf (v : option expbuf_t) (c : rq_conn_t) : rq_conn_t :=
  mk_conn (conn_hostname c) (conn_handle c) (conn_read_event c)
          (conn_write_event c) (conn_connect_event c) (conn_readbuf c)
          (conn_inbuf c) v (conn_outbuf c) (conn_data c) (conn_active c)
          (conn_closing c) (conn_shutdown c).

Definition conn_set_outbuf (v : option expbuf_t) (c : rq_conn_t) : rq_conn_t :=
  mk_conn (conn_hostname c) (conn_handle c) (conn_read_event c)
          (conn_write_event c) (conn_connect_event c) (conn_readbuf c)
          (conn_inbuf c) (conn_sendbuf c) v (conn_data c) (conn_active c)
          (conn_closing c) (conn_shutdown c).

Definition conn_set_data (v : option rq_data_t) (c : rq_conn_t) : rq_conn_t :=
  mk_conn (conn_hostname c) (conn_handle c) (conn_read_event c)
          (conn_write_event c) (conn_connect_event c) (conn_readbuf c)
          (conn_inbuf c) (conn_sendbuf c) (conn_outbuf c) v (conn_active c)
          (conn_closing c) (conn_shutdown c).

Definition conn_set_active (v : Z) (c : rq_conn_t) : rq_conn_t :=
  mk_conn (conn_hostname c) (conn_handle c) (conn_read_event c)
          (conn_write_event c) (conn_connect_event c) (conn_readbuf c)
          (conn_inbuf c) (conn_sendbuf c) (conn_outbuf c) (conn_data c) v
          (conn_closing c) (conn_shutdown c).

Definition conn_set_closing (v : Z) (c : rq_conn_t) : rq_conn_t :=
  mk_conn (conn_hostname c) (conn_handle c) (conn_read_event c)
          (conn_write_event c) (conn_connect_event c) (conn_readbuf c)
          (conn_inbuf c) (conn_sendbuf c) (conn_outbuf c) (conn_data c)
          (conn_active c) v (conn_shutdown c).

(** ** The client *)

(** [rq_t].  [conns] and [msgs] are the stores the connection and message
    pointers index; [connlist], [msg_list] and [msg_pool] hold pointers, as
    in C.  [msg_list] is the array together with its length [msg_max].  The
    RISP dispatch table [rq->risp] is left to the decoder. *)
Record rq_t : Type := mk_rq {
  evbase : bool;
  connlist : list conn_ptr;
  conns : list rq_conn_t;
  queues : list rq_queue_t;
  msg_list : list (option msg_ptr);
  msg_used : Z;
  msg_next : Z;
  msg_pool : list msg_ptr;
  msgs : list rq_message_t
}.

Definition msg_max (rq : rq_t) : Z := Z.of_nat (length (msg_list rq)).

Definition rq_set_connlist (v : list conn_ptr) (rq : rq_t) : rq_t :=
  mk_rq (evbase rq) v (conns rq) (queues rq) (msg_list rq) (msg_used rq)
        (msg_next rq) (msg_pool rq) (msgs rq).

Definition rq_set_conns (v : list rq_conn_t) (rq : rq_t) : rq_t :=
  mk_rq (evbase rq) (connlist rq) v (queues rq) (msg_list rq) (msg_used rq)
        (msg_next rq) (msg_pool rq) (msgs rq).

Definition rq_set_queues (v : list rq_queue_t) (rq : rq_t) : rq_t :=
  mk_rq (evbase rq) (connlist rq) (conns rq) v (msg_list rq) (msg_used rq)
        (msg_next rq) (msg_pool rq) (msgs rq).

Definition rq_set_msg_list (v : list (option msg_ptr)) (rq : rq_t) : rq_t :=
  mk_rq (evbase rq) (connlist rq) (conns rq) (queues rq) v (msg_used rq)
        (msg_next rq) (msg_pool rq) (msgs rq).

Definition rq_set_msg_used (v : Z) (rq : rq_t) : rq_t :=
  mk_rq (evbase rq) (connlist rq) (conns rq) (queues rq) (msg_list rq) v
        (msg_next rq) (msg_pool rq) (msgs rq).

Definition rq_set_msg_next (v : Z) (rq : rq_t) : rq_t :=
  mk_rq (evbase rq) (connlist rq) (conns rq) (queues rq) (msg_list rq)
        (msg_used rq) v (msg_pool rq) (msgs rq).

Definition rq_set_msg_pool (v : list msg_ptr) (rq : rq_t) : rq_t :=
  mk_rq (evbase rq) (connlist rq) (conns rq) (queues rq) (msg_list rq)
        (msg_used rq) (msg_next rq) v (msgs rq).

Definition rq_set_msgs (v : list rq_message_t) (rq : rq_t) : rq_t :=
  mk_rq (evbase rq) (connlist rq) (conns rq) (queues rq) (msg_list rq)
        (msg_used rq) (msg_next rq) (msg_pool rq) v.

(** Dereferencing: a pointer outside the store is dangling. *)
Definition get_msg (rq : rq_t) (p : msg_ptr) : res rq_message_t :=
  match msgs rq !! p with
  | Some m => Ret m
  | None => Fail Undefined
  end.

Definition get_conn (rq : rq_t) (c : conn_ptr) : res rq_conn_t :=
  match conns rq !! c with
  | Some x => Ret x
  | None => Fail Undefined
  end.

(** Writing through a pointer. *)
Definition put_msg (p : msg_ptr) (m : rq_message_t) (rq : rq_t) : rq_t :=
  rq_set_msgs (<[p := m]> (msgs rq)) rq.

Definition put_conn (c : conn_ptr) (x : rq_conn_t) (rq : rq_t) : rq_t :=
  rq_set_conns (<[c := x]> (conns rq)) rq.

(** Modelled from the spec: [DEFAULT_MSG_ARRAY] of rq.h, which is not under
    src/; "Message Table of default capacity", asserted positive by
    [rq_init]. *)
Definition DEFAULT_MSG_ARRAY : nat := 10.

(** librq.c 1442-1484. *)
Definition rq_init : rq_t :=
  {| evbase := false;
     connlist := [];
     conns := [];
     queues := [];
     msg_list := replicate DEFAULT_MSG_ARRAY None;
     msg_used := 0;
     msg_next := 0;
     msg_pool := [];
     msgs := [] |}.

(** ** Message table (librq.c 1496-1609) *)

(** The scan of librq.c 1546-1552: the index of the first NULL slot. *)
Fixpoint find_free (l : list (option msg_ptr)) : option nat :=
  match l with
  | [] => None
  | None :: _ => Some 0%nat
  | Some _ :: t => S <$> find_free t
  end.

(** [ll_pop_head(rq->msg_pool)], or [malloc] when the pool is empty: a fresh
    record is a new cell of the store. *)
Definition msg_obtain (rq : rq_t) : msg_ptr * rq_t :=
  match msg_pool rq with
  | p :: pool => (p, rq_set_msg_pool pool rq)
  | [] => (length (msgs rq), rq_set_msgs (msgs rq ++ [msg_initial None]) rq)
  end.

(** Lines 1531-1562: put [p] in the table and record its slot in [msg->id]. *)
Definition msg_place (p : msg_ptr) (m : rq_message_t) (rq : rq_t) : res rq_t :=
  if msg_used rq <? msg_max rq then
    if 0 <=? msg_next rq then
      _ ← assert (msg_next rq <? msg_max rq);
      _ ← assert (bool_decide (msg_list rq !! Z.to_nat (msg_next rq) = Some None));
      Ret (rq_set_msg_next (-1)
            (put_msg p (msg_set_id (msg_next rq) m)
              (rq_set_msg_list (<[Z.to_nat (msg_next rq) := Some p]> (msg_list rq)) rq)))
    else
      match find_free (msg_list rq) with
      | Some i =>
          Ret (put_msg p (msg_set_id (Z.of_nat i) m)
                (rq_set_msg_list (<[i := Some p]> (msg_list rq)) rq))
      | None => Ret rq
      end
  else
    Ret (put_msg p (msg_set_id (msg_max rq) m)
          (rq_set_msg_list (msg_list rq ++ [Some p]) rq)).

Definition rq_msg_new (rq : rq_t) (conn : option conn_ptr) : res (msg_ptr * rq_t) :=
  let '(p, rq) := msg_obtain rq in
  let m := msg_initial conn in
  let rq := put_msg p m rq in
  _ ← assert (0 <? msg_max rq);
  _ ← assert ((0 <=? msg_used rq) && (msg_used rq <=? msg_max rq));
  rq ← msg_place p m rq;
  _ ← assert (0 <=? msg_used rq);
  let rq := rq_set_msg_used (msg_used rq + 1) rq in
  _ ← assert ((0 <? msg_used rq) && (msg_used rq <=? msg_max rq));
  Ret (p, rq).

Definition rq_msg_clear (rq : rq_t) (p : msg_ptr) : res rq_t :=
  m ← get_msg rq p;
  _ ← assert (0 <? msg_used rq);
  _ ← assert (0 <=? msg_id m);
  _ ← assert (msg_id m <? msg_max rq);
  _ ← assert (bool_decide (msg_list rq !! Z.to_nat (msg_id m) = Some (Some p)));
  let rq := rq_set_msg_list (<[Z.to_nat (msg_id m) := None]> (msg_list rq)) rq in
  let rq := rq_set_msg_next (msg_id m) rq in
  let rq := rq_set_msg_used (msg_used rq - 1) rq in
  let rq := put_msg p (msg_cleared m) rq in
  Ret (rq_set_msg_pool (p :: msg_pool rq) rq).

(** ** Sending (librq.c 363-384) *)

Definition rq_senddata (c : conn_ptr) (data : expbuf_t) (rq : rq_t) : res rq_t :=
  x ← get_conn rq c;
  _ ← assert (0 <? Z.of_nat (length data));
  _ ← assert (negb (conn_handle x =? INVALID_HANDLE));
  match conn_outbuf x with
  | None => Fail AssertFailed
  | Some out =>
      let x := conn_set_outbuf (Some (out ++ data)) x in
      if conn_write_event x then Ret (put_conn c x rq)
      else
        _ ← assert (evbase rq);
        Ret (put_conn c (conn_set_write_event true x) rq)
  end.

(** The idiom every emitter of the source repeats: check that the scratch
    [conn->sendbuf] exists and is empty, fill it with the encoders, hand its
    contents to [rq_senddata], then [expbuf_clear] it. *)
Definition send_commands (c : conn_ptr) (fill : expbuf_t -> expbuf_t)
    (rq : rq_t) : res rq_t :=
  x ← get_conn rq c;
  match conn_sendbuf x with
  | None => Fail AssertFailed
  | Some sb =>
      _ ← assert (Z.of_nat (length sb) =? 0);
      let buf := fill sb in
      let rq := put_conn c (conn_set_sendbuf (Some buf) x) rq in
      rq ← rq_senddata c buf rq;
      x ← get_conn rq c;
      Ret (put_conn c (conn_set_sendbuf (Some []) x) rq)
  end.

(** The CONSUME sequence of librq.c 727-733. *)
Definition consume_commands (q : rq_queue_t) (buf : expbuf_t) : expbuf_t :=
  let buf := addCmd buf RQ_CMD_CLEAR in
  let buf := if negb (q_exclusive q =? 0) then addCmd buf RQ_CMD_EXCLUSIVE else buf in
  let buf := addCmdShortStr buf RQ_CMD_QUEUE (cstr (q_queue q)) in
  let buf := addCmdInt buf RQ_CMD_MAX (q_max q) in
  let buf := addCmdShortInt buf RQ_CMD_PRIORITY (q_priority q) in
  addCmd buf RQ_CMD_CONSUME.

(** librq.c 712-737. *)
Definition rq_send_consume (c : conn_ptr) (q : rq_queue_t) (rq : rq_t) : res rq_t :=
  _ ← assert (0 <=? q_max q);
  _ ← assert ((0 <? strlen (q_queue q)) && (strlen (q_queue q) <? 256));
  send_commands c (consume_commands q) rq.

(** ** Subscribing (librq.c 924-987) *)

(** Modelled from the spec: the priority names of rq.h, which is not under
    src/; "Priority must be one of {NONE, LOW, NORMAL, HIGH}". *)
Definition RQ_PRIORITY_NONE : Z := 0.
Definition RQ_PRIORITY_LOW : Z := 10.
Definition RQ_PRIORITY_NORMAL : Z := 20.
Definition RQ_PRIORITY_HIGH : Z := 30.

Definition rq_consume (rq : rq_t) (queue : string) (max priority exclusive : Z)
    (handler : fn_ptr) (accepted dropped : option fn_ptr)
    (arg : option arg_ptr) : res rq_t :=
  _ ← assert (strlen queue <? 256);
  _ ← assert (0 <=? max);
  _ ← assert ((priority =? RQ_PRIORITY_NONE) || (priority =? RQ_PRIORITY_LOW)
              || (priority =? RQ_PRIORITY_NORMAL) || (priority =? RQ_PRIORITY_HIGH));
  _ ← assert (0 <? Z.of_nat (length (connlist rq)));
  if existsb (fun q => strcmp_eq (q_queue q) queue) (queues rq) then Ret rq
  else
    let q := {| q_queue := cstr queue; q_qid := 0; q_exclusive := exclusive;
                q_max := max; q_priority := priority; q_handler := handler;
                q_accepted := accepted; q_dropped := dropped; q_arg := arg |} in
    let rq := rq_set_queues (queues rq ++ [q]) rq in
    match connlist rq with
    | [] => Fail AssertFailed
    | c :: _ =>
        x ← get_conn rq c;
        if (0 <? conn_active x) && (conn_closing x =? 0)
        then rq_send_consume c q rq
        else Ret rq
    end.

(** ** Replying (librq.c 1728-1768) *)

(** The [length] bytes at [data] that [addCmdLargeStr] copies; reading past
    the caller's bytes is undefined. *)
Definition reply_payload (len : Z) (data : option string) : res (option string) :=
  if 0 <? len then
    match data with
    | None => Fail AssertFailed
    | Some s =>
        if len <=? Z.of_nat (String.length s)
        then Ret (Some (substring 0 (Z.to_nat len) s))
        else Fail Undefined
    end
  else Ret None.

Definition reply_commands (src_id : msg_id_t) (payload : option string)
    (buf : expbuf_t) : expbuf_t :=
  let buf := addCmd buf RQ_CMD_CLEAR in
  let buf := addCmdLargeInt buf RQ_CMD_ID (short_int src_id) in
  let buf := match payload with
             | Some s => addCmdLargeStr buf RQ_CMD_PAYLOAD s
             | None => buf
             end in
  addCmd buf RQ_CMD_REPLY.

Definition rq_reply (p : msg_ptr) (len : Z) (data : option string)
    (rq : rq_t) : res rq_t :=
  m ← get_msg rq p;
  _ ← assert (((len =? 0) && bool_decide (data = None))
              || ((0 <? len) && negb (bool_decide (data = None))));
  c ← match msg_conn m with Some c => Ret c | None => Fail AssertFailed end;
  _ ← assert (0 <=? msg_id m);
  _ ← assert (0 <=? msg_src_id m);
  _ ← assert (msg_broadcast m =? 0);
  _ ← assert (msg_noreply m =? 0);
  _ ← assert (bool_decide (msg_queue m = None));
  _ ← assert (rq_msgstate_eqb (msg_state m) rq_msgstate_delivering
              || rq_msgstate_eqb (msg_state m) rq_msgstate_delivered);
  _ ← assert (negb (bool_decide (msg_data m = None)));
  payload ← reply_payload len data;
  rq ← send_commands c (reply_commands (msg_src_id m) payload) rq;
  if rq_msgstate_eqb (msg_state m) rq_msgstate_delivered
  then rq_msg_clear rq p
  else Ret (put_msg p (msg_set_state rq_msgstate_replied m) rq).

(** ** Parameter setters and CLEAR (librq.c 998-1017, 1318-1437) *)

(** [conn->data], with the two leading assertions of every handler. *)
Definition get_data (rq : rq_t) (c : conn_ptr) : res (rq_conn_t * rq_data_t) :=
  x ← get_conn rq c;
  match conn_data x with
  | Some d => Ret (x, d)
  | None => Fail AssertFailed
  end.

Definition put_data (c : conn_ptr) (x : rq_conn_t) (d : rq_data_t) (rq : rq_t) : rq_t :=
  put_conn c (conn_set_data (Some d) x) rq.

(** What [cmdClear] leaves in the accumulator: [expbuf_clear] empties a
    buffer and keeps it allocated. *)
Definition data_clear (d : rq_data_t) : rq_data_t :=
  {| data_flags := 0; data_mask := 0; data_id := 0; data_qid := 0;
     data_timeout := 0; data_priority := 0;
     data_payload := match data_payload d with
                     | Some _ => Some EmptyString
                     | None => None
                     end;
     data_queue := EmptyString |}.

Definition cmdClear (c : conn_ptr) (rq : rq_t) : res rq_t :=
  '(x, d) ← get_data rq c;
  Ret (put_data c x (data_clear d) rq).

Definition cmdNoreply (c : conn_ptr) (rq : rq_t) : res rq_t :=
  '(x, d) ← get_data rq c;
  Ret (put_data c x
         (mk_data (BIT_SET (data_flags d) RQ_DATA_FLAG_NOREPLY) (data_mask d)
                  (data_id d) (data_qid d) (data_timeout d) (data_priority d)
                  (data_payload d) (data_queue d)) rq).

Definition cmdID (c : conn_ptr) (value : Z) (rq : rq_t) : res rq_t :=
  _ ← assert ((0 <=? value) && (value <=? 65535));
  '(x, d) ← get_data rq c;
  Ret (put_data c x
         (mk_data (data_flags d) (BIT_SET (data_mask d) RQ_DATA_MASK_ID)
                  value (data_qid d) (data_timeout d) (data_priority d)
                  (data_payload d) (data_queue d)) rq).

Definition cmdQueueID (c : conn_ptr) (value : Z) (rq : rq_t) : res rq_t :=
  _ ← assert ((0 <? value) && (value <=? 65535));
  '(x, d) ← get_data rq c;
  Ret (put_data c x
         (mk_data (data_flags d) (BIT_SET (data_mask d) RQ_DATA_MASK_QUEUEID)
                  (data_id d) value (data_timeout d) (data_priority d)
                  (data_payload d) (data_queue d)) rq).

Definition cmdPayload (c : conn_ptr) (data : string) (rq : rq_t) : res rq_t :=
  _ ← assert (0 <? Z.of_nat (String.length data));
  '(x, d) ← get_data rq c;
  _ ← assert (bool_decide (data_payload d = None));
  Ret (put_data c x
         (mk_data (data_flags d) (BIT_SET (data_mask d) RQ_DATA_MASK_PAYLOAD)
                  (data_id d) (data_qid d) (data_timeout d) (data_priority d)
                  (Some data) (data_queue d)) rq).

Definition cmdQueue (c : conn_ptr) (data : string) (rq : rq_t) : res rq_t :=
  _ ← assert (0 <? Z.of_nat (String.length data));
  '(x, d) ← get_data rq c;
  Ret (put_data c x
         (mk_data (data_flags d) (BIT_SET (data_mask d) RQ_DATA_MASK_QUEUE)
                  (data_id d) (data_qid d) (data_timeout d) (data_priority d)
                  (data_payload d) data) rq).

(** ** Code that calls out of the library

    User callbacks are reached through stored function pointers, and the
    socket layer through the C library.  Both are parameters here: a callback
    is any function on the client state (it may call back into the library,
    [rq_reply] for one), and the system calls return what the kernel
    decides. *)

(** <errno.h> and <event.h> on Linux. *)
Definition ECONNREFUSED : Z := 111.
Definition EINPROGRESS : Z := 115.
Definition EV_WRITE : Z := 4.

(** librq.c 542-554: attach a reactor, or detach it with NULL. *)
Definition rq_setevbase (rq : rq_t) (base : bool) : res rq_t :=
  if base then
    _ ← assert (negb (evbase rq));
    Ret (mk_rq true (connlist rq) (conns rq) (queues rq) (msg_list rq)
               (msg_used rq) (msg_next rq) (msg_pool rq) (msgs rq))
  else
    _ ← assert (evbase rq);
    Ret (mk_rq false (connlist rq) (conns rq) (queues rq) (msg_list rq)
               (msg_used rq) (msg_next rq) (msg_pool rq) (msgs rq)).

(** The connection record [rq_addcontroller] builds (librq.c 876-898). *)
Definition conn_new (host : string) : rq_conn_t :=
  {| conn_hostname := cstr host;
     conn_handle := INVALID_HANDLE;
     conn_read_event := false;
     conn_write_event := false;
     conn_connect_event := false;
     conn_readbuf := None;
     conn_inbuf := None;
     conn_sendbuf := None;
     conn_outbuf := Some [];
     conn_data := None;
     conn_active := 0;
     conn_closing := 0;
     conn_shutdown := 0 |}.

(** [ll_remove]: unlink the first entry holding this pointer. *)
Fixpoint ll_remove (l : list conn_ptr) (c : conn_ptr) : list conn_ptr :=
  match l with
  | [] => []
  | h :: t => if Nat.eqb h c then t else h :: ll_remove t c
  end.

Definition ll_push_tail (l : list conn_ptr) (c : conn_ptr) : list conn_ptr :=
  l ++ [c].

(** The loop of librq.c 342-349: any live message that arrived on [c] trips
    [assert(0)]. *)
Fixpoint check_no_pending (rq : rq_t) (c : conn_ptr)
    (slots : list (option msg_ptr)) : res unit :=
  match slots with
  | [] => Ret tt
  | None :: rest => check_no_pending rq c rest
  | Some p :: rest =>
      m ← get_msg rq p;
      _ ← assert (negb (bool_decide (msg_conn m = Some c)));
      check_no_pending rq c rest
  end.

(** Lines 1097-1098 and 1112-1115 of [cmdRequest]: the queue-id and the
    queue name the request carries, 0 and NULL when absent. *)
Definition request_qid (d : rq_data_t) : queue_id_t :=
  if BIT_TEST (data_mask d) RQ_DATA_MASK_QUEUEID then data_qid d else 0.

Definition request_qname (d : rq_data_t) : option string :=
  if BIT_TEST (data_mask d) RQ_DATA_MASK_QUEUE then Some (data_queue d) else None.

Section Callouts.

(** [queue->handler(msg, queue->arg)]. *)
Variable call_handler : fn_ptr -> msg_ptr -> option arg_ptr -> rq_t -> res rq_t.
(** [q->accepted(queue, qid, q->arg)]. *)
Variable call_accepted :
  fn_ptr -> string -> queue_id_t -> option arg_ptr -> rq_t -> res rq_t.
(** [evutil_parse_sockaddr_port(hostname, ...)]: 0 when the text parses. *)
Variable evutil_parse_sockaddr_port : string -> Z.
(** [socket(AF_INET, SOCK_STREAM, 0)]: the descriptor the kernel hands out. *)
Variable socket : rq_t -> Z.
(** [connect(handle, ...)] on the non-blocking socket: result and [errno]. *)
Variable connect : Z -> string -> Z * Z.
(** [rq_process_read(conn)]: it drives [read(2)] and the RISP decoder of
    librisp, both external to librq.c. *)
Variable rq_process_read : conn_ptr -> rq_t -> res rq_t.

(** librq.c 220-274. *)
Definition rq_connect (rq : rq_t) : res rq_t :=
  _ ← assert (evbase rq);
  _ ← assert (0 <? Z.of_nat (length (connlist rq)));
  match connlist rq with
  | [] => Fail Undefined
  | c :: _ =>
      x ← get_conn rq c;
      if (conn_shutdown x =? 0) && (conn_closing x =? 0)
         && negb (conn_connect_event x) && (conn_active x =? 0)
      then
        _ ← assert (0 <? strlen (conn_hostname x));
        _ ← assert (negb (conn_read_event x));
        _ ← assert (negb (conn_write_event x));
        _ ← assert (negb (conn_connect_event x));
        _ ← assert (conn_handle x =? INVALID_HANDLE);
        if negb (evutil_parse_sockaddr_port (conn_hostname x) =? 0)
        then Fail AssertFailed
        else
          let handle := socket rq in
          _ ← assert (0 <=? handle);
          let '(result, errno) := connect handle (conn_hostname x) in
          _ ← assert (result <? 0);
          _ ← assert (errno =? EINPROGRESS);
          _ ← assert (bool_decide (conn_inbuf x = None));
          _ ← assert (negb (bool_decide (conn_outbuf x = None)));
          _ ← assert (bool_decide (conn_readbuf x = None));
          _ ← assert (bool_decide (conn_data x = None));
          _ ← assert (evbase rq);
          Ret (put_conn c
                 (conn_set_connect_event true (conn_set_handle handle x)) rq)
      else Ret rq
  end.

(** librq.c 853-907.  The connect and dropped handlers and their argument
    must be NULL and are left out; [calloc] is a new cell of the store. *)
Definition rq_addcontroller (rq : rq_t) (host : string) : res rq_t :=
  _ ← assert (0 <? strlen host);
  let c := length (conns rq) in
  let rq := rq_set_conns (conns rq ++ [conn_new host]) rq in
  let rq := rq_set_connlist (ll_push_tail (connlist rq) c) rq in
  if Z.of_nat (length (connlist rq)) =? 1 then rq_connect rq else Ret rq.

(** librq.c 282-358. *)
Definition rq_conn_closed (c : conn_ptr) (rq : rq_t) : res rq_t :=
  x ← get_conn rq c;
  _ ← assert (negb (conn_handle x =? INVALID_HANDLE));
  let x := conn_set_handle INVALID_HANDLE x in
  rb ← match conn_readbuf x with Some b => Ret b | None => Fail AssertFailed end;
  _ ← assert (Z.of_nat (length rb) =? 0);
  let x := conn_set_readbuf None x in
  sb ← match conn_sendbuf x with Some b => Ret b | None => Fail AssertFailed end;
  _ ← assert (Z.of_nat (length sb) =? 0);
  let x := conn_set_sendbuf None x in
  let x := conn_set_inbuf None x in
  _ ← assert (negb (bool_decide (conn_outbuf x = None)));
  let x := conn_set_outbuf (Some []) x in
  let x := conn_set_data None x in
  _ ← assert (0 <? Z.of_nat (length (connlist rq)));
  let rq :=
    if 1 <? Z.of_nat (length (connlist rq))
    then rq_set_connlist (ll_push_tail (ll_remove (connlist rq) c) c) rq
    else rq in
  let x := conn_set_read_event false x in
  let x := conn_set_write_event false x in
  _ ← assert (negb (conn_connect_event x));
  _ ← (if 0 <? msg_used rq then check_no_pending rq c (msg_list rq) else Ret tt);
  let x := conn_set_active 0 x in
  let x := conn_set_closing 0 x in
  rq_connect (put_conn c x rq).

(** The loop of librq.c 818-822 over the subscription list. *)
Fixpoint send_consume_all (c : conn_ptr) (qs : list rq_queue_t)
    (rq : rq_t) : res rq_t :=
  match qs with
  | [] => Ret rq
  | q :: rest =>
      rq ← rq_send_consume c q rq;
      send_consume_all c rest rq
  end.

(** librq.c 740-827.  [error] is what [getsockopt(SO_ERROR)] stores. *)
Definition rq_connect_handler (fd : Z) (flags : Z) (c : conn_ptr)
    (error : Z) (rq : rq_t) : res rq_t :=
  _ ← assert (0 <=? fd);
  _ ← assert (negb (flags =? 0));
  x ← get_conn rq c;
  _ ← assert (conn_handle x =? fd);
  _ ← assert (negb (Z.land flags EV_WRITE =? 0));
  _ ← assert (evbase rq);
  _ ← assert (conn_connect_event x);
  let x := conn_set_connect_event false x in
  if error =? ECONNREFUSED then
    _ ← assert (conn_active x =? 0);
    _ ← assert (conn_closing x =? 0);
    _ ← assert (negb (conn_connect_event x));
    _ ← assert (bool_decide (conn_data x = None));
    rq_conn_closed c (put_conn c x rq)
  else
    _ ← assert (conn_active x =? 0);
    let x := conn_set_active (conn_active x + 1) x in
    _ ← assert (bool_decide (conn_readbuf x = None));
    let x := conn_set_readbuf (Some []) x in
    _ ← assert (bool_decide (conn_sendbuf x = None));
    let x := conn_set_sendbuf (Some []) x in
    _ ← assert (bool_decide (conn_inbuf x = None));
    _ ← assert (bool_decide (conn_data x = None));
    let x := conn_set_data (Some rq_data_init) x in
    _ ← assert (negb (conn_read_event x));
    _ ← assert (0 <? conn_handle x);
    let x := conn_set_read_event true x in
    out ← match conn_outbuf x with Some b => Ret b | None => Fail AssertFailed end;
    x ← (if 0 <? Z.of_nat (length out)
         then _ ← assert (negb (conn_write_event x));
              Ret (conn_set_write_event true x)
         else Ret x);
    let rq := put_conn c x rq in
    rq ← send_consume_all c (queues rq) rq;
    rq_process_read c rq.

(** librq.c 1333-1347. *)
Definition cmdClosing (c : conn_ptr) (rq : rq_t) : res rq_t :=
  '(x, _) ← get_data rq c;
  _ ← assert (conn_closing x =? 0);
  rq_connect (put_conn c (conn_set_closing (conn_closing x + 1) x) rq).

(** The loop of librq.c 1066-1085.  [i] is the position of [qs] in the
    subscription list, where the assigned queue-id is written. *)
Fixpoint consuming_scan (queue : string) (qid : queue_id_t)
    (qs : list rq_queue_t) (i : nat) (rq : rq_t) : res rq_t :=
  match qs with
  | [] => Ret rq
  | q :: rest =>
      if strcmp_eq (q_queue q) queue then
        _ ← assert (q_qid q =? 0);
        let rq := rq_set_queues (<[i := q_set_qid qid q]> (queues rq)) rq in
        match q_accepted q with
        | Some f => call_accepted f (cstr queue) qid (q_arg q) rq
        | None => Ret rq
        end
      else consuming_scan queue qid rest (S i) rq
  end.

(** librq.c 1047-1091. *)
Definition cmdConsuming (c : conn_ptr) (rq : rq_t) : res rq_t :=
  '(_, d) ← get_data rq c;
  if BIT_TEST (data_mask d) RQ_DATA_MASK_QUEUEID
     && BIT_TEST (data_mask d) RQ_DATA_MASK_QUEUE
  then
    let queue := data_queue d in
    let qid := data_qid d in
    _ ← assert (0 <? qid);
    _ ← assert (0 <? Z.of_nat (length (queues rq)));
    consuming_scan queue qid (queues rq) 0%nat rq
  else Fail AssertFailed.

(** The search of librq.c 1120-1134.  [qname] is NULL when the request
    named no queue, and [strcmp] on a NULL pointer is undefined. *)
Fixpoint find_queue (qid : queue_id_t) (qname : option string)
    (qs : list rq_queue_t) : res (option rq_queue_t) :=
  match qs with
  | [] => Ret None
  | tmp :: rest =>
      _ ← assert (0 <? q_qid tmp);
      if qid =? q_qid tmp then Ret (Some tmp)
      else
        match qname with
        | None => Fail Undefined
        | Some n =>
            if strcmp_eq n (q_queue tmp) then Ret (Some tmp)
            else find_queue qid qname rest
        end
  end.

Definition undelivered_commands (msgid : msg_id_t) (buf : expbuf_t) : expbuf_t :=
  let buf := addCmd buf RQ_CMD_CLEAR in
  let buf := addCmdLargeInt buf RQ_CMD_ID (short_int msgid) in
  addCmd buf RQ_CMD_UNDELIVERED.

Definition delivered_commands (msgid : msg_id_t) (buf : expbuf_t) : expbuf_t :=
  let buf := addCmd buf RQ_CMD_CLEAR in
  let buf := addCmdLargeInt buf RQ_CMD_ID (short_int msgid) in
  addCmd buf RQ_CMD_DELIVERED.

(** librq.c 1181-1198: what [cmdRequest] does once the handler is back. *)
Definition request_finish (p : msg_ptr) (rq : rq_t) : res rq_t :=
  m ← get_msg rq p;
  if msg_noreply m =? 1 then rq_msg_clear rq p
  else if rq_msgstate_eqb (msg_state m) rq_msgstate_replied
       then rq_msg_clear rq p
       else Ret (put_msg p (msg_set_state rq_msgstate_delivered m) rq).

(** librq.c 1147-1179: acknowledge, allocate and fill the inbound message. *)
Definition request_accept (c : conn_ptr) (msgid : msg_id_t) (rq : rq_t)
    : res (msg_ptr * rq_t) :=
  rq ← send_commands c (delivered_commands msgid) rq;
  '(p, rq) ← rq_msg_new rq (Some c);
  m ← get_msg rq p;
  _ ← assert (0 <=? msg_id m);
  _ ← assert (msg_src_id m =? -1);
  _ ← assert (rq_msgstate_eqb (msg_state m) rq_msgstate_new);
  '(x, d) ← get_data rq c;
  _ ← assert (0 <=? msgid);
  let m := msg_set_src_id msgid m in
  let m := if BIT_TEST (data_flags d) RQ_DATA_FLAG_NOREPLY
           then msg_set_noreply 1 m else m in
  _ ← assert (bool_decide (msg_data m = None));
  _ ← assert (negb (bool_decide (data_payload d = None)));
  let m := msg_set_data (data_payload d) m in
  let rq := put_data c x (data_set_payload None d) rq in
  let m := msg_set_state rq_msgstate_delivering m in
  Ret (p, put_msg p m rq).

(** librq.c 1093-1206. *)
Definition cmdRequest (c : conn_ptr) (rq : rq_t) : res rq_t :=
  '(_, d) ← get_data rq c;
  if BIT_TEST (data_mask d) RQ_DATA_MASK_ID
     && BIT_TEST (data_mask d) RQ_DATA_MASK_PAYLOAD
     && (BIT_TEST (data_mask d) RQ_DATA_MASK_QUEUEID
         || BIT_TEST (data_mask d) RQ_DATA_MASK_QUEUE)
  then
    let msgid := data_id d in
    _ ← assert (0 <=? msgid);
    let qid := request_qid d in
    let qname := request_qname d in
    _ ← assert ((bool_decide (qname = None) && (0 <? qid))
                || (negb (bool_decide (qname = None)) && (qid =? 0)));
    queue ← find_queue qid qname (queues rq);
    match queue with
    | None => send_commands c (undelivered_commands msgid) rq
    | Some q =>
        '(p, rq) ← request_accept c msgid rq;
        rq ← call_handler (q_handler q) p (q_arg q) rq;
        request_finish p rq
    end
  else Fail AssertFailed.

End Callouts.

(** ** Invariants of the message table *)

(** The number of non-NULL slots. *)
Fixpoint count_live (l : list (option msg_ptr)) : Z :=
  match l with
  | [] => 0
  | None :: t => count_live t
  | Some _ :: t => 1 + count_live t
  end.

(** [msg_list[i]] is NULL or [msg_list[i]->id == i]. *)
Definition slot_ids_ok (rq : rq_t) : Prop :=
  forall (i : nat) (p : msg_ptr),
    msg_list rq !! i = Some (Some p) ->
    exists m, msgs rq !! p = Some m /\ msg_id m = Z.of_nat i.

Definition used_ok (rq : rq_t) : Prop :=
  msg_used rq = count_live (msg_list rq).

Definition used_bounds (rq : rq_t) : Prop :=
  0 <= msg_used rq <= msg_max rq.

Definition table_inv (rq : rq_t) : Prop :=
  slot_ids_ok rq /\ used_ok rq /\ used_bounds rq.

(** The discipline of the free pool, which C gets from [malloc] and from
    pushing a record only when it leaves the table: pooled records are
    distinct cells of the store and none of them sits in a slot. *)
Definition pool_ok (rq : rq_t) : Prop :=
  NoDup (msg_pool rq) /\
  forall p : msg_ptr, p ∈ msg_pool rq ->
    (p < length (msgs rq))%nat /\
    forall i : nat, msg_list rq !! i <> Some (Some p).

(** The hint is "an ID known to be free, or -1". *)
Definition hint_ok (rq : rq_t) : Prop :=
  msg_next rq = -1 \/
  (0 <= msg_next rq < msg_max rq /\
   msg_list rq !! Z.to_nat (msg_next rq) = Some None).

(** The ids of the live messages are pairwise distinct. *)
Definition live_ids_distinct (rq : rq_t) : Prop :=
  forall (i j : nat) (p q : msg_ptr) (m n : rq_message_t),
    msg_list rq !! i = Some (Some p) ->
    msg_list rq !! j = Some (Some q) ->
    msgs rq !! p = Some m ->
    msgs rq !! q = Some n ->
    i <> j -> msg_id m <> msg_id n /\ p <> q.

(** Where [rq_msg_new] put the message: slot [k], by one of the three
    routes of librq.c 1535-1562. *)
Definition placed_by_hint (rq rq' : rq_t) (p : msg_ptr) (k : nat) : Prop :=
  msg_used rq < msg_max rq /\ 0 <= msg_next rq /\
  k = Z.to_nat (msg_next rq) /\ msg_list rq !! k = Some None /\
  msg_list rq' = <[k := Some p]> (msg_list rq) /\ msg_next rq' = -1.

Definition placed_by_scan (rq rq' : rq_t) (p : msg_ptr) (k : nat) : Prop :=
  msg_used rq < msg_max rq /\ msg_next rq < 0 /\
  find_free (msg_list rq) = Some k /\
  msg_list rq' = <[k := Some p]> (msg_list rq) /\ msg_next rq' = msg_next rq.

Definition placed_by_growth (rq rq' : rq_t) (p : msg_ptr) (k : nat) : Prop :=
  msg_used rq = msg_max rq /\ k = length (msg_list rq) /\
  msg_list rq' = msg_list rq ++ [Some p] /\ msg_next rq' = msg_next rq.

(** A table with one live outbound message in slot 0 and a free slot 1. *)
Definition table_example : rq_t :=
  {| evbase := true;
     connlist := [];
     conns := [];
     queues := [];
     msg_list := [Some 0%nat; None];
     msg_used := 1;
     msg_next := 1;
     msg_pool := [];
     msgs := [msg_set_id 0 (msg_initial None)] |}.

(** ** Sample states

    An active connection to one controller, a subscription to "q1" that the
    controller has acknowledged with queue-id 3, and an empty table. *)
Definition conn_example : rq_conn_t :=
  {| conn_hostname := "127.0.0.1:13555";
     conn_handle := 5;
     conn_read_event := true;
     conn_write_event := false;
     conn_connect_event := false;
     conn_readbuf := Some [];
     conn_inbuf := None;
     conn_sendbuf := Some [];
     conn_outbuf := Some [];
     conn_data := Some rq_data_init;
     conn_active := 1;
     conn_closing := 0;
     conn_shutdown := 0 |}.

Definition queue_example : rq_queue_t :=
  {| q_queue := "q1"; q_qid := 3; q_exclusive := 0; q_max := 10;
     q_priority := RQ_PRIORITY_NORMAL; q_handler := 1%nat;
     q_accepted := Some 2%nat;
     q_dropped := None; q_arg := None |}.

(** The subscription to "q1" before the controller has acknowledged it. *)
Definition queue_pending_example : rq_queue_t := q_set_qid 0 queue_example.

Definition client_example : rq_t :=
  {| evbase := true;
     connlist := [0%nat];
     conns := [conn_example];
     queues := [queue_example];
     msg_list := replicate DEFAULT_MSG_ARRAY None;
     msg_used := 0;
     msg_next := 0;
     msg_pool := [];
     msgs := [] |}.

(** The client with the accumulator of its connection replaced. *)
Definition with_data (d : rq_data_t) (rq : rq_t) : rq_t :=
  put_conn 0%nat (conn_set_data (Some d) conn_example) rq.

(** Is some subscription named [name]? *)
Definition queue_known (name : string) (qs : list rq_queue_t) : bool :=
  existsb (fun q => strcmp_eq (q_queue q) name) qs.

(** ** Connection states of the specification *)

(** [connecting]: the socket exists, the connect event is registered and
    nothing else is; this is what [rq_connect] leaves behind. *)
Definition conn_connecting (x : rq_conn_t) : Prop :=
  0 < conn_handle x /\ conn_connect_event x = true /\
  conn_read_event x = false /\ conn_write_event x = false /\
  conn_active x = 0 /\ conn_closing x = 0 /\
  conn_readbuf x = None /\ conn_inbuf x = None /\ conn_sendbuf x = None /\
  conn_data x = None /\ conn_outbuf x <> None.

(** A connection that can emit: it has a socket, an empty scratch buffer,
    an output buffer, and a reactor to register the write event with. *)
Definition conn_can_send (rq : rq_t) (x : rq_conn_t) (out : expbuf_t) : Prop :=
  conn_handle x <> INVALID_HANDLE /\ conn_sendbuf x = Some [] /\
  conn_outbuf x = Some out /\ evbase rq = true.

(** The connection once [data] has been queued for writing. *)
Definition conn_after_send (x : rq_conn_t) (out : expbuf_t) : rq_conn_t :=
  conn_set_write_event true (conn_set_outbuf (Some out) x).

(** "CLEAR, [EXCLUSIVE], QUEUE=name, MAX=max, PRIORITY=priority, CONSUME". *)
Definition consume_sequence (q : rq_queue_t) : list risp_item :=
  [Cmd RQ_CMD_CLEAR]
  ++ (if q_exclusive q =? 0 then [] else [Cmd RQ_CMD_EXCLUSIVE])
  ++ [CmdShortStr RQ_CMD_QUEUE (cstr (q_queue q));
      CmdInt RQ_CMD_MAX (q_max q);
      CmdShortInt RQ_CMD_PRIORITY (q_priority q);
      Cmd RQ_CMD_CONSUME].

(** What [rq_consume] and [rq_send_consume] demand of a subscription. *)
Definition queue_wf (q : rq_queue_t) : Prop :=
  0 <= q_max q /\ 0 < strlen (q_queue q) < 256.

(** The connection with [out] pending: the write event is registered exactly
    when there is something to write. *)
Definition conn_with_out (x : rq_conn_t) (out : expbuf_t) : rq_conn_t :=
  conn_set_write_event (match out with [] => false | _ => true end)
    (conn_set_outbuf (Some out) x).

(** [active], as [rq_connect_handler] sets a connecting connection up, with
    [out] pending. *)
Definition conn_activated (x : rq_conn_t) (out : expbuf_t) : rq_conn_t :=
  {| conn_hostname := conn_hostname x;
     conn_handle := conn_handle x;
     conn_read_event := true;
     conn_write_event := match out with [] => false | _ => true end;
     conn_connect_event := false;
     conn_readbuf := Some [];
     conn_inbuf := None;
     conn_sendbuf := Some [];
     conn_outbuf := Some out;
     conn_data := Some rq_data_init;
     conn_active := 1;
     conn_closing := conn_closing x;
     conn_shutdown := conn_shutdown x |}.

(** A second controller that has not been connected to yet. *)
Definition conn_idle_example : rq_conn_t := conn_new "127.0.0.1:13556".

(** The first controller while its non-blocking connect is in progress, as
    [rq_connect] leaves it. *)
Definition conn_connecting_example : rq_conn_t :=
  {| conn_hostname := "127.0.0.1:13555";
     conn_handle := 5;
     conn_read_event := false;
     conn_write_event := false;
     conn_connect_event := true;
     conn_readbuf := None;
     conn_inbuf := None;
     conn_sendbuf := None;
     conn_outbuf := Some [];
     conn_data := None;
     conn_active := 0;
     conn_closing := 0;
     conn_shutdown := 0 |}.

(** Two controllers, the head connecting, one subscription registered. *)
Definition client_connecting_example : rq_t :=
  {| evbase := true;
     connlist := [0%nat; 1%nat];
     conns := [conn_connecting_example; conn_idle_example];
     queues := [queue_pending_example];
     msg_list := replicate DEFAULT_MSG_ARRAY None;
     msg_used := 0;
     msg_next := 0;
     msg_pool := [];
     msgs := [] |}.

(** Two controllers, the head active. *)
Definition client_failover_example : rq_t :=
  {| evbase := true;
     connlist := [0%nat; 1%nat];
     conns := [conn_example; conn_idle_example];
     queues := [queue_example];
     msg_list := replicate DEFAULT_MSG_ARRAY None;
     msg_used := 0;
     msg_next := 0;
     msg_pool := [];
     msgs := [] |}.

(** A kernel that accepts every address, hands out descriptor 5 and starts
    every connect in the background; no input is pending. *)
Definition parse_example (_ : string) : Z := 0.
Definition socket_example (_ : rq_t) : Z := 5.
Definition connect_example (_ : Z) (_ : string) : Z * Z := (-1, EINPROGRESS).
Definition process_read_example (_ : conn_ptr) (rq : rq_t) : res rq_t := Ret rq.

(** <errno.h> on Linux. *)
Definition ETIMEDOUT : Z := 110.

(** "CLEAR, ID=msg.src_id, [PAYLOAD], REPLY". *)
Definition reply_sequence (src_id : msg_id_t) (payload : option string)
    : list risp_item :=
  [Cmd RQ_CMD_CLEAR; CmdLargeInt RQ_CMD_ID src_id]
  ++ match payload with
     | Some s => [CmdLargeStr RQ_CMD_PAYLOAD s]
     | None => []
     end
  ++ [Cmd RQ_CMD_REPLY].

(** The arguments [rq_reply] accepts, and the payload they denote: no data
    with length 0, or the first [len] bytes of [data]. *)
Definition reply_args (len : Z) (data : option string)
    (payload : option string) : Prop :=
  (len = 0 /\ data = None /\ payload = None) \/
  (0 < len /\ exists s, data = Some s /\ len <= Z.of_nat (String.length s) /\
                        payload = Some (substring 0 (Z.to_nat len) s)).

(** An inbound message that [rq_reply] accepts: it came in on [c], still
    awaits its reply, and was not sent as NOREPLY. *)
Definition msg_awaits_reply (m : rq_message_t) (c : conn_ptr) : Prop :=
  msg_conn m = Some c /\
  (msg_state m = rq_msgstate_delivering \/ msg_state m = rq_msgstate_delivered) /\
  msg_noreply m = 0 /\ msg_broadcast m = 0 /\ msg_queue m = None /\
  msg_data m <> None.

(** The sample client with one inbound message in slot 0 that arrived as
    request 7 on connection 0 and is being delivered. *)
Definition msg_inbound_example (noreply : Z) (state : rq_msgstate) : rq_message_t :=
  {| msg_queue := None;
     msg_id := 0;
     msg_src_id := 7;
     msg_broadcast := 0;
     msg_noreply := noreply;
     msg_state := state;
     msg_conn := Some 0%nat;
     msg_reply_handler := None;
     msg_fail_handler := None;
     msg_arg := None;
     msg_data := Some "hi"%string |}.

Definition client_inbound_example (noreply : Z) (state : rq_msgstate) : rq_t :=
  {| evbase := true;
     connlist := [0%nat];
     conns := [conn_example];
     queues := [queue_example];
     msg_list := [Some 0%nat; None];
     msg_used := 1;
     msg_next := -1;
     msg_pool := [];
     msgs := [msg_inbound_example noreply state] |}.

(** A REQUEST that names its queue by name only, with id and payload. *)
Definition request_by_name (d : rq_data_t) : Prop :=
  BIT_TEST (data_mask d) RQ_DATA_MASK_ID = true /\
  BIT_TEST (data_mask d) RQ_DATA_MASK_PAYLOAD = true /\
  BIT_TEST (data_mask d) RQ_DATA_MASK_QUEUE = true /\
  BIT_TEST (data_mask d) RQ_DATA_MASK_QUEUEID = false.

(** A REQUEST with id, payload and exactly one of queue-id and queue name. *)
Definition request_complete (d : rq_data_t) : Prop :=
  BIT_TEST (data_mask d) RQ_DATA_MASK_ID = true /\
  BIT_TEST (data_mask d) RQ_DATA_MASK_PAYLOAD = true /\
  ((request_qname d = None /\ 0 < request_qid d) \/
   (request_qname d <> None /\ request_qid d = 0)).

(** The request's queue matches the registered subscription [q].  By
    name, [q] is the first subscription of the list whose name is the
    requested one.  By queue-id, [q] has the requested id and is the head
    of the list: behind the head the search compares the names, and the
    request carries none.  Every subscription up to [q], [q] included, has
    been acknowledged by the controller (its queue-id is not 0). *)
Definition request_names (d : rq_data_t) (qs : list rq_queue_t)
    (q : rq_queue_t) : Prop :=
  exists pre post : list rq_queue_t,
    qs = pre ++ q :: post /\
    (forall t : rq_queue_t, t ∈ pre -> 0 < q_qid t) /\ 0 < q_qid q /\
    match request_qname d with
    | Some n =>
        strcmp_eq n (q_queue q) = true /\
        forall t : rq_queue_t, t ∈ pre -> strcmp_eq n (q_queue t) = false
    | None => q_qid q = request_qid d /\ pre = []
    end.

(** "CLEAR, ID=id, UNDELIVERED" and "CLEAR, ID=id, DELIVERED". *)
Definition undelivered_sequence (id : msg_id_t) : list risp_item :=
  [Cmd RQ_CMD_CLEAR; CmdLargeInt RQ_CMD_ID id; Cmd RQ_CMD_UNDELIVERED].

Definition delivered_sequence (id : msg_id_t) : list risp_item :=
  [Cmd RQ_CMD_CLEAR; CmdLargeInt RQ_CMD_ID id; Cmd RQ_CMD_DELIVERED].

Definition client_pending_example : rq_t :=
  rq_set_queues [queue_pending_example] client_example.

(** The accumulator after CLEAR, ID=7, QUEUE=name, PAYLOAD="hi". *)
Definition data_request_example (name : string) : rq_data_t :=
  {| data_flags := 0; data_mask := 56; data_id := 7; data_qid := 0;
     data_timeout := 0; data_priority := 0;
     data_payload := Some "hi"%string; data_queue := name |}.

(** A handler that returns without replying, and one that replies "ok"
    before it returns. *)
Definition handler_silent (_ : fn_ptr) (_ : msg_ptr) (_ : option arg_ptr)
    (rq : rq_t) : res rq_t := Ret rq.

Definition handler_replies (_ : fn_ptr) (p : msg_ptr) (_ : option arg_ptr)
    (rq : rq_t) : res rq_t := rq_reply p 2 (Some "ok"%string) rq.

(** The inbound message as the handler first sees it: in slot [k], carrying
    the wire id and the payload taken from the accumulator. *)
Definition msg_delivering (c : conn_ptr) (k : nat) (id : msg_id_t)
    (noreply : Z) (payload : string) : rq_message_t :=
  {| msg_queue := None;
     msg_id := Z.of_nat k;
     msg_src_id := id;
     msg_broadcast := 0;
     msg_noreply := noreply;
     msg_state := rq_msgstate_delivering;
     msg_conn := Some c;
     msg_reply_handler := None;
     msg_fail_handler := None;
     msg_arg := None;
     msg_data := Some payload |}.

(** The NOREPLY flag of the accumulator, as [msg->noreply] records it. *)
Definition request_noreply (d : rq_data_t) : Z :=
  if BIT_TEST (data_flags d) RQ_DATA_FLAG_NOREPLY then 1 else 0.

(** A subscription with an empty queue name, which [rq_consume] accepts. *)
Definition queue_unnamed_example : rq_queue_t :=
  {| q_queue := EmptyString; q_qid := 0; q_exclusive := 0; q_max := 10;
     q_priority := RQ_PRIORITY_NORMAL; q_handler := 1%nat; q_accepted := None;
     q_dropped := None; q_arg := None |}.

(** The tables the library can build: [rq_init] followed by any number of
    completed allocations and releases. *)
Inductive table_reachable : rq_t -> Prop :=
| reach_init : table_reachable rq_init
| reach_new (rq rq' : rq_t) (conn : option conn_ptr) (p : msg_ptr) :
    table_reachable rq -> rq_msg_new rq conn = Ret (p, rq') ->
    table_reachable rq'
| reach_clear (rq rq' : rq_t) (p : msg_ptr) :
    table_reachable rq -> rq_msg_clear rq p = Ret rq' ->
    table_reachable rq'.


(** * The rest of librq.c *)

(** ** Building and sending a request (librq.c 1612-1712) *)

Definition msg_set_queue (v : option string) (m : rq_message_t) : rq_message_t :=
  mk_msg v (msg_id m) (msg_src_id m) (msg_broadcast m) (msg_noreply m)
         (msg_state m) (msg_conn m) (msg_reply_handler m) (msg_fail_handler m)
         (msg_arg m) (msg_data m).

Definition msg_set_broadcast (v : Z) (m : rq_message_t) : rq_message_t :=
  mk_msg (msg_queue m) (msg_id m) (msg_src_id m) v (msg_noreply m)
         (msg_state m) (msg_conn m) (msg_reply_handler m) (msg_fail_handler m)
         (msg_arg m) (msg_data m).

Definition msg_set_handlers (reply fail : option fn_ptr) (arg : option arg_ptr)
    (m : rq_message_t) : rq_message_t :=
  mk_msg (msg_queue m) (msg_id m) (msg_src_id m) (msg_broadcast m)
         (msg_noreply m) (msg_state m) (msg_conn m) reply fail arg (msg_data m).

(** librq.c 1612-1619.  The message keeps the caller's pointer. *)
Definition rq_msg_setqueue (p : msg_ptr) (queue : string) (rq : rq_t) : res rq_t :=
  m ← get_msg rq p;
  _ ← assert (bool_decide (msg_queue m = None));
  Ret (put_msg p (msg_set_queue (Some queue) m) rq).

(** librq.c 1622-1628. *)
Definition rq_msg_setbroadcast (p : msg_ptr) (rq : rq_t) : res rq_t :=
  m ← get_msg rq p;
  _ ← assert (msg_broadcast m =? 0);
  Ret (put_msg p (msg_set_broadcast 1 m) rq).

(** librq.c 1630-1636. *)
Definition rq_msg_setnoreply (p : msg_ptr) (rq : rq_t) : res rq_t :=
  m ← get_msg rq p;
  _ ← assert (msg_noreply m =? 0);
  Ret (put_msg p (msg_set_noreply 1 m) rq).

(** librq.c 1643-1651.  [BUF_LENGTH(msg->data)] dereferences the buffer, so
    a message without one (an inbound message) is undefined here; the
    [length] bytes at [data] are copied, and reading past them is undefined. *)
Definition rq_msg_setdata (p : msg_ptr) (len : Z) (data : string)
    (rq : rq_t) : res rq_t :=
  m ← get_msg rq p;
  _ ← assert (0 <? len);
  match msg_data m with
  | None => Fail Undefined
  | Some old =>
      _ ← assert (Z.of_nat (String.length old) =? 0);
      if len <=? Z.of_nat (String.length data)
      then Ret (put_msg p (msg_set_data (Some (substring 0 (Z.to_nat len) data)) m) rq)
      else Fail Undefined
  end.

(** The commands of librq.c 1694-1701. *)
Definition send_request_commands (m : rq_message_t) (queue data : string)
    (buf : expbuf_t) : expbuf_t :=
  let buf := addCmd buf RQ_CMD_CLEAR in
  let buf := addCmdLargeInt buf RQ_CMD_ID (msg_id m) in
  let buf := addCmdShortStr buf RQ_CMD_QUEUE (cstr queue) in
  let buf := addCmdLargeStr buf RQ_CMD_PAYLOAD data in
  let buf := if 0 <? msg_noreply m then addCmd buf RQ_CMD_NOREPLY else buf in
  if 0 <? msg_broadcast m then addCmd buf RQ_CMD_BROADCAST
  else addCmd buf RQ_CMD_REQUEST.

(** librq.c 1659-1712. *)
Definition rq_send (p : msg_ptr) (reply_handler fail_handler : option fn_ptr)
    (arg : option arg_ptr) (rq : rq_t) : res rq_t :=
  m ← get_msg rq p;
  data ← match msg_data m with Some d => Ret d | None => Fail AssertFailed end;
  _ ← assert (0 <? Z.of_nat (String.length data));
  _ ← assert (0 <=? msg_id m);
  _ ← assert (bool_decide (msg_conn m = None));
  queue ← match msg_queue m with Some q => Ret q | None => Fail AssertFailed end;
  _ ← assert (msg_src_id m =? -1);
  _ ← assert (rq_msgstate_eqb (msg_state m) rq_msgstate_new);
  _ ← assert (bool_decide (arg = None)
              || negb (bool_decide (reply_handler = None))
              || negb (bool_decide (fail_handler = None)));
  let m := msg_set_handlers reply_handler fail_handler arg m in
  let rq := put_msg p m rq in
  match connlist rq with
  | [] => Fail AssertFailed
  | c :: _ =>
      x ← get_conn rq c;
      if (0 <? conn_active x) && (conn_closing x =? 0)
      then send_commands c (send_request_commands m queue data) rq
      else Fail AssertFailed
  end.

(** ** DELIVERED and REPLY for a request this client sent (librq.c 1214-1304) *)

(** librq.c 1214-1244. *)
Definition cmdDelivered (c : conn_ptr) (rq : rq_t) : res rq_t :=
  '(_, d) ← get_data rq c;
  if BIT_TEST (data_mask d) RQ_DATA_MASK_ID then
    let id := data_id d in
    _ ← assert (0 <=? id);
    _ ← assert ((0 <=? id) && (id <? msg_max rq));
    p ← match msg_list rq !! Z.to_nat id with
        | Some (Some p) => Ret p
        | _ => Fail AssertFailed
        end;
    m ← get_msg rq p;
    _ ← assert (bool_decide (msg_conn m = None));
    _ ← assert (rq_msgstate_eqb (msg_state m) rq_msgstate_new);
    Ret (put_msg p (msg_set_state rq_msgstate_delivered m) rq)
  else Fail AssertFailed.

Section ReplyCallout.

(** [msg->reply_handler(msg)]. *)
Variable call_reply_handler : fn_ptr -> msg_ptr -> rq_t -> res rq_t.

(** librq.c 1250-1304. *)
Definition cmdReply (c : conn_ptr) (rq : rq_t) : res rq_t :=
  '(x, d) ← get_data rq c;
  if BIT_TEST (data_mask d) RQ_DATA_MASK_ID
     && BIT_TEST (data_mask d) RQ_DATA_MASK_PAYLOAD
  then
    let msgid := data_id d in
    _ ← assert (0 <=? msgid);
    _ ← assert (0 <? msg_used rq);
    _ ← assert (0 <? msg_max rq);
    _ ← assert (msgid <? msg_max rq);
    _ ← assert (negb (msgid =? msg_next rq));
    p ← match msg_list rq !! Z.to_nat msgid with
        | Some (Some p) => Ret p
        | _ => Fail AssertFailed
        end;
    m ← get_msg rq p;
    _ ← assert (msg_id m =? msgid);
    _ ← assert (msg_src_id m =? -1);
    _ ← assert (bool_decide (msg_conn m = None));
    _ ← assert (rq_msgstate_eqb (msg_state m) rq_msgstate_delivered);
    _ ← assert (negb (bool_decide (msg_data m = None)));
    _ ← assert (negb (bool_decide (data_payload d = None)));
    let m := msg_set_data (data_payload d) m in
    let rq := put_msg p m (put_data c x (data_set_payload None d) rq) in
    rq ← match msg_reply_handler m with
         | Some f => call_reply_handler f p rq
         | None => Ret rq
         end;
    rq_msg_clear rq p
  else Fail AssertFailed.

End ReplyCallout.

(** "CLEAR, ID=msg.id, QUEUE, PAYLOAD, [NOREPLY], (BROADCAST|REQUEST)". *)
Definition request_sequence (id : msg_id_t) (queue data : string)
    (noreply broadcast : Z) : list risp_item :=
  [Cmd RQ_CMD_CLEAR; CmdLargeInt RQ_CMD_ID id;
   CmdShortStr RQ_CMD_QUEUE (cstr queue); CmdLargeStr RQ_CMD_PAYLOAD data]
  ++ (if 0 <? noreply then [Cmd RQ_CMD_NOREPLY] else [])
  ++ [if 0 <? broadcast then Cmd RQ_CMD_BROADCAST else Cmd RQ_CMD_REQUEST].

(** An outbound message that [rq_send] accepts: built by the application,
    placed in the table, with a queue and a non-empty payload. *)
Definition msg_outbound_ready (m : rq_message_t) (queue data : string) : Prop :=
  msg_conn m = None /\ msg_state m = rq_msgstate_new /\ msg_src_id m = -1 /\
  0 <= msg_id m /\ msg_queue m = Some queue /\ msg_data m = Some data /\
  data <> EmptyString.

(** The head connection takes new work: active and not closing. *)
Definition conn_serving (x : rq_conn_t) : Prop :=
  0 < conn_active x /\ conn_closing x = 0.

(** The sample client with an outbound message for queue "w" in slot 0. *)
Definition msg_outbound_example : rq_message_t :=
  {| msg_queue := Some "w"%string;
     msg_id := 0;
     msg_src_id := -1;
     msg_broadcast := 0;
     msg_noreply := 1;
     msg_state := rq_msgstate_new;
     msg_conn := None;
     msg_reply_handler := None;
     msg_fail_handler := None;
     msg_arg := None;
     msg_data := Some "x"%string |}.

Definition client_outbound_example : rq_t :=
  {| evbase := true;
     connlist := [0%nat];
     conns := [conn_example];
     queues := [];
     msg_list := [Some 0%nat; None];
     msg_used := 1;
     msg_next := -1;
     msg_pool := [];
     msgs := [msg_outbound_example] |}.

(** An outbound message the controller may still answer: sent by this
    client and holding its request data. *)
Definition msg_outbound (m : rq_message_t) : Prop :=
  msg_conn m = None /\ msg_src_id m = -1 /\ msg_data m <> None.

(** The accumulator names message [k] and carries [payload]. *)
Definition data_reply (d : rq_data_t) (k : nat) (payload : string) : Prop :=
  BIT_TEST (data_mask d) RQ_DATA_MASK_ID = true /\
  BIT_TEST (data_mask d) RQ_DATA_MASK_PAYLOAD = true /\
  data_id d = Z.of_nat k /\ data_payload d = Some payload.

(** The client when the reply handler is entered: the message holds the
    reply payload and the accumulator has given it up. *)
Definition reply_delivery (c : conn_ptr) (x : rq_conn_t) (d : rq_data_t)
    (p : msg_ptr) (m : rq_message_t) (rq : rq_t) : rq_t :=
  put_msg p (msg_set_data (data_payload d) m)
    (put_data c x (data_set_payload None d) rq).

(** The sample client with its outbound message acknowledged, and the
    accumulator after CLEAR, ID=0, PAYLOAD="r". *)
Definition client_delivered_example : rq_t :=
  with_data (mk_data 0 40 0 0 0 0 (Some "r"%string) EmptyString)
    (put_msg 0%nat (msg_set_state rq_msgstate_delivered msg_outbound_example)
       client_outbound_example).

(** The accumulator after CLEAR, ID=0. *)
Definition data_id_example : rq_data_t := mk_data 0 8 0 0 0 0 None EmptyString.

(** The accumulator after CLEAR, ID=0, PAYLOAD="r". *)
Definition data_reply_example : rq_data_t :=
  mk_data 0 40 0 0 0 0 (Some "r"%string) EmptyString.

(** A reply handler that does nothing. *)
Definition reply_handler_silent (_ : fn_ptr) (_ : msg_ptr) (rq : rq_t)
    : res rq_t := Ret rq.

(** ** Connection states, continued *)

(** [idle]: a connection [rq_connect] may start on.  It is what
    [rq_addcontroller] creates and what [rq_conn_closed] leaves, as long as
    the application has not shut it down. *)
Definition conn_idle (x : rq_conn_t) : Prop :=
  conn_shutdown x = 0 /\ conn_closing x = 0 /\ conn_active x = 0 /\
  conn_connect_event x = false /\ conn_read_event x = false /\
  conn_write_event x = false /\ conn_handle x = INVALID_HANDLE /\
  0 < strlen (conn_hostname x) /\
  conn_readbuf x = None /\ conn_inbuf x = None /\ conn_data x = None /\
  conn_outbuf x <> None.

(** An open connection whose scratch buffers are empty, as they are
    between two reactor callbacks. *)
Definition conn_open (x : rq_conn_t) : Prop :=
  conn_handle x <> INVALID_HANDLE /\ conn_connect_event x = false /\
  conn_readbuf x = Some [] /\ conn_sendbuf x = Some [] /\
  conn_outbuf x <> None.

(** [closed], as [rq_conn_closed] leaves the record (librq.c 291-353). *)
Definition conn_closed (x : rq_conn_t) : rq_conn_t :=
  {| conn_hostname := conn_hostname x;
     conn_handle := INVALID_HANDLE;
     conn_read_event := false;
     conn_write_event := false;
     conn_connect_event := conn_connect_event x;
     conn_readbuf := None;
     conn_inbuf := None;
     conn_sendbuf := None;
     conn_outbuf := Some [];
     conn_data := None;
     conn_active := 0;
     conn_closing := 0;
     conn_shutdown := conn_shutdown x |}.

(** [connecting], as [rq_connect] leaves an idle record. *)
Definition conn_started (handle : Z) (x : rq_conn_t) : rq_conn_t :=
  conn_set_connect_event true (conn_set_handle handle x).

(** No live message arrived on connection [c]. *)
Definition no_pending (rq : rq_t) (c : conn_ptr) : Prop :=
  forall (i : nat) (p : msg_ptr),
    msg_list rq !! i = Some (Some p) ->
    exists m, msgs rq !! p = Some m /\ msg_conn m <> Some c.

(** The failing connection goes to the tail when there is another one. *)
Definition rotate (c : conn_ptr) (l : list conn_ptr) : list conn_ptr :=
  if 1 <? Z.of_nat (length l) then ll_push_tail (ll_remove l c) c else l.

(** The client once connection [c] has been closed and rotated. *)
Definition closed_state (c : conn_ptr) (x : rq_conn_t) (rq : rq_t) : rq_t :=
  rq_set_connlist (rotate c (connlist rq)) (put_conn c (conn_closed x) rq).

Definition conn_set_shutdown (v : Z) (c : rq_conn_t) : rq_conn_t :=
  mk_conn (conn_hostname c) (conn_handle c) (conn_read_event c)
          (conn_write_event c) (conn_connect_event c) (conn_readbuf c)
          (conn_inbuf c) (conn_sendbuf c) (conn_outbuf c) (conn_data c)
          (conn_active c) (conn_closing c) v.

(** The sample client after the application has marked its only
    connection as shut down. *)
Definition client_shut_example : rq_t :=
  put_conn 0%nat (conn_set_shutdown 1 conn_example) client_example.

(** ** Shutting down (librq.c 391-473) *)

(** librq.c 391-398: the one-byte CLOSING command. *)
Definition rq_send_closing (c : conn_ptr) (rq : rq_t) : res rq_t :=
  rq_senddata c [Cmd RQ_CMD_CLOSING] rq.

Section ShutdownCallouts.

Variable evutil_parse_sockaddr_port : string -> Z.
Variable socket : rq_t -> Z.
Variable connect : Z -> string -> Z * Z.

(** The body of the loop of [rq_shutdown] (librq.c 419-470) for connection
    [c].  The flag tells whether the body ended in
    [ll_finish(); ll_start();], that is, whether the walk over the list
    starts again from the head. *)
Definition shutdown_conn (c : conn_ptr) (rq : rq_t) : res (bool * rq_t) :=
  x ← get_conn rq c;
  if conn_shutdown x =? 0 then
    let x := conn_set_shutdown (conn_shutdown x + 1) x in
    let rq := put_conn c x rq in
    if negb (conn_handle x =? INVALID_HANDLE) then
      if conn_active x =? 0 then
        _ ← assert (conn_closing x =? 0);
        _ ← assert (conn_connect_event x);
        let rq := put_conn c (conn_set_connect_event false x) rq in
        rq ← rq_conn_closed evutil_parse_sockaddr_port socket connect c rq;
        x ← get_conn rq c;
        _ ← assert (conn_closing x =? 0);
        Ret (true, rq)
      else
        _ ← assert (0 <? conn_active x);
        _ ← assert (negb (conn_connect_event x));
        _ ← assert (conn_read_event x);
        rq ← rq_send_closing c rq;
        x ← get_conn rq c;
        _ ← assert (conn_closing x =? 0);
        let rq := put_conn c (conn_set_closing (conn_closing x + 1) x) rq in
        let pending := msg_used rq in
        if pending =? 0 then
          rq ← rq_conn_closed evutil_parse_sockaddr_port socket connect c rq;
          x ← get_conn rq c;
          _ ← assert (conn_closing x =? 0);
          Ret (true, rq)
        else Ret (false, rq)
    else Ret (false, rq)
  else Ret (false, rq).

(** One walk over the list with [ll_next], from the entries [todo] on.
    [restart] is what happens when the body asks to start again. *)
Fixpoint shutdown_scan (restart : rq_t -> option (res rq_t))
    (todo : list conn_ptr) (rq : rq_t) : option (res rq_t) :=
  match todo with
  | [] => Some (Ret rq)
  | c :: rest =>
      match shutdown_conn c rq with
      | Fail f => Some (Fail f)
      | Ret (true, rq) => restart rq
      | Ret (false, rq) => shutdown_scan restart rest rq
      end
  end.

(** The walks of [rq_shutdown], at most [fuel] of them; [None] when that
    many walks all ended in a restart. *)
Fixpoint shutdown_loop (fuel : nat) (rq : rq_t) : option (res rq_t) :=
  match fuel with
  | O => None
  | S fuel => shutdown_scan (shutdown_loop fuel) (connlist rq) rq
  end.

(** librq.c 405-473.  A walk restarts only after it has marked one more
    connection as shut down, so one walk per connection record and a last
    one are enough. *)
Definition rq_shutdown (rq : rq_t) : option (res rq_t) :=
  shutdown_loop (S (length (conns rq))) rq.

End ShutdownCallouts.

(** ** Final clean-up (librq.c 476-539) *)

(** The assertions of librq.c 490-512 on a connection, and the release of
    its output buffer and host name. *)
Definition cleanup_conn (c : conn_ptr) (rq : rq_t) : res rq_t :=
  x ← get_conn rq c;
  _ ← assert (conn_handle x =? INVALID_HANDLE);
  _ ← assert (conn_active x =? 0);
  _ ← assert (conn_closing x =? 0);
  _ ← assert (0 <? conn_shutdown x);
  _ ← assert (negb (conn_read_event x));
  _ ← assert (negb (conn_write_event x));
  _ ← assert (negb (conn_connect_event x));
  _ ← assert (negb (bool_decide (conn_outbuf x = None)));
  let x := conn_set_outbuf None x in
  let x := mk_conn EmptyString (conn_handle x) (conn_read_event x)
             (conn_write_event x) (conn_connect_event x) (conn_readbuf x)
             (conn_inbuf x) (conn_sendbuf x) (conn_outbuf x) (conn_data x)
             (conn_active x) (conn_closing x) (conn_shutdown x) in
  _ ← assert (bool_decide (conn_inbuf x = None));
  _ ← assert (bool_decide (conn_readbuf x = None));
  _ ← assert (bool_decide (conn_data x = None));
  Ret (put_conn c x rq).

(** The loop of librq.c 489-513: pop and release every connection. *)
Fixpoint cleanup_conns (l : list conn_ptr) (rq : rq_t) : res rq_t :=
  match l with
  | [] => Ret rq
  | c :: rest =>
      rq ← cleanup_conn c (rq_set_connlist rest rq);
      cleanup_conns rest rq
  end.

(** The loop of librq.c 525-528, from the last slot down. *)
Fixpoint cleanup_slots (slots : list (option msg_ptr)) : res unit :=
  match slots with
  | [] => Ret tt
  | s :: rest =>
      _ ← cleanup_slots rest;
      assert (bool_decide (s = None))
  end.

(** The three pointers of the client structure that [rq_init] sets and
    only [rq_cleanup] clears: the command table [rq->risp], the slot array
    [rq->msg_list] and the pool [rq->msg_pool].  [rq_t] is the structure
    while the three are set; this record says for each whether it is, next
    to the rest of the structure. *)
Record rq_alloc : Type := mk_alloc {
  a_risp : bool;
  a_msg_list : bool;
  a_msg_pool : bool;
  a_rq : rq_t
}.

(** The client as [rq_init] and every call but [rq_cleanup] have it. *)
Definition live (rq : rq_t) : rq_alloc := mk_alloc true true true rq.

(** librq.c 476-539.  [risp_shutdown], the [free] of the slot array and
    the [free] of the pool leave NULL behind, so a second [rq_cleanup]
    stops at [assert(rq->risp != NULL)]. *)
Definition rq_cleanup (a : rq_alloc) : res rq_alloc :=
  _ ← assert (a_risp a);
  rq ← cleanup_conns (connlist (a_rq a)) (a_rq a);
  let rq := rq_set_queues [] rq in
  _ ← assert (a_msg_list a);
  _ ← assert (msg_used rq =? 0);
  _ ← cleanup_slots (msg_list rq);
  let rq := rq_set_msg_list [] rq in
  _ ← assert (a_msg_pool a);
  Ret (mk_alloc false false false (rq_set_msg_pool [] rq)).

(** The number of connection records not yet marked as shut down. *)
Fixpoint count_unmarked (l : list rq_conn_t) : nat :=
  match l with
  | [] => 0
  | x :: rest =>
      if conn_shutdown x =? 0 then S (count_unmarked rest) else count_unmarked rest
  end.

(** Connection [c] has been marked as shut down. *)
Definition conn_marked (rq : rq_t) (c : conn_ptr) : Prop :=
  exists x, conns rq !! c = Some x /\ conn_shutdown x <> 0.

(** Between two states, every connection record keeps its [shutdown]
    field and no record is added or removed. *)
Definition marks_kept (rq rq1 : rq_t) : Prop :=
  length (conns rq1) = length (conns rq) /\
  forall (c : conn_ptr) (x : rq_conn_t),
    conns rq !! c = Some x ->
    exists y, conns rq1 !! c = Some y /\ conn_shutdown y = conn_shutdown x.


(** ** States met while shutting down *)

(** An established connection that [rq_shutdown] has not visited yet, with
    [out] still to be written. *)
Definition conn_established (x : rq_conn_t) (out : expbuf_t) : Prop :=
  conn_shutdown x = 0 /\ conn_handle x <> INVALID_HANDLE /\ 0 < conn_active x /\
  conn_connect_event x = false /\ conn_read_event x = true /\
  conn_closing x = 0 /\ conn_outbuf x = Some out.

(** The scratch buffers of the connection exist and are empty. *)
Definition conn_quiet (x : rq_conn_t) : Prop :=
  conn_readbuf x = Some [] /\ conn_sendbuf x = Some [].

(** The established connection once [rq_shutdown] has marked it, queued
    CLOSING behind [out] and counted it as closing. *)
Definition conn_draining (x : rq_conn_t) (out : expbuf_t) : rq_conn_t :=
  conn_set_closing 1
    (conn_after_send (conn_set_shutdown 1 x) (out ++ [Cmd RQ_CMD_CLOSING])).


(** ** States of the final clean-up *)

(** A connection record as [rq_cleanup] demands it: closed, marked as shut
    down, without events or input buffers, its output buffer still there. *)
Definition conn_released (x : rq_conn_t) : Prop :=
  conn_handle x = INVALID_HANDLE /\ conn_active x = 0 /\ conn_closing x = 0 /\
  0 < conn_shutdown x /\ conn_read_event x = false /\
  conn_write_event x = false /\ conn_connect_event x = false /\
  conn_outbuf x <> None /\ conn_inbuf x = None /\ conn_readbuf x = None /\
  conn_data x = None.

(** A client that [rq_cleanup] can take apart. *)
Definition cleanup_ready (rq : rq_t) : Prop :=
  NoDup (connlist rq) /\
  (forall c, c ∈ connlist rq ->
     exists x, conns rq !! c = Some x /\ conn_released x) /\
  msg_used rq = 0 /\
  Forall (fun s : option msg_ptr => s = None) (msg_list rq).

(** ** Subscribing and adding controllers *)

(** "Priority must be one of {NONE, LOW, NORMAL, HIGH}". *)
Definition priority_valid (p : Z) : Prop :=
  p = RQ_PRIORITY_NONE \/ p = RQ_PRIORITY_LOW \/ p = RQ_PRIORITY_NORMAL \/
  p = RQ_PRIORITY_HIGH.

(** The names of the subscriptions, as [strcmp] reads them. *)
Definition queue_names (qs : list rq_queue_t) : list string :=
  map (fun q => cstr (q_queue q)) qs.

(** ** Steps in the life of an outbound request *)

(** One call of the application, or one DELIVERED from the controller, on
    a request that is being built or has been sent. *)
Inductive outbound_step (rq rq' : rq_t) : Prop :=
| step_setqueue (p : msg_ptr) (queue : string) :
    rq_msg_setqueue p queue rq = Ret rq' -> outbound_step rq rq'
| step_setbroadcast (p : msg_ptr) :
    rq_msg_setbroadcast p rq = Ret rq' -> outbound_step rq rq'
| step_setnoreply (p : msg_ptr) :
    rq_msg_setnoreply p rq = Ret rq' -> outbound_step rq rq'
| step_setdata (p : msg_ptr) (len : Z) (data : string) :
    rq_msg_setdata p len data rq = Ret rq' -> outbound_step rq rq'
| step_send (p : msg_ptr) (reply fail : option fn_ptr) (arg : option arg_ptr) :
    rq_send p reply fail arg rq = Ret rq' -> outbound_step rq rq'
| step_delivered (c : conn_ptr) :
    cmdDelivered c rq = Ret rq' -> outbound_step rq rq'.

(** The subscription record [rq_consume] builds (librq.c 966-976). *)
Definition queue_new (queue : string) (max priority exclusive : Z)
    (handler : fn_ptr) (accepted dropped : option fn_ptr)
    (arg : option arg_ptr) : rq_queue_t :=
  {| q_queue := cstr queue; q_qid := 0; q_exclusive := exclusive;
     q_max := max; q_priority := priority; q_handler := handler;
     q_accepted := accepted; q_dropped := dropped; q_arg := arg |}.
(** * Proofs *)

(** ** The result monad *)

Lemma bind_ret_inv {A B : Type} (m : res A) (k : A -> res B) (b : B) :
  m ≫= k = Ret b -> exists a, m = Ret a /\ k a = Ret b.
Proof.
  destruct m as [a|f]; simpl; intros H; [eauto | discriminate].
Qed.

Lemma assert_ret_inv (b : bool) (u : unit) : assert b = Ret u -> b = true.
Proof. destruct b; simpl; [reflexivity | discriminate]. Qed.

Lemma assert_true (b : bool) : b = true -> assert b = Ret tt.
Proof. intros ->; reflexivity. Qed.

(** Peel the leading binds and assertions off a hypothesis [H : ... = Ret _]. *)
Ltac res_inv H :=
  repeat match type of H with
  | (assert ?b ≫= _) = Ret _ =>
      let u := fresh "u" in let Hb := fresh "Hb" in let Hk := fresh "H" in
      apply bind_ret_inv in H; destruct H as (u & Hb & Hk);
      apply assert_ret_inv in Hb; destruct u; rename Hk into H;
      simpl in Hb;
      rewrite ?andb_true_iff, ?orb_true_iff, ?negb_true_iff, ?Z.ltb_lt,
        ?Z.leb_le, ?Z.eqb_eq, ?Z.eqb_neq, ?bool_decide_eq_true,
        ?bool_decide_eq_false in Hb
  end.

(** ** Counting and scanning the slots *)

Lemma count_live_bounds (l : list (option msg_ptr)) :
  0 <= count_live l <= Z.of_nat (length l).
Proof.
  induction l as [|[p|] l IH]; simpl count_live; simpl length; lia.
Qed.

Lemma count_live_app (l : list (option msg_ptr)) (p : msg_ptr) :
  count_live (l ++ [Some p]) = count_live l + 1.
Proof.
  induction l as [|[q|] l IH]; simpl; lia.
Qed.

Lemma count_live_fill (l : list (option msg_ptr)) (i : nat) (p : msg_ptr) :
  l !! i = Some None ->
  count_live (<[i := Some p]> l) = count_live l + 1.
Proof.
  revert i; induction l as [|[q|] l IH]; intros [|i] H; simpl in *;
    try discriminate.
  - rewrite (IH i H); lia.
  - lia.
  - apply (IH i H).
Qed.

Lemma count_live_free (l : list (option msg_ptr)) (i : nat) (p : msg_ptr) :
  l !! i = Some (Some p) ->
  count_live (<[i := None]> l) = count_live l - 1.
Proof.
  revert i; induction l as [|[q|] l IH]; intros [|i] H; simpl in *;
    try discriminate.
  - lia.
  - rewrite (IH i H); lia.
  - apply (IH i H).
Qed.

Lemma count_live_full (l : list (option msg_ptr)) :
  find_free l = None -> count_live l = Z.of_nat (length l).
Proof.
  induction l as [|[q|] l IH]; simpl; intros H; try discriminate.
  - reflexivity.
  - destruct (find_free l); [discriminate|]. rewrite IH by reflexivity. lia.
Qed.

(** The scan stops at the first NULL slot. *)
Lemma find_free_first (l : list (option msg_ptr)) (i : nat) :
  find_free l = Some i ->
  l !! i = Some None /\
  forall j : nat, (j < i)%nat -> exists q, l !! j = Some (Some q).
Proof.
  revert i; induction l as [|[q|] l IH]; simpl; intros i H; try discriminate.
  - destruct (find_free l) as [k|] eqn:E; [|discriminate].
    injection H as <-. destruct (IH k eq_refl) as [H1 H2]. split; [exact H1|].
    intros [|j] Hj; simpl; [eauto | apply H2; lia].
  - injection H as <-. split; [reflexivity | intros j Hj; lia].
Qed.

Lemma find_free_some (l : list (option msg_ptr)) :
  count_live l < Z.of_nat (length l) -> exists i, find_free l = Some i.
Proof.
  intros H. destruct (find_free l) as [i|] eqn:E; [eauto|].
  apply count_live_full in E. lia.
Qed.

Lemma msg_obtain_spec (rq rq1 : rq_t) (p : msg_ptr) :
  (forall q : msg_ptr, q ∈ msg_pool rq -> (q < length (msgs rq))%nat) ->
  msg_obtain rq = (p, rq1) ->
  p = hd (length (msgs rq)) (msg_pool rq) /\
  msg_pool rq1 = tail (msg_pool rq) /\
  (p < length (msgs rq1))%nat /\
  (length (msgs rq) <= length (msgs rq1))%nat /\
  (forall q : msg_ptr, q <> p -> msgs rq1 !! q = msgs rq !! q) /\
  msg_list rq1 = msg_list rq /\ msg_used rq1 = msg_used rq /\
  msg_next rq1 = msg_next rq /\ conns rq1 = conns rq /\
  connlist rq1 = connlist rq /\ queues rq1 = queues rq /\
  evbase rq1 = evbase rq.
Proof.
  unfold msg_obtain. destruct rq as [ev cl cs qs ml mu mn pool ms]; simpl.
  intros Hpool.
  destruct pool as [|p0 pool]; intros H; injection H as <- <-; simpl.
  - rewrite length_app; simpl. repeat split; try lia.
    intros q Hq. destruct (decide (q < length ms)%nat) as [Hlt|Hge].
    + apply lookup_app_l; exact Hlt.
    + rewrite lookup_ge_None_2 by (rewrite length_app; simpl; lia).
      symmetry; apply lookup_ge_None_2; lia.
  - repeat split; try lia. apply Hpool. left.
Qed.

Lemma rq_msg_new_spec (rq rq' : rq_t) (conn : option conn_ptr) (p : msg_ptr) :
  used_ok rq ->
  (forall q : msg_ptr, q ∈ msg_pool rq -> (q < length (msgs rq))%nat) ->
  rq_msg_new rq conn = Ret (p, rq') ->
  exists k : nat,
    (placed_by_hint rq rq' p k \/ placed_by_scan rq rq' p k
     \/ placed_by_growth rq rq' p k) /\
    msgs rq' !! p = Some (msg_set_id (Z.of_nat k) (msg_initial conn)) /\
    (forall q : msg_ptr, q <> p -> msgs rq' !! q = msgs rq !! q) /\
    (length (msgs rq) <= length (msgs rq'))%nat /\
    msg_used rq' = msg_used rq + 1 /\
    p = hd (length (msgs rq)) (msg_pool rq) /\
    msg_pool rq' = tail (msg_pool rq) /\
    conns rq' = conns rq /\ connlist rq' = connlist rq /\
    queues rq' = queues rq /\ evbase rq' = evbase rq.
Proof.
  intros Hused Hpool. unfold rq_msg_new.
  destruct (msg_obtain rq) as [p0 rq1] eqn:Eo.
  destruct (msg_obtain_spec _ _ _ Hpool Eo)
    as (Hp & Hpl & Hlt & Hlen & Hoth & Hml & Hmu & Hmn & Hcs & Hcl & Hqs & Hev).
  clear Eo. unfold used_ok in Hused.
  destruct rq as [ev cl cs qs ml mu mn pool ms].
  destruct rq1 as [ev1 cl1 cs1 qs1 ml1 mu1 mn1 pool1 ms1].
  simpl in *. subst ev1 cl1 cs1 qs1 ml1 mu1 mn1 pool1.
  intros H. unfold msg_max in H; simpl in H. res_inv H.
  apply bind_ret_inv in H. destruct H as (rq2 & Hplace & H).
  res_inv H. injection H as <- <-.
  unfold msg_place, msg_max in Hplace; simpl in Hplace.
  destruct (mu <? Z.of_nat (length ml)) eqn:Efull.
  - destruct (0 <=? mn) eqn:Ehint.
    + res_inv Hplace. injection Hplace as <-. simpl in *.
      exists (Z.to_nat mn). split.
      * left. unfold placed_by_hint, msg_max; simpl.
        repeat split; try lia; assumption.
      * rewrite Z2Nat.id by lia.
        rewrite list_lookup_insert_eq by (rewrite ?length_insert; lia).
        repeat split; try reflexivity; try lia.
        -- intros q Hq. rewrite !list_lookup_insert_ne by congruence. apply Hoth, Hq.
        -- rewrite !length_insert. lia.
    + destruct (find_free ml) as [k|] eqn:Efree.
      * injection Hplace as <-. simpl in *. exists k. split.
        -- right; left. unfold placed_by_scan, msg_max; simpl.
           repeat split; try lia; assumption.
        -- rewrite list_lookup_insert_eq by (rewrite ?length_insert; lia).
           repeat split; try reflexivity; try lia.
           ++ intros q Hq. rewrite !list_lookup_insert_ne by congruence. apply Hoth, Hq.
           ++ rewrite !length_insert. lia.
      * apply count_live_full in Efree. lia.
  - injection Hplace as <-. simpl in *. exists (length ml). split.
    + right; right. unfold placed_by_growth, msg_max; simpl.
      repeat split; try lia.
    + rewrite list_lookup_insert_eq by (rewrite ?length_insert; lia).
      repeat split; try reflexivity; try lia.
      * intros q Hq. rewrite !list_lookup_insert_ne by congruence. apply Hoth, Hq.
      * rewrite !length_insert. lia.
Qed.

Lemma rq_msg_clear_spec (rq rq' : rq_t) (p : msg_ptr) :
  rq_msg_clear rq p = Ret rq' ->
  exists m : rq_message_t,
    msgs rq !! p = Some m /\
    0 < msg_used rq /\ 0 <= msg_id m < msg_max rq /\
    msg_list rq !! Z.to_nat (msg_id m) = Some (Some p) /\
    msg_list rq' = <[Z.to_nat (msg_id m) := None]> (msg_list rq) /\
    msg_next rq' = msg_id m /\
    msg_used rq' = msg_used rq - 1 /\
    msgs rq' = <[p := msg_cleared m]> (msgs rq) /\
    msg_pool rq' = p :: msg_pool rq /\
    conns rq' = conns rq /\ connlist rq' = connlist rq /\
    queues rq' = queues rq /\ evbase rq' = evbase rq.
Proof.
  unfold rq_msg_clear, get_msg. intros H.
  destruct (msgs rq !! p) as [m|] eqn:Em; [|discriminate].
  simpl in H. res_inv H. injection H as <-.
  exists m. destruct rq; simpl in *. unfold msg_max in *; simpl in *.
  repeat split; try lia; try assumption.
Qed.

(** What the three placements have in common. *)
Lemma placed_facts (rq rq' : rq_t) (p : msg_ptr) (k : nat) :
  placed_by_hint rq rq' p k \/ placed_by_scan rq rq' p k
    \/ placed_by_growth rq rq' p k ->
  msg_list rq' !! k = Some (Some p) /\
  (forall i : nat, i <> k -> msg_list rq' !! i = msg_list rq !! i) /\
  count_live (msg_list rq') = count_live (msg_list rq) + 1 /\
  (length (msg_list rq) <= length (msg_list rq'))%nat /\
  (forall q : msg_ptr, msg_list rq !! k <> Some (Some q)).
Proof.
  intros [H|[H|H]].
  - destruct H as (_ & _ & _ & Hk & -> & _).
    pose proof (lookup_lt_Some _ _ _ Hk) as Hlt.
    rewrite list_lookup_insert_eq by exact Hlt.
    rewrite length_insert, (count_live_fill _ _ _ Hk).
    repeat split; try lia.
    + intros i Hi. apply list_lookup_insert_ne. congruence.
    + intros q. rewrite Hk. discriminate.
  - destruct H as (_ & _ & Hf & -> & _).
    apply find_free_first in Hf. destruct Hf as [Hk _].
    pose proof (lookup_lt_Some _ _ _ Hk) as Hlt.
    rewrite list_lookup_insert_eq by exact Hlt.
    rewrite length_insert, (count_live_fill _ _ _ Hk).
    repeat split; try lia.
    + intros i Hi. apply list_lookup_insert_ne. congruence.
    + intros q. rewrite Hk. discriminate.
  - destruct H as (_ & -> & -> & _).
    rewrite count_live_app, length_app. simpl.
    repeat split; try lia.
    + rewrite lookup_app_r by lia. rewrite Nat.sub_diag. reflexivity.
    + intros i Hi. destruct (decide (i < length (msg_list rq))%nat) as [Hlt|Hge].
      * apply lookup_app_l, Hlt.
      * rewrite !lookup_ge_None_2; [reflexivity| lia |rewrite length_app; simpl; lia].
    + intros q. rewrite lookup_ge_None_2 by lia. discriminate.
Qed.

(** A pointer taken from the pool, or fresh from [malloc], is in no slot. *)
Lemma obtained_not_in_table (rq : rq_t) (p : msg_ptr) :
  slot_ids_ok rq -> pool_ok rq ->
  p = hd (length (msgs rq)) (msg_pool rq) ->
  forall i : nat, msg_list rq !! i <> Some (Some p).
Proof.
  intros Hs [_ Hp] -> i Hi.
  destruct (msg_pool rq) as [|p0 pool] eqn:E; simpl in *.
  - destruct (Hs i _ Hi) as (m & Hm & _).
    apply lookup_lt_Some in Hm. lia.
  - destruct (Hp p0) as [_ Hn]; [left|]. exact (Hn i Hi).
Qed.

Lemma rq_msg_new_preserves (rq rq' : rq_t) (conn : option conn_ptr) (p : msg_ptr) :
  table_inv rq -> pool_ok rq ->
  rq_msg_new rq conn = Ret (p, rq') ->
  table_inv rq' /\ pool_ok rq'.
Proof.
  intros (Hs & Hu & Hb) Hpool Hnew.
  pose proof Hpool as [Hnd Hp].
  destruct (rq_msg_new_spec _ _ _ _ Hu (fun q Hq => proj1 (Hp q Hq)) Hnew)
    as (k & Hplace & Hmp & Hoth & Hlen & Hused & Hhd & Htl & _).
  destruct (placed_facts _ _ _ _ Hplace) as (Hk & Hne & Hcnt & Hll & Hfree).
  pose proof (obtained_not_in_table _ _ Hs Hpool Hhd) as Hfresh.
  split; [split; [|split]|split].
  - intros i q Hi. destruct (decide (i = k)) as [->|Hik].
    + rewrite Hk in Hi. injection Hi as <-. eexists; split; [exact Hmp|]. reflexivity.
    + rewrite (Hne i Hik) in Hi.
      assert (q <> p) as Hqp by (intros ->; exact (Hfresh i Hi)).
      rewrite (Hoth q Hqp). exact (Hs i q Hi).
  - unfold used_ok in *. lia.
  - unfold used_bounds, used_ok, msg_max in *.
    pose proof (count_live_bounds (msg_list rq')). lia.
  - rewrite Htl. destruct (msg_pool rq); simpl; [constructor|].
    apply NoDup_cons in Hnd. tauto.
  - intros q Hq. rewrite Htl in Hq.
    destruct (msg_pool rq) as [|p0 pool] eqn:E; simpl in *.
    + apply elem_of_nil in Hq; contradiction.
    + subst p. apply NoDup_cons in Hnd. destruct Hnd as [Hnotin _].
      destruct (Hp q) as [Hql Hqn]; [right; exact Hq|].
      split; [lia|]. intros i Hi.
      destruct (decide (i = k)) as [->|Hik].
      * rewrite Hk in Hi. injection Hi as <-. contradiction.
      * rewrite (Hne i Hik) in Hi. exact (Hqn i Hi).
Qed.

Lemma rq_msg_clear_preserves (rq rq' : rq_t) (p : msg_ptr) :
  table_inv rq -> pool_ok rq ->
  rq_msg_clear rq p = Ret rq' ->
  table_inv rq' /\ pool_ok rq'.
Proof.
  intros (Hs & Hu & Hb) [Hnd Hp] Hclr.
  destruct (rq_msg_clear_spec _ _ _ Hclr)
    as (m & Hm & Hpos & Hid & Hslot & Hl & _ & Hused & Hms & Hpl & _).
  set (k := Z.to_nat (msg_id m)) in *.
  assert (forall i, msg_list rq !! i = Some (Some p) -> i = k) as Honly.
  { intros i Hi. destruct (Hs i p Hi) as (m' & Hm' & Hi').
    rewrite Hm in Hm'. injection Hm' as <-. unfold k. lia. }
  split; [split; [|split]|split].
  - intros i q Hi. rewrite Hl in Hi.
    destruct (decide (k = i)) as [<-|Hik].
    + rewrite list_lookup_insert_eq in Hi by (eapply lookup_lt_Some; exact Hslot).
      discriminate.
    + rewrite list_lookup_insert_ne in Hi by exact Hik.
      assert (q <> p) as Hqp by (intros ->; apply Hik; symmetry; exact (Honly i Hi)).
      rewrite Hms, list_lookup_insert_ne by congruence. exact (Hs i q Hi).
  - unfold used_ok in *. rewrite Hl, (count_live_free _ _ _ Hslot). lia.
  - unfold used_bounds, used_ok, msg_max in *. rewrite Hl, length_insert. lia.
  - rewrite Hpl. apply NoDup_cons. split; [|exact Hnd].
    intros Hin. destruct (Hp p Hin) as [_ Hn]. exact (Hn k Hslot).
  - intros q Hq. rewrite Hpl in Hq. rewrite Hms, length_insert, Hl.
    apply elem_of_cons in Hq. destruct Hq as [->|Hq].
    + split; [eapply lookup_lt_Some; exact Hm|]. intros i Hi.
      destruct (decide (k = i)) as [<-|Hik].
      * rewrite list_lookup_insert_eq in Hi by (eapply lookup_lt_Some; exact Hslot).
        discriminate.
      * rewrite list_lookup_insert_ne in Hi by exact Hik.
        apply Hik. symmetry. exact (Honly i Hi).
    + destruct (Hp q Hq) as [Hql Hqn]. split; [exact Hql|]. intros i Hi.
      destruct (decide (k = i)) as [<-|Hik].
      * rewrite list_lookup_insert_eq in Hi by (eapply lookup_lt_Some; exact Hslot).
        discriminate.
      * rewrite list_lookup_insert_ne in Hi by exact Hik. exact (Hqn i Hi).
Qed.

(** Two slots never hold the same record, and live ids differ. *)
Lemma table_inv_distinct (rq : rq_t) : slot_ids_ok rq -> live_ids_distinct rq.
Proof.
  intros Hs i j p q m n Hi Hj Hm Hn Hij.
  destruct (Hs i p Hi) as (m' & Hm' & Him).
  destruct (Hs j q Hj) as (n' & Hn' & Hjn).
  rewrite Hm in Hm'. injection Hm' as <-.
  rewrite Hn in Hn'. injection Hn' as <-.
  split; [lia|]. intros ->. rewrite Hm in Hn. injection Hn as <-. lia.
Qed.

Lemma rq_msg_new_hint (rq rq' : rq_t) (conn : option conn_ptr) (p : msg_ptr) :
  table_inv rq -> pool_ok rq -> hint_ok rq ->
  rq_msg_new rq conn = Ret (p, rq') -> hint_ok rq'.
Proof.
  intros (Hs & Hu & Hb) [_ Hp] Hh Hnew.
  destruct (rq_msg_new_spec _ _ _ _ Hu (fun q Hq => proj1 (Hp q Hq)) Hnew)
    as (k & Hplace & _).
  destruct (placed_facts _ _ _ _ Hplace) as (Hk & Hne & _ & Hll & Hfree).
  unfold hint_ok in *. destruct Hplace as [H|[H|H]].
  - left. destruct H as (_ & _ & _ & _ & _ & Hn). exact Hn.
  - left. destruct H as (_ & Hneg & _ & _ & Hn'). destruct Hh as [?|[? _]]; lia.
  - destruct H as (Hfull & -> & _ & Hn'). rewrite Hn'. destruct Hh as [Hh|[Hr Hn]]; [left; exact Hh|].
    right. unfold msg_max in *. split; [lia|].
    rewrite Hne; [exact Hn|]. lia.
Qed.

Lemma rq_msg_clear_hint (rq rq' : rq_t) (p : msg_ptr) :
  rq_msg_clear rq p = Ret rq' -> hint_ok rq'.
Proof.
  intros Hclr.
  destruct (rq_msg_clear_spec _ _ _ Hclr)
    as (m & _ & _ & Hid & Hslot & Hl & Hn & _).
  right. unfold msg_max in *. rewrite Hl, Hn, length_insert. split; [lia|].
  apply list_lookup_insert_eq. eapply lookup_lt_Some; exact Hslot.
Qed.

(** [rq_msg_new] completes on every well-formed table that has a slot
    array, as [rq_init] guarantees. *)
Lemma rq_msg_new_total (rq : rq_t) (conn : option conn_ptr) :
  table_inv rq -> hint_ok rq -> 0 < msg_max rq ->
  exists p rq', rq_msg_new rq conn = Ret (p, rq').
Proof.
  intros (Hs & Hu & Hb) Hh Hmax. unfold rq_msg_new.
  destruct (msg_obtain rq) as [p rq1] eqn:Eo.
  assert (msg_list rq1 = msg_list rq /\ msg_used rq1 = msg_used rq
          /\ msg_next rq1 = msg_next rq) as (Hl & Hmu & Hmn).
  { unfold msg_obtain in Eo. destruct (msg_pool rq); injection Eo as <- <-;
      destruct rq; simpl; auto. }
  unfold used_ok, used_bounds, hint_ok, msg_max in *.
  destruct rq1 as [ev cl cs qs ml mu mn pool ms]; simpl in *. subst ml mu mn.
  unfold msg_max; simpl.
  rewrite (assert_true (0 <? _)) by (apply Z.ltb_lt; lia). simpl.
  rewrite assert_true by (apply andb_true_iff; split; apply Z.leb_le; lia). simpl.
  unfold msg_place, msg_max; simpl.
  pose proof (count_live_bounds (msg_list rq)) as Hcb.
  destruct (msg_used rq <? Z.of_nat (length (msg_list rq))) eqn:Efull.
  - apply Z.ltb_lt in Efull. destruct (0 <=? msg_next rq) eqn:Ehint.
    + apply Z.leb_le in Ehint. destruct Hh as [Hh|[Hr Hn]]; [lia|].
      rewrite (assert_true (msg_next rq <? _)) by (apply Z.ltb_lt; lia). simpl.
      rewrite assert_true by (apply bool_decide_eq_true; exact Hn). simpl.
      rewrite (assert_true (0 <=? _)) by (apply Z.leb_le; lia). simpl.
      rewrite length_insert.
      rewrite assert_true by (apply andb_true_iff; split;
                              [apply Z.ltb_lt|apply Z.leb_le]; lia).
      simpl. eauto.
    + destruct (find_free_some (msg_list rq)) as [k Hk]; [lia|]. rewrite Hk. simpl.
      rewrite (assert_true (0 <=? _)) by (apply Z.leb_le; lia). simpl.
      rewrite length_insert.
      rewrite assert_true by (apply andb_true_iff; split;
                              [apply Z.ltb_lt|apply Z.leb_le]; lia).
      simpl. eauto.
  - apply Z.ltb_ge in Efull. simpl.
    rewrite (assert_true (0 <=? _)) by (apply Z.leb_le; lia). simpl.
    rewrite length_app. simpl.
    rewrite assert_true by (apply andb_true_iff; split;
                            [apply Z.ltb_lt|apply Z.leb_le]; lia).
    simpl. eauto.
Qed.

Lemma count_live_pos (l : list (option msg_ptr)) (i : nat) (p : msg_ptr) :
  l !! i = Some (Some p) -> 0 < count_live l.
Proof.
  intros H. pose proof (count_live_free _ _ _ H).
  pose proof (count_live_bounds (<[i := None]> l)). lia.
Qed.

(** [rq_msg_clear] completes on every live message of a well-formed table. *)
Lemma rq_msg_clear_total (rq : rq_t) (i : nat) (p : msg_ptr) :
  table_inv rq -> msg_list rq !! i = Some (Some p) ->
  exists rq', rq_msg_clear rq p = Ret rq'.
Proof.
  intros (Hs & Hu & Hb) Hi. destruct (Hs i p Hi) as (m & Hm & Hid).
  unfold rq_msg_clear, get_msg. rewrite Hm. simpl.
  unfold used_ok in Hu. pose proof (count_live_pos _ _ _ Hi) as Hpos.
  pose proof (lookup_lt_Some _ _ _ Hi) as Hlt.
  rewrite (assert_true (0 <? _)) by (apply Z.ltb_lt; lia). simpl.
  rewrite (assert_true (0 <=? _)) by (apply Z.leb_le; lia). simpl.
  rewrite (assert_true (_ <? _)) by (apply Z.ltb_lt; unfold msg_max; lia). simpl.
  rewrite assert_true
    by (apply bool_decide_eq_true; rewrite Hid, Nat2Z.id; exact Hi).
  simpl. eauto.
Qed.

(** C4.  [rq_msg_new] and [rq_msg_clear] keep the Message Table invariants:
    every slot is NULL or holds a message whose id is the slot index,
    [msg_used] is the number of non-NULL slots, and 0 <= msg_used <= msg_max
    (together with the free-pool discipline they rest on).  Hence the ids of
    the live messages are pairwise distinct.  Both functions complete on such
    a table. *)
Theorem msg_table_invariants_preserved (rq : rq_t) :
  table_inv rq -> pool_ok rq ->
  (forall conn p rq',
      rq_msg_new rq conn = Ret (p, rq') -> table_inv rq' /\ pool_ok rq') /\
  (forall p rq',
      rq_msg_clear rq p = Ret rq' -> table_inv rq' /\ pool_ok rq') /\
  live_ids_distinct rq /\
  (forall conn, hint_ok rq -> 0 < msg_max rq ->
      exists p rq', rq_msg_new rq conn = Ret (p, rq') /\ hint_ok rq') /\
  (forall i p, msg_list rq !! i = Some (Some p) ->
      exists rq', rq_msg_clear rq p = Ret rq' /\ hint_ok rq').
Proof.
  intros Hinv Hpool. split; [|split; [|split; [|split]]].
  - intros conn p rq'. apply rq_msg_new_preserves; assumption.
  - intros p rq'. apply rq_msg_clear_preserves; assumption.
  - apply table_inv_distinct, Hinv.
  - intros conn Hh Hmax.
    destruct (rq_msg_new_total rq conn Hinv Hh Hmax) as (p & rq' & Hnew).
    exists p, rq'. split; [exact Hnew|]. eapply rq_msg_new_hint; eassumption.
  - intros i p Hi.
    destruct (rq_msg_clear_total rq i p Hinv Hi) as (rq' & Hclr).
    exists rq'. split; [exact Hclr|]. eapply rq_msg_clear_hint; eassumption.
Qed.

Lemma rq_init_table_inv : table_inv rq_init /\ pool_ok rq_init /\ hint_ok rq_init.
Proof.
  split; [split; [|split]|split].
  - intros i p H. apply lookup_replicate in H. destruct H; discriminate.
  - reflexivity.
  - unfold used_bounds, msg_max; simpl. lia.
  - split; [constructor|]. intros p H. apply elem_of_nil in H. contradiction.
  - right. unfold msg_max; simpl. split; [lia|reflexivity].
Qed.

(** ** The invariants hold on every table the library builds *)

Lemma table_reachable_inv (rq : rq_t) :
  table_reachable rq ->
  table_inv rq /\ pool_ok rq /\ hint_ok rq /\ 0 < msg_max rq.
Proof.
  induction 1 as [|rq rq' conn p Hreach (Hinv & Hpool & Hhint & Hmax) Hnew
                  |rq rq' p Hreach (Hinv & Hpool & Hhint & Hmax) Hclr].
  - destruct rq_init_table_inv as (Hinv & Hpool & Hhint).
    repeat (split; [assumption|]). unfold msg_max; simpl. lia.
  - destruct (rq_msg_new_preserves _ _ _ _ Hinv Hpool Hnew) as [Hinv' Hpool'].
    repeat (split; [assumption|]).
    split; [exact (rq_msg_new_hint _ _ _ _ Hinv Hpool Hhint Hnew)|].
    pose proof Hinv as (_ & Hu & _). pose proof Hpool as [_ Hp].
    destruct (rq_msg_new_spec _ _ _ _ Hu (fun q Hq => proj1 (Hp q Hq)) Hnew)
      as (k & Hplace & _).
    destruct (placed_facts _ _ _ _ Hplace) as (_ & _ & _ & Hlen & _).
    unfold msg_max in *. lia.
  - destruct (rq_msg_clear_preserves _ _ _ Hinv Hpool Hclr) as [Hinv' Hpool'].
    repeat (split; [assumption|]).
    split; [exact (rq_msg_clear_hint _ _ _ Hclr)|].
    destruct (rq_msg_clear_spec _ _ _ Hclr) as (m & _ & _ & _ & _ & Hl & _).
    unfold msg_max in *. rewrite Hl, length_insert. exact Hmax.
Qed.

Lemma table_example_ok :
  table_inv table_example /\ pool_ok table_example /\ hint_ok table_example
  /\ 0 < msg_max table_example.
Proof.
  split; [split; [|split]|split; [|split]].
  - intros [|[|i]] p H; simpl in H; try discriminate.
    injection H as <-. eexists; split; reflexivity.
  - reflexivity.
  - unfold used_bounds, msg_max; simpl. lia.
  - split; [constructor|]. intros p H. apply elem_of_nil in H. contradiction.
  - right. unfold msg_max; simpl. split; [lia|reflexivity].
  - unfold msg_max; simpl. lia.
Qed.

Lemma msg_table_invariants_preserved_witness :
  table_inv table_example /\ pool_ok table_example /\
  ((forall conn p rq',
      rq_msg_new table_example conn = Ret (p, rq') ->
      table_inv rq' /\ pool_ok rq') /\
   (forall p rq',
      rq_msg_clear table_example p = Ret rq' -> table_inv rq' /\ pool_ok rq') /\
   live_ids_distinct table_example /\
   (forall conn, hint_ok table_example -> 0 < msg_max table_example ->
      exists p rq', rq_msg_new table_example conn = Ret (p, rq') /\ hint_ok rq') /\
   (forall i p, msg_list table_example !! i = Some (Some p) ->
      exists rq', rq_msg_clear table_example p = Ret rq' /\ hint_ok rq')).
Proof.
  destruct table_example_ok as (Hinv & Hpool & _).
  split; [exact Hinv|]. split; [exact Hpool|].
  exact (msg_table_invariants_preserved table_example Hinv Hpool).
Defined.

(** C5.  Slot selection of [rq_msg_new] on a well-formed table: with
    used < max and a hint >= 0 the message goes to slot [msg_next] and the
    hint becomes -1; with used < max and no hint it goes to the first NULL
    slot of a linear scan; otherwise the table grows by exactly one slot and
    the message takes the new last index.  In every case the message's id is
    the chosen slot and [msg_used] grows by one.  [rq_msg_clear] on the live
    message of slot [k] returns, empties that slot, sets the hint to [k] and
    decrements [msg_used]; it returns for no other message; neither
    function ever shrinks the table. *)
Theorem msg_slot_selection (rq : rq_t) (conn : option conn_ptr) :
  table_inv rq -> pool_ok rq -> hint_ok rq -> 0 < msg_max rq ->
  (exists (p : msg_ptr) (rq' : rq_t) (k : nat),
      rq_msg_new rq conn = Ret (p, rq') /\
      (msg_used rq < msg_max rq -> 0 <= msg_next rq ->
         k = Z.to_nat (msg_next rq) /\ msg_next rq' = -1 /\
         msg_list rq' = <[k := Some p]> (msg_list rq)) /\
      (msg_used rq < msg_max rq -> msg_next rq < 0 ->
         msg_list rq !! k = Some None /\
         (forall j : nat, (j < k)%nat -> exists q, msg_list rq !! j = Some (Some q)) /\
         msg_list rq' = <[k := Some p]> (msg_list rq)) /\
      (~ msg_used rq < msg_max rq ->
         k = length (msg_list rq) /\
         msg_list rq' = msg_list rq ++ [Some p] /\
         msg_max rq' = msg_max rq + 1) /\
      msg_list rq' !! k = Some (Some p) /\
      (exists m, msgs rq' !! p = Some m /\ msg_id m = Z.of_nat k) /\
      msg_used rq' = msg_used rq + 1 /\
      msg_max rq <= msg_max rq') /\
  (forall (k : nat) (p : msg_ptr),
      msg_list rq !! k = Some (Some p) ->
      exists (rq' : rq_t) (m : rq_message_t),
        rq_msg_clear rq p = Ret rq' /\
        msgs rq !! p = Some m /\ msg_id m = Z.of_nat k /\
        msg_next rq' = Z.of_nat k /\
        msg_list rq' = <[k := None]> (msg_list rq) /\
        msg_list rq' !! k = Some None /\
        msg_used rq' = msg_used rq - 1 /\
        msg_max rq' = msg_max rq) /\
  (forall (p : msg_ptr) (rq' : rq_t),
      rq_msg_clear rq p = Ret rq' ->
      exists m, msgs rq !! p = Some m /\
        msg_next rq' = msg_id m /\
        msg_list rq !! Z.to_nat (msg_id m) = Some (Some p) /\
        msg_list rq' !! Z.to_nat (msg_id m) = Some None /\
        msg_used rq' = msg_used rq - 1 /\
        msg_max rq' = msg_max rq).
Proof.
  intros Hinv Hpool Hh Hmax. split; [|split].
  - destruct (rq_msg_new_total rq conn Hinv Hh Hmax) as (p & rq' & Hnew).
    destruct Hinv as (Hs & Hu & Hb). destruct Hpool as [_ Hp].
    destruct (rq_msg_new_spec _ _ _ _ Hu (fun q Hq => proj1 (Hp q Hq)) Hnew)
      as (k & Hplace & Hmp & _ & _ & Hused & _).
    destruct (placed_facts _ _ _ _ Hplace) as (Hk & _ & _ & Hll & _).
    exists p, rq', k. split; [exact Hnew|].
    assert (msg_max rq <= msg_max rq') as Hle by (unfold msg_max; lia).
    assert (exists m, msgs rq' !! p = Some m /\ msg_id m = Z.of_nat k) as Hid
      by (eexists; split; [exact Hmp|reflexivity]).
    destruct Hplace as [H|[H|H]].
    + destruct H as (Hlt & Hge & Hkn & _ & Hl & Hn).
      repeat split; try assumption; intros; lia.
    + destruct H as (Hlt & Hneg & Hf & Hl & Hn).
      destruct (find_free_first _ _ Hf) as [Hnil Hfirst].
      repeat split; try assumption; intros; lia.
    + destruct H as (Hfull & Hkl & Hl & Hn).
      repeat split; try assumption; intros; try lia.
      unfold msg_max. rewrite Hl, length_app. simpl. lia.
  - intros k p Hk.
    destruct (rq_msg_clear_total rq k p Hinv Hk) as (rq' & Hclr).
    destruct (rq_msg_clear_spec _ _ _ Hclr)
      as (m & Hm & _ & _ & _ & Hl & Hn & Hused & _).
    destruct Hinv as (Hs & _ & _). destruct (Hs k p Hk) as (m' & Hm' & Hid).
    rewrite Hm in Hm'. injection Hm' as <-.
    rewrite Hid, Nat2Z.id in Hl. rewrite Hid in Hn.
    exists rq', m. repeat split; try assumption.
    + rewrite Hl. apply list_lookup_insert_eq. eapply lookup_lt_Some; exact Hk.
    + unfold msg_max. rewrite Hl, length_insert. reflexivity.
  - intros p rq' Hclr.
    destruct (rq_msg_clear_spec _ _ _ Hclr)
      as (m & Hm & _ & _ & Hslot & Hl & Hn & Hused & _).
    exists m. repeat split; try assumption.
    + rewrite Hl. apply list_lookup_insert_eq. eapply lookup_lt_Some; exact Hslot.
    + unfold msg_max. rewrite Hl, length_insert. reflexivity.
Qed.

Lemma msg_slot_selection_witness :
  table_inv table_example /\ pool_ok table_example /\ hint_ok table_example /\
  0 < msg_max table_example /\
  ((exists (p : msg_ptr) (rq' : rq_t) (k : nat),
      rq_msg_new table_example None = Ret (p, rq') /\
      (msg_used table_example < msg_max table_example ->
       0 <= msg_next table_example ->
         k = Z.to_nat (msg_next table_example) /\ msg_next rq' = -1 /\
         msg_list rq' = <[k := Some p]> (msg_list table_example)) /\
      (msg_used table_example < msg_max table_example ->
       msg_next table_example < 0 ->
         msg_list table_example !! k = Some None /\
         (forall j : nat, (j < k)%nat ->
            exists q, msg_list table_example !! j = Some (Some q)) /\
         msg_list rq' = <[k := Some p]> (msg_list table_example)) /\
      (~ msg_used table_example < msg_max table_example ->
         k = length (msg_list table_example) /\
         msg_list rq' = msg_list table_example ++ [Some p] /\
         msg_max rq' = msg_max table_example + 1) /\
      msg_list rq' !! k = Some (Some p) /\
      (exists m, msgs rq' !! p = Some m /\ msg_id m = Z.of_nat k) /\
      msg_used rq' = msg_used table_example + 1 /\
      msg_max table_example <= msg_max rq') /\
   (exists (rq' : rq_t) (m : rq_message_t),
      rq_msg_clear table_example 0%nat = Ret rq' /\
      msgs table_example !! 0%nat = Some m /\ msg_id m = Z.of_nat 0 /\
      msg_next rq' = Z.of_nat 0 /\
      msg_list rq' = <[0%nat := None]> (msg_list table_example) /\
      msg_list rq' !! 0%nat = Some None /\
      msg_used rq' = msg_used table_example - 1 /\
      msg_max rq' = msg_max table_example)).
Proof.
  destruct table_example_ok as (Hinv & Hpool & Hh & Hmax).
  repeat (split; [assumption|]).
  destruct (msg_slot_selection table_example None Hinv Hpool Hh Hmax)
    as (Hnew & Hclear & _).
  split; [exact Hnew|]. exact (Hclear 0%nat 0%nat eq_refl).
Defined.

(** ** Stores *)

Lemma get_conn_put (rq : rq_t) (c : conn_ptr) (x y : rq_conn_t) :
  conns rq !! c = Some x -> get_conn (put_conn c y rq) c = Ret y.
Proof.
  intros H. unfold get_conn, put_conn. destruct rq; simpl in *.
  rewrite list_lookup_insert_eq by (eapply lookup_lt_Some; exact H). reflexivity.
Qed.

Lemma put_conn_put (rq : rq_t) (c : conn_ptr) (x y : rq_conn_t) :
  put_conn c y (put_conn c x rq) = put_conn c y rq.
Proof.
  unfold put_conn. destruct rq; simpl. rewrite list_insert_insert_eq. reflexivity.
Qed.

Lemma get_conn_ret (rq : rq_t) (c : conn_ptr) (x : rq_conn_t) :
  conns rq !! c = Some x -> get_conn rq c = Ret x.
Proof. intros H. unfold get_conn. rewrite H. reflexivity. Qed.

Lemma get_data_ret (rq : rq_t) (c : conn_ptr) (x : rq_conn_t) (d : rq_data_t) :
  conns rq !! c = Some x -> conn_data x = Some d -> get_data rq c = Ret (x, d).
Proof.
  intros Hx Hd. unfold get_data. rewrite (get_conn_ret _ _ _ Hx). simpl.
  rewrite Hd. reflexivity.
Qed.

Lemma get_data_inv (rq : rq_t) (c : conn_ptr) (x : rq_conn_t) (d : rq_data_t) :
  get_data rq c = Ret (x, d) -> conns rq !! c = Some x /\ conn_data x = Some d.
Proof.
  unfold get_data, get_conn. destruct (conns rq !! c) as [y|]; [|discriminate].
  simpl. destruct (conn_data y) as [e|] eqn:E; [|discriminate].
  intros H. injection H as <- <-. split; [reflexivity|exact E].
Qed.

Lemma lookup_put_conn (rq : rq_t) (c : conn_ptr) (x y : rq_conn_t) :
  conns rq !! c = Some x -> conns (put_conn c y rq) !! c = Some y.
Proof.
  intros H. unfold put_conn. destruct rq; simpl in *.
  apply list_lookup_insert_eq. eapply lookup_lt_Some; exact H.
Qed.

(** ** CLEAR *)

Lemma data_clear_idempotent (d : rq_data_t) :
  data_clear (data_clear d) = data_clear d.
Proof. destruct d as [fl ma i q t pr [pl|] qu]; reflexivity. Qed.

(** C9.  CLEAR is idempotent on the accumulator: running [cmdClear] twice
    on a connection leaves the client, and so the accumulator's mask, flags,
    id, qid, timeout, priority, queue buffer and payload buffer, exactly as
    running it once. *)
Theorem cmdClear_idempotent (c : conn_ptr) (rq : rq_t) (d : rq_data_t) :
  (cmdClear c rq ≫= cmdClear c) = cmdClear c rq /\
  data_clear (data_clear d) = data_clear d.
Proof.
  split; [|apply data_clear_idempotent].
  unfold cmdClear.
  destruct (get_data rq c) as [[x d0]|f] eqn:E; [|reflexivity]. simpl.
  apply get_data_inv in E. destruct E as [Hx Hd].
  unfold put_data.
  rewrite (get_data_ret _ c (conn_set_data (Some (data_clear d0)) x) (data_clear d0)).
  - simpl. unfold put_data. rewrite put_conn_put, data_clear_idempotent.
    destruct x; reflexivity.
  - eapply lookup_put_conn; exact Hx.
  - destruct x; reflexivity.
Qed.

(** ** CONSUMING *)

Section Consuming.

Variable call_accepted :
  fn_ptr -> string -> queue_id_t -> option arg_ptr -> rq_t -> res rq_t.

Lemma consuming_scan_unknown (queue : string) (qid : queue_id_t)
    (qs : list rq_queue_t) (i : nat) (rq : rq_t) :
  queue_known queue qs = false ->
  consuming_scan call_accepted queue qid qs i rq = Ret rq.
Proof.
  revert i. induction qs as [|q qs IH]; intros i H; simpl in *; [reflexivity|].
  apply orb_false_iff in H. destruct H as [Hq Hqs].
  rewrite Hq. apply IH, Hqs.
Qed.

(** C10.  A CONSUMING verb that carries a queue-id and a queue name matching
    no subscription (of a non-empty subscription list) changes nothing: the
    client state, with every subscription's qid and callbacks and every
    connection's outgoing buffer, is returned as it was, whatever the
    [accepted] callbacks would do. *)
Theorem cmdConsuming_unknown_queue (c : conn_ptr) (rq : rq_t)
    (x : rq_conn_t) (d : rq_data_t) :
  conns rq !! c = Some x ->
  conn_data x = Some d ->
  BIT_TEST (data_mask d) RQ_DATA_MASK_QUEUEID = true ->
  BIT_TEST (data_mask d) RQ_DATA_MASK_QUEUE = true ->
  0 < data_qid d ->
  queues rq <> [] ->
  queue_known (data_queue d) (queues rq) = false ->
  cmdConsuming call_accepted c rq = Ret rq.
Proof.
  intros Hx Hd Hqid Hq Hpos Hne Hunknown.
  unfold cmdConsuming. rewrite (get_data_ret _ _ _ _ Hx Hd). simpl.
  rewrite Hqid, Hq. simpl.
  rewrite (assert_true (0 <? data_qid d)) by (apply Z.ltb_lt; exact Hpos). simpl.
  rewrite assert_true
    by (apply Z.ltb_lt; destruct (queues rq); [contradiction|simpl; lia]).
  simpl. apply consuming_scan_unknown, Hunknown.
Qed.

End Consuming.

Lemma cmdConsuming_unknown_queue_witness :
  cmdConsuming (fun _ _ _ _ _ => Fail Undefined) 0%nat
    (with_data (mk_data 0 18 0 5 0 0 None "nope") client_example)
  = Ret (with_data (mk_data 0 18 0 5 0 0 None "nope") client_example).
Proof.
  apply (cmdConsuming_unknown_queue (fun _ _ _ _ _ => Fail Undefined) 0%nat
           (with_data (mk_data 0 18 0 5 0 0 None "nope") client_example)
           (conn_set_data (Some (mk_data 0 18 0 5 0 0 None "nope")) conn_example)
           (mk_data 0 18 0 5 0 0 None "nope")).
  - reflexivity.
  - reflexivity.
  - reflexivity.
  - reflexivity.
  - simpl. lia.
  - simpl. discriminate.
  - reflexivity.
Defined.

(** ** Emitting *)

Lemma rq_senddata_spec (c : conn_ptr) (data : expbuf_t) (rq : rq_t)
    (x : rq_conn_t) (out : expbuf_t) :
  conns rq !! c = Some x ->
  data <> [] ->
  conn_handle x <> INVALID_HANDLE ->
  conn_outbuf x = Some out ->
  evbase rq = true ->
  rq_senddata c data rq = Ret (put_conn c (conn_after_send x (out ++ data)) rq).
Proof.
  intros Hx Hdata Hh Hout Hev. unfold rq_senddata.
  rewrite (get_conn_ret _ _ _ Hx). simpl.
  rewrite (assert_true (0 <? _))
    by (apply Z.ltb_lt; destruct data; [contradiction|simpl; lia]).
  simpl.
  rewrite (assert_true (negb _)) by (apply negb_true_iff, Z.eqb_neq; exact Hh).
  simpl. rewrite Hout, Hev. unfold conn_after_send.
  destruct x as [hn h re [|] ce rb ib sb ob da ac cg sh]; reflexivity.
Qed.

Lemma send_commands_spec (c : conn_ptr) (fill : expbuf_t -> expbuf_t)
    (rq : rq_t) (x : rq_conn_t) (out : expbuf_t) :
  conns rq !! c = Some x ->
  conn_can_send rq x out ->
  fill [] <> [] ->
  send_commands c fill rq
  = Ret (put_conn c (conn_after_send x (out ++ fill [])) rq).
Proof.
  intros Hx (Hh & Hsb & Hout & Hev) Hfill. unfold send_commands.
  rewrite (get_conn_ret _ _ _ Hx). simpl. rewrite Hsb. simpl.
  rewrite (rq_senddata_spec c (fill []) _ (conn_set_sendbuf (Some (fill [])) x) out)
    by first [ assumption | eapply lookup_put_conn; exact Hx
             | destruct x; assumption | destruct rq; assumption ].
  simpl. erewrite get_conn_put by (eapply lookup_put_conn; exact Hx). simpl.
  rewrite !put_conn_put. unfold conn_after_send.
  destruct x; simpl in *. subst. reflexivity.
Qed.

Lemma conn_can_send_after (c : conn_ptr) (rq : rq_t) (x : rq_conn_t)
    (out out' : expbuf_t) :
  conn_can_send rq x out ->
  conn_can_send (put_conn c (conn_after_send x out') rq) (conn_after_send x out') out'.
Proof.
  intros (Hh & Hsb & Hout & Hev). unfold conn_can_send.
  destruct x; destruct rq; simpl in *. auto.
Qed.

Lemma consume_commands_sequence (q : rq_queue_t) (buf : expbuf_t) :
  consume_commands q buf = buf ++ consume_sequence q.
Proof.
  unfold consume_commands, consume_sequence, addCmd, addCmdShortStr, addCmdInt,
    addCmdShortInt.
  destruct (q_exclusive q =? 0); simpl; rewrite <- ?app_assoc; reflexivity.
Qed.

Lemma rq_send_consume_spec (c : conn_ptr) (q : rq_queue_t) (rq : rq_t)
    (x : rq_conn_t) (out : expbuf_t) :
  conns rq !! c = Some x ->
  conn_can_send rq x out ->
  queue_wf q ->
  rq_send_consume c q rq
  = Ret (put_conn c (conn_after_send x (out ++ consume_sequence q)) rq).
Proof.
  intros Hx Hsend (Hmax & Hlen). unfold rq_send_consume.
  rewrite (assert_true (0 <=? _)) by (apply Z.leb_le; exact Hmax). simpl.
  rewrite (assert_true (_ && _))
    by (apply andb_true_iff; split; apply Z.ltb_lt; lia).
  simpl. rewrite (send_commands_spec _ _ _ _ _ Hx Hsend).
  - rewrite consume_commands_sequence. reflexivity.
  - rewrite consume_commands_sequence. discriminate.
Qed.

(** ** Activation *)

Lemma put_conn_same (rq : rq_t) (c : conn_ptr) (x : rq_conn_t) :
  conns rq !! c = Some x -> put_conn c x rq = rq.
Proof.
  intros H. unfold put_conn. destruct rq; simpl in *.
  rewrite list_insert_id by exact H. reflexivity.
Qed.

Lemma send_consume_all_spec (c : conn_ptr) (qs : list rq_queue_t) :
  forall (rq : rq_t) (x : rq_conn_t) (out : expbuf_t),
    conns rq !! c = Some x ->
    conn_can_send rq x out ->
    conn_write_event x = match out with [] => false | _ => true end ->
    Forall queue_wf qs ->
    send_consume_all c qs rq
    = Ret (put_conn c (conn_with_out x (out ++ flat_map consume_sequence qs)) rq).
Proof.
  induction qs as [|q qs IH]; intros rq x out Hx Hsend Hwe Hwf; simpl.
  - rewrite app_nil_r. f_equal. symmetry.
    replace (conn_with_out x out) with x; [apply put_conn_same, Hx|].
    destruct Hsend as (_ & _ & Hout & _). unfold conn_with_out.
    destruct x; simpl in *. subst. reflexivity.
  - apply Forall_cons in Hwf. destruct Hwf as [Hq Hqs].
    rewrite (rq_send_consume_spec _ _ _ _ _ Hx Hsend Hq). simpl.
    rewrite (IH _ (conn_after_send x (out ++ consume_sequence q))
                (out ++ consume_sequence q)).
    + rewrite put_conn_put, <- app_assoc. reflexivity.
    + eapply lookup_put_conn; exact Hx.
    + eapply conn_can_send_after; exact Hsend.
    + unfold consume_sequence. destruct out; reflexivity.
    + exact Hqs.
Qed.

Section Activation.

Variable evutil_parse_sockaddr_port : string -> Z.
Variable socket : rq_t -> Z.
Variable connect : Z -> string -> Z * Z.
Variable rq_process_read : conn_ptr -> rq_t -> res rq_t.

(** C6, as amended.  When the connect event of a connecting connection
    fires with SO_ERROR = 0 and every registered subscription is one that
    [rq_send_consume] accepts (non-empty name shorter than 256, max >= 0),
    the connection becomes active and, before any input is read, one CONSUME
    sequence per registered subscription is queued on it, in list order:
    CLEAR, EXCLUSIVE iff the exclusive flag is nonzero, QUEUE=name, MAX=max,
    PRIORITY=priority, CONSUME. *)
Theorem connect_handler_replays_subscriptions (fd flags : Z) (c : conn_ptr)
    (error : Z) (rq : rq_t) (x : rq_conn_t) (out : expbuf_t) :
  conns rq !! c = Some x ->
  conn_connecting x ->
  conn_handle x = fd ->
  conn_outbuf x = Some out ->
  Z.land flags EV_WRITE <> 0 ->
  evbase rq = true ->
  Forall queue_wf (queues rq) ->
  error = 0 ->
  rq_connect_handler evutil_parse_sockaddr_port socket connect rq_process_read
    fd flags c error rq
  = rq_process_read c
      (put_conn c
         (conn_activated x (out ++ flat_map consume_sequence (queues rq))) rq).
Proof.
  intros Hx (Hfd & Hce & Hre & Hwe & Hac & Hcl & Hrb & Hib & Hsb & Hda & Hob)
    Hh Hout Hfl Hev Hwf ->.
  unfold rq_connect_handler.
  rewrite (assert_true (0 <=? fd)) by (apply Z.leb_le; lia). simpl.
  rewrite (assert_true (negb (flags =? 0)))
    by (apply negb_true_iff, Z.eqb_neq; intros ->; apply Hfl; reflexivity).
  simpl. rewrite (get_conn_ret _ _ _ Hx). simpl.
  rewrite (assert_true (conn_handle x =? fd)) by (apply Z.eqb_eq; exact Hh). simpl.
  rewrite (assert_true (negb (Z.land flags EV_WRITE =? 0)))
    by (apply negb_true_iff, Z.eqb_neq; exact Hfl).
  simpl. rewrite Hev, Hce. simpl.
  destruct x as [hn h re we ce rb ib sb ob da ac cg sh]; simpl in *.
  subst h re we ce rb ib sb da ac cg ob. simpl.
  rewrite (assert_true (0 <? fd)) by (apply Z.ltb_lt; lia). simpl.
  destruct out as [|o out]; simpl.
  - rewrite (send_consume_all_spec c (queues rq) _
               (mk_conn hn fd true false false (Some []) None (Some [])
                        (Some []) (Some rq_data_init) 1 0 sh) []).
    + simpl. rewrite put_conn_put. reflexivity.
    + eapply lookup_put_conn; exact Hx.
    + unfold conn_can_send, INVALID_HANDLE. destruct rq; simpl in *.
      repeat split; try reflexivity; try assumption. lia.
    + reflexivity.
    + exact Hwf.
  - rewrite (send_consume_all_spec c (queues rq) _
               (mk_conn hn fd true true false (Some []) None (Some [])
                        (Some (o :: out)) (Some rq_data_init) 1 0 sh) (o :: out)).
    + simpl. rewrite put_conn_put. reflexivity.
    + eapply lookup_put_conn; exact Hx.
    + unfold conn_can_send, INVALID_HANDLE. destruct rq; simpl in *.
      repeat split; try reflexivity; try assumption. lia.
    + reflexivity.
    + exact Hwf.
Qed.

End Activation.

Lemma connect_handler_replays_subscriptions_witness :
  rq_connect_handler parse_example socket_example connect_example
    process_read_example 5 EV_WRITE 0%nat 0 client_connecting_example
  = process_read_example 0%nat
      (put_conn 0%nat
         (conn_activated conn_connecting_example
            ([] ++ flat_map consume_sequence (queues client_connecting_example)))
         client_connecting_example).
Proof.
  apply (connect_handler_replays_subscriptions parse_example socket_example
           connect_example process_read_example 5 EV_WRITE 0%nat 0
           client_connecting_example conn_connecting_example []).
  - reflexivity.
  - unfold conn_connecting; simpl. repeat split; try reflexivity; try lia.
    discriminate.
  - reflexivity.
  - reflexivity.
  - vm_compute. discriminate.
  - reflexivity.
  - repeat constructor; unfold queue_wf; simpl; unfold strlen; simpl; lia.
  - reflexivity.
Defined.

(** ** Failed connects *)

Section Failover.

Variable evutil_parse_sockaddr_port : string -> Z.
Variable socket : rq_t -> Z.
Variable connect : Z -> string -> Z * Z.
Variable rq_process_read : conn_ptr -> rq_t -> res rq_t.

(** A connecting connection has no read buffer yet, and [rq_conn_closed]
    asserts that it has one right after [close]: with ECONNREFUSED the
    handler never gets as far as rotating the list. *)
Lemma connect_refused_aborts (fd flags : Z) (c : conn_ptr) (rq rq' : rq_t)
    (x : rq_conn_t) :
  conns rq !! c = Some x ->
  conn_connecting x ->
  rq_connect_handler evutil_parse_sockaddr_port socket connect rq_process_read
    fd flags c ECONNREFUSED rq <> Ret rq'.
Proof.
  intros Hx (Hfd & Hce & Hre & Hwe & Hac & Hcl & Hrb & Hib & Hsb & Hda & Hob) H.
  unfold rq_connect_handler in H. res_inv H.
  rewrite (get_conn_ret _ _ _ Hx) in H. simpl in H. res_inv H.
  unfold rq_conn_closed in H.
  erewrite get_conn_put in H by exact Hx. simpl in H. res_inv H.
  destruct x; simpl in *. subst. discriminate.
Qed.

(** C7.  Where the code departs from the claim, on the sample client whose
    head connection is connecting: with ECONNREFUSED the handler stops at
    [assert(conn->readbuf)] inside [rq_conn_closed], after [close] on the
    descriptor and before the list is rotated or a connect started; with
    another socket error (ETIMEDOUT) it takes the success branch and the
    connection becomes active. *)
Theorem connect_error_not_closed :
  rq_connect_handler evutil_parse_sockaddr_port socket connect rq_process_read
    5 EV_WRITE 0%nat ECONNREFUSED client_connecting_example
  = Fail AssertFailed /\
  rq_connect_handler evutil_parse_sockaddr_port socket connect rq_process_read
    5 EV_WRITE 0%nat ETIMEDOUT client_connecting_example
  = rq_process_read 0%nat
      (put_conn 0%nat
         (conn_activated conn_connecting_example
            (consume_sequence queue_pending_example))
         client_connecting_example) /\
  conn_active
    (conn_activated conn_connecting_example
            (consume_sequence queue_pending_example)) = 1.
Proof.
  split; [reflexivity|]. split; reflexivity.
Qed.

End Failover.

(** ** CLOSING *)

Section Closing.

Variable evutil_parse_sockaddr_port : string -> Z.
Variable socket : rq_t -> Z.
Variable connect : Z -> string -> Z * Z.

(** [rq_connect] looks at the head of the list only.  When the connection
    that received CLOSING is the head, it has just been marked closing, so
    the guard of [rq_connect] is false and no connect is started. *)
Lemma cmdClosing_on_head (c : conn_ptr) (rest : list conn_ptr) (rq : rq_t)
    (x : rq_conn_t) (d : rq_data_t) :
  connlist rq = c :: rest ->
  conns rq !! c = Some x ->
  conn_data x = Some d ->
  conn_closing x = 0 ->
  evbase rq = true ->
  cmdClosing evutil_parse_sockaddr_port socket connect c rq
  = Ret (put_conn c (conn_set_closing 1 x) rq).
Proof.
  intros Hl Hx Hd Hcl Hev. unfold cmdClosing.
  rewrite (get_data_ret _ _ _ _ Hx Hd). simpl.
  rewrite (assert_true (conn_closing x =? 0)) by (apply Z.eqb_eq; exact Hcl).
  simpl. unfold rq_connect.
  assert (evbase (put_conn c (conn_set_closing (conn_closing x + 1) x) rq) = true)
    as -> by (destruct rq; exact Hev).
  assert (connlist (put_conn c (conn_set_closing (conn_closing x + 1) x) rq)
          = c :: rest) as -> by (destruct rq; exact Hl).
  simpl. erewrite get_conn_put by exact Hx. simpl.
  rewrite Hcl. simpl. rewrite andb_false_r. reflexivity.
Qed.

(** C8.  Where the code departs from the claim, on the sample client with
    an active head and an idle second controller: CLOSING marks the head
    closing and leaves its socket, events and buffers alone, but starts no
    connect: the second controller still has no socket and no connect
    event, and the list order is unchanged. *)
Theorem cmdClosing_starts_no_connect :
  cmdClosing evutil_parse_sockaddr_port socket connect 0%nat
    client_failover_example
  = Ret (put_conn 0%nat (conn_set_closing 1 conn_example) client_failover_example)
  /\ conns (put_conn 0%nat (conn_set_closing 1 conn_example) client_failover_example)
       !! 1%nat = Some conn_idle_example
  /\ conn_handle conn_idle_example = INVALID_HANDLE
  /\ conn_connect_event conn_idle_example = false
  /\ connlist (put_conn 0%nat (conn_set_closing 1 conn_example)
                 client_failover_example) = [0%nat; 1%nat].
Proof.
  repeat split; reflexivity.
Qed.

End Closing.

(** ** REPLY *)

Lemma short_int_small (v : Z) : 0 <= v < 32768 -> short_int v = v.
Proof.
  intros H. unfold short_int. rewrite Z.mod_small by lia. lia.
Qed.

Lemma reply_commands_sequence (src_id : msg_id_t) (payload : option string)
    (buf : expbuf_t) :
  reply_commands src_id payload buf
  = buf ++ reply_sequence (short_int src_id) payload.
Proof.
  unfold reply_commands, reply_sequence, addCmd, addCmdLargeInt, addCmdLargeStr.
  destruct payload; simpl; rewrite <- ?app_assoc; reflexivity.
Qed.

Lemma reply_payload_args (len : Z) (data payload : option string) :
  reply_args len data payload ->
  reply_payload len data = Ret payload /\
  (((len =? 0) && bool_decide (data = None))
   || ((0 <? len) && negb (bool_decide (data = None)))) = true.
Proof.
  unfold reply_payload.
  intros [(-> & -> & ->)|(Hlen & s & -> & Hs & ->)].
  - split; reflexivity.
  - assert ((0 <? len) = true) as -> by (apply Z.ltb_lt; exact Hlen).
    assert ((len <=? Z.of_nat (String.length s)) = true) as ->
      by (apply Z.leb_le; exact Hs).
    split; [reflexivity|]. apply orb_true_iff. right. reflexivity.
Qed.

Lemma table_inv_put_conn (rq : rq_t) (c : conn_ptr) (y : rq_conn_t) :
  table_inv rq -> table_inv (put_conn c y rq).
Proof. destruct rq; exact (fun H => H). Qed.

Lemma rq_reply_run (p : msg_ptr) (len : Z) (data payload : option string)
    (rq : rq_t) (m : rq_message_t) (c : conn_ptr) (x : rq_conn_t)
    (out : expbuf_t) :
  msgs rq !! p = Some m ->
  msg_awaits_reply m c ->
  0 <= msg_id m -> 0 <= msg_src_id m ->
  conns rq !! c = Some x ->
  conn_can_send rq x out ->
  reply_args len data payload ->
  rq_reply p len data rq =
  let rq1 := put_conn c
               (conn_after_send x
                  (out ++ reply_sequence (short_int (msg_src_id m)) payload)) rq in
  if rq_msgstate_eqb (msg_state m) rq_msgstate_delivered
  then rq_msg_clear rq1 p
  else Ret (put_msg p (msg_set_state rq_msgstate_replied m) rq1).
Proof.
  intros Hm (Hc & Hst & Hnr & Hbc & Hq & Hd) Hid Hsrc Hx Hsend Hargs.
  destruct (reply_payload_args _ _ _ Hargs) as [Hpl Hok].
  unfold rq_reply, get_msg. rewrite Hm. simpl. rewrite Hok. simpl.
  rewrite Hc. simpl.
  rewrite (assert_true (0 <=? msg_id m)) by (apply Z.leb_le; exact Hid). simpl.
  rewrite (assert_true (0 <=? msg_src_id m)) by (apply Z.leb_le; exact Hsrc). simpl.
  rewrite Hbc, Hnr, Hq. simpl.
  rewrite (assert_true (_ || _)) by (destruct Hst as [-> | ->]; reflexivity).
  simpl.
  rewrite (assert_true (negb _))
    by (apply negb_true_iff, bool_decide_eq_false; exact Hd).
  simpl. rewrite Hpl. simpl.
  rewrite (send_commands_spec _ _ _ _ _ Hx Hsend)
    by (rewrite reply_commands_sequence; discriminate).
  simpl. rewrite reply_commands_sequence. reflexivity.
Qed.

(** C2, as amended.  For an inbound message that sits in slot [i] of a
    well-formed table, is in state delivering or delivered, has its
    connection set, was not sent as NOREPLY or broadcast, and has a source id
    below 32768: [rq_reply] queues exactly one sequence CLEAR, ID=src_id,
    [PAYLOAD=data], REPLY on that connection and on no other; from
    delivering the message becomes replied and stays in its slot, from
    delivered it is cleared at once. *)
Theorem rq_reply_spec (p : msg_ptr) (i : nat) (len : Z)
    (data payload : option string) (rq : rq_t) (m : rq_message_t)
    (c : conn_ptr) (x : rq_conn_t) (out : expbuf_t) :
  table_inv rq ->
  msg_list rq !! i = Some (Some p) ->
  msgs rq !! p = Some m ->
  msg_awaits_reply m c ->
  0 <= msg_src_id m < 32768 ->
  conns rq !! c = Some x ->
  conn_can_send rq x out ->
  reply_args len data payload ->
  exists rq' : rq_t,
    rq_reply p len data rq = Ret rq' /\
    conns rq' = <[c := conn_after_send x
                         (out ++ reply_sequence (msg_src_id m) payload)]> (conns rq) /\
    (msg_state m = rq_msgstate_delivering ->
       msgs rq' !! p = Some (msg_set_state rq_msgstate_replied m) /\
       msg_list rq' = msg_list rq /\ msg_used rq' = msg_used rq) /\
    (msg_state m = rq_msgstate_delivered ->
       msg_list rq' = <[i := None]> (msg_list rq) /\
       msg_used rq' = msg_used rq - 1 /\
       msg_pool rq' = p :: msg_pool rq).
Proof.
  intros Hinv Hi Hm Hwait Hsrc Hx Hsend Hargs.
  pose proof Hinv as (Hs & _ & _).
  destruct (Hs i p Hi) as (m' & Hm' & Hid).
  rewrite Hm in Hm'. injection Hm' as <-.
  rewrite (rq_reply_run p len data payload rq m c x out) by (try assumption; lia).
  rewrite (short_int_small _ Hsrc). cbv zeta.
  set (x1 := conn_after_send x (out ++ reply_sequence (msg_src_id m) payload)).
  destruct Hwait as (_ & [Hst|Hst] & _); rewrite Hst; simpl.
  - eexists. split; [reflexivity|]. split; [destruct rq; reflexivity|].
    split; [|intros H; discriminate]. intros _.
    split; [|destruct rq; split; reflexivity].
    destruct rq; simpl in *. apply list_lookup_insert_eq.
    eapply lookup_lt_Some; exact Hm.
  - destruct (rq_msg_clear_total (put_conn c x1 rq) i p) as (rq' & Hclr).
    { apply table_inv_put_conn, Hinv. }
    { destruct rq; exact Hi. }
    exists rq'. split; [exact Hclr|].
    destruct (rq_msg_clear_spec _ _ _ Hclr)
      as (m' & Hm' & _ & _ & _ & Hl & _ & Hused & _ & Hpool & Hcs & _).
    assert (m' = m) as ->.
    { destruct rq; simpl in *. rewrite Hm in Hm'. injection Hm' as <-. reflexivity. }
    split; [rewrite Hcs; destruct rq; reflexivity|].
    split; [intros H; discriminate|]. intros _.
    rewrite Hl, Hused, Hpool, Hid, Nat2Z.id. destruct rq; simpl. auto.
Qed.

Lemma client_inbound_example_inv (noreply : Z) (state : rq_msgstate) :
  table_inv (client_inbound_example noreply state) /\
  pool_ok (client_inbound_example noreply state) /\
  hint_ok (client_inbound_example noreply state).
Proof.
  split; [split; [|split]|split].
  - intros [|[|i]] p H; simpl in H; try discriminate.
    injection H as <-. eexists; split; reflexivity.
  - reflexivity.
  - unfold used_bounds, msg_max; simpl. lia.
  - split; [constructor|]. intros p H. apply elem_of_nil in H. contradiction.
  - left. reflexivity.
Qed.

Lemma rq_reply_spec_witness :
  exists rq' : rq_t,
    rq_reply 0%nat 2 (Some "ok"%string)
      (client_inbound_example 0 rq_msgstate_delivering) = Ret rq' /\
    conns rq' = <[0%nat := conn_after_send conn_example
                    ([] ++ reply_sequence 7 (Some "ok"%string))]>
                  (conns (client_inbound_example 0 rq_msgstate_delivering)) /\
    (rq_msgstate_delivering = rq_msgstate_delivering ->
       msgs rq' !! 0%nat
       = Some (msg_set_state rq_msgstate_replied
                 (msg_inbound_example 0 rq_msgstate_delivering)) /\
       msg_list rq' = msg_list (client_inbound_example 0 rq_msgstate_delivering) /\
       msg_used rq' = msg_used (client_inbound_example 0 rq_msgstate_delivering)) /\
    (rq_msgstate_delivering = rq_msgstate_delivered ->
       msg_list rq'
       = <[0%nat := None]> (msg_list (client_inbound_example 0 rq_msgstate_delivering)) /\
       msg_used rq' = msg_used (client_inbound_example 0 rq_msgstate_delivering) - 1 /\
       msg_pool rq'
       = 0%nat :: msg_pool (client_inbound_example 0 rq_msgstate_delivering)).
Proof.
  apply (rq_reply_spec 0%nat 0%nat 2 (Some "ok"%string) (Some "ok"%string)
           (client_inbound_example 0 rq_msgstate_delivering)
           (msg_inbound_example 0 rq_msgstate_delivering)
           0%nat conn_example []).
  - apply client_inbound_example_inv.
  - reflexivity.
  - reflexivity.
  - unfold msg_awaits_reply; simpl. repeat split; try reflexivity.
    + left; reflexivity.
    + discriminate.
  - simpl. lia.
  - reflexivity.
  - unfold conn_can_send, INVALID_HANDLE; simpl. repeat split; try reflexivity. lia.
  - right. split; [lia|]. exists "ok"%string. simpl. repeat split; lia.
Defined.

(** C2 as stated fails: a request that arrived with NOREPLY is an inbound
    message in state delivering with its connection set, and [rq_reply] on
    it stops at [assert(msg->noreply == 0)] without emitting anything. *)
Lemma rq_reply_noreply_counterexample :
  msgs (client_inbound_example 1 rq_msgstate_delivering) !! 0%nat
  = Some (msg_inbound_example 1 rq_msgstate_delivering) /\
  msg_state (msg_inbound_example 1 rq_msgstate_delivering) = rq_msgstate_delivering /\
  msg_conn (msg_inbound_example 1 rq_msgstate_delivering) = Some 0%nat /\
  rq_reply 0%nat 2 (Some "ok"%string)
    (client_inbound_example 1 rq_msgstate_delivering) = Fail AssertFailed.
Proof.
  repeat split; reflexivity.
Qed.

(** ** REQUEST *)

Lemma strcmp_eq_sym (a b : string) : strcmp_eq a b = strcmp_eq b a.
Proof. unfold strcmp_eq. apply String.eqb_sym. Qed.

Lemma find_queue_unknown (name : string) (qs : list rq_queue_t) :
  Forall (fun q => 0 < q_qid q) qs ->
  queue_known name qs = false ->
  find_queue 0 (Some name) qs = Ret None.
Proof.
  induction qs as [|q qs IH]; intros Hack Hun; [reflexivity|].
  apply Forall_cons in Hack. destruct Hack as [Hq Hqs].
  simpl in Hun. apply orb_false_iff in Hun. destruct Hun as [Hn Hrest].
  cbn [find_queue].
  destruct (q_qid q) as [|pq|nq]; try lia. simpl.
  rewrite strcmp_eq_sym, Hn. apply IH; assumption.
Qed.

Lemma request_by_name_ref (d : rq_data_t) :
  request_by_name d ->
  request_qid d = 0 /\ request_qname d = Some (data_queue d).
Proof.
  intros (_ & _ & Hq & Hqid). unfold request_qid, request_qname.
  rewrite Hq, Hqid. split; reflexivity.
Qed.

Section Request.

Variable call_handler : fn_ptr -> msg_ptr -> option arg_ptr -> rq_t -> res rq_t.

(** C3, as amended.  A REQUEST with id (below 32768), payload and a queue
    name, arriving when every registered subscription has been given its
    queue-id and none bears that name: the library queues CLEAR, ID=id,
    UNDELIVERED on the same connection and does nothing else; no handler
    runs, no message is allocated, the table is untouched. *)
Theorem cmdRequest_unknown_queue (c : conn_ptr) (rq : rq_t) (x : rq_conn_t)
    (d : rq_data_t) (out : expbuf_t) :
  conns rq !! c = Some x ->
  conn_data x = Some d ->
  request_by_name d ->
  0 <= data_id d < 32768 ->
  Forall (fun q => 0 < q_qid q) (queues rq) ->
  queue_known (data_queue d) (queues rq) = false ->
  conn_can_send rq x out ->
  exists rq' : rq_t,
    cmdRequest call_handler c rq = Ret rq' /\
    conns rq' = <[c := conn_after_send x (out ++ undelivered_sequence (data_id d))]>
                  (conns rq) /\
    msg_list rq' = msg_list rq /\ msgs rq' = msgs rq /\
    msg_used rq' = msg_used rq /\ msg_next rq' = msg_next rq /\
    msg_pool rq' = msg_pool rq /\ queues rq' = queues rq /\
    connlist rq' = connlist rq.
Proof.
  intros Hx Hd Hreq Hid Hack Hun Hsend.
  destruct (request_by_name_ref d Hreq) as [Hqid Hqn].
  destruct Hreq as (Hmi & Hmp & Hmq & Hmqi).
  exists (put_conn c (conn_after_send x (out ++ undelivered_sequence (data_id d))) rq).
  split; [|destruct rq; simpl; repeat split; reflexivity].
  unfold cmdRequest. rewrite (get_data_ret _ _ _ _ Hx Hd). simpl.
  rewrite Hmi, Hmp, Hmq, Hmqi. simpl.
  rewrite (assert_true (0 <=? data_id d)) by (apply Z.leb_le; lia). simpl.
  rewrite Hqid, Hqn. simpl.
  rewrite (find_queue_unknown _ _ Hack Hun). simpl.
  rewrite (send_commands_spec _ _ _ _ _ Hx Hsend) by discriminate.
  unfold undelivered_commands, undelivered_sequence, addCmd, addCmdLargeInt.
  simpl. rewrite (short_int_small _ Hid). reflexivity.
Qed.

End Request.

Lemma cmdRequest_unknown_queue_witness :
  exists rq' : rq_t,
    cmdRequest handler_silent 0%nat
      (with_data (data_request_example "nope") client_example) = Ret rq' /\
    conns rq'
    = <[0%nat := conn_after_send
                   (conn_set_data (Some (data_request_example "nope")) conn_example)
                   ([] ++ undelivered_sequence
                            (data_id (data_request_example "nope")))]>
        (conns (with_data (data_request_example "nope") client_example)) /\
    msg_list rq' = msg_list (with_data (data_request_example "nope") client_example) /\
    msgs rq' = msgs (with_data (data_request_example "nope") client_example) /\
    msg_used rq' = msg_used (with_data (data_request_example "nope") client_example) /\
    msg_next rq' = msg_next (with_data (data_request_example "nope") client_example) /\
    msg_pool rq' = msg_pool (with_data (data_request_example "nope") client_example) /\
    queues rq' = queues (with_data (data_request_example "nope") client_example) /\
    connlist rq' = connlist (with_data (data_request_example "nope") client_example).
Proof.
  apply (cmdRequest_unknown_queue handler_silent 0%nat
           (with_data (data_request_example "nope") client_example)
           (conn_set_data (Some (data_request_example "nope")) conn_example)
           (data_request_example "nope") []).
  - reflexivity.
  - reflexivity.
  - unfold request_by_name. repeat split; reflexivity.
  - simpl. lia.
  - apply Forall_cons. split; [simpl; lia | apply Forall_nil; exact I].
  - reflexivity.
  - unfold conn_can_send, INVALID_HANDLE; simpl. repeat split; try reflexivity. lia.
Defined.

(** C3 as stated fails: while the subscription to "q1" still waits for its
    CONSUMING acknowledgement (qid 0), a REQUEST for the unknown queue
    "nope" stops at [assert(tmp->qid > 0)]; no UNDELIVERED is queued. *)
Lemma cmdRequest_unknown_queue_counterexample :
  queue_known "nope" (queues client_pending_example) = false /\
  request_by_name (data_request_example "nope") /\
  cmdRequest handler_silent 0%nat
    (with_data (data_request_example "nope") client_pending_example)
  = Fail AssertFailed.
Proof.
  split; [reflexivity|]. split; [|reflexivity].
  unfold request_by_name. repeat split; reflexivity.
Qed.

Lemma table_inv_put_msg (rq : rq_t) (p : msg_ptr) (m0 m : rq_message_t) :
  msgs rq !! p = Some m0 -> msg_id m = msg_id m0 ->
  table_inv rq -> pool_ok rq ->
  table_inv (put_msg p m rq) /\ pool_ok (put_msg p m rq).
Proof.
  intros Hm0 Hid (Hs & Hu & Hb) (Hnd & Hp).
  destruct rq as [ev cl cs qs ml mu mn pool ms]; simpl in *.
  split; [split; [|split]|split]; try assumption.
  - intros i q Hi. simpl in *. destruct (Hs i q Hi) as (mq & Hmq & Hiq).
    simpl in Hmq.
    destruct (decide (p = q)) as [->|Hpq].
    + rewrite list_lookup_insert_eq by (eapply lookup_lt_Some; exact Hm0).
      rewrite Hm0 in Hmq. injection Hmq as <-. eexists; split; [reflexivity|lia].
    + rewrite list_lookup_insert_ne by exact Hpq. eauto.
  - intros q Hq. simpl in *. rewrite length_insert. apply Hp, Hq.
Qed.

Lemma pool_ok_put_conn (rq : rq_t) (c : conn_ptr) (y : rq_conn_t) :
  pool_ok rq -> pool_ok (put_conn c y rq).
Proof. destruct rq; exact (fun H => H). Qed.

Lemma hint_ok_put_conn (rq : rq_t) (c : conn_ptr) (y : rq_conn_t) :
  hint_ok rq -> hint_ok (put_conn c y rq).
Proof. destruct rq; exact (fun H => H). Qed.

Lemma request_accept_spec (c : conn_ptr) (rq : rq_t) (x : rq_conn_t)
    (d : rq_data_t) (out : expbuf_t) (pl : string) :
  conns rq !! c = Some x ->
  conn_data x = Some d ->
  data_payload d = Some pl ->
  0 <= data_id d < 32768 ->
  conn_can_send rq x out ->
  table_inv rq -> pool_ok rq -> hint_ok rq -> 0 < msg_max rq ->
  exists (p : msg_ptr) (k : nat) (rq1 : rq_t),
    request_accept c (data_id d) rq = Ret (p, rq1) /\
    conns rq1
    = <[c := conn_set_data (Some (data_set_payload None d))
               (conn_after_send x (out ++ delivered_sequence (data_id d)))]>
        (conns rq) /\
    msg_list rq1 !! k = Some (Some p) /\
    (forall j : nat, j <> k -> msg_list rq1 !! j = msg_list rq !! j) /\
    (forall q : msg_ptr, msg_list rq !! k <> Some (Some q)) /\
    msgs rq1 !! p
    = Some (msg_delivering c k (data_id d) (request_noreply d) pl) /\
    msg_used rq1 = msg_used rq + 1 /\
    queues rq1 = queues rq /\ connlist rq1 = connlist rq /\
    table_inv rq1 /\ pool_ok rq1.
Proof.
  intros Hx Hd Hpl Hid Hsend Hinv Hpool Hhint Hmax.
  set (xa := conn_after_send x (out ++ delivered_sequence (data_id d))).
  set (rqa := put_conn c xa rq).
  assert (table_inv rqa) as Hinva by (apply table_inv_put_conn, Hinv).
  assert (pool_ok rqa) as Hpoola by (apply pool_ok_put_conn, Hpool).
  assert (hint_ok rqa) as Hhinta by (apply hint_ok_put_conn, Hhint).
  assert (0 < msg_max rqa) as Hmaxa by (destruct rq; exact Hmax).
  destruct (rq_msg_new_total rqa (Some c) Hinva Hhinta Hmaxa) as (p & rqb & Hnew).
  destruct (rq_msg_new_preserves _ _ _ _ Hinva Hpoola Hnew) as [Hinvb Hpoolb].
  pose proof Hinva as (_ & Hua & _). pose proof Hpoola as [_ Hpa].
  destruct (rq_msg_new_spec _ _ _ _ Hua (fun q Hq => proj1 (Hpa q Hq)) Hnew)
    as (k & Hplace & Hmp & _ & _ & Hused & _ & _ & Hcs & Hcl & Hqs & _).
  destruct (placed_facts _ _ _ _ Hplace) as (Hk & Hne & _ & _ & Hfree).
  assert (conns rqb !! c = Some xa) as Hxb
    by (rewrite Hcs; eapply lookup_put_conn; exact Hx).
  assert (conn_data xa = Some d) as Hda by (destruct x; exact Hd).
  set (m1 := msg_delivering c k (data_id d) (request_noreply d) pl).
  set (rqc := put_data c xa (data_set_payload None d) rqb).
  exists p, k, (put_msg p m1 rqc).
  assert (request_accept c (data_id d) rq = Ret (p, put_msg p m1 rqc)) as Hrun.
  { unfold request_accept.
    rewrite (send_commands_spec _ _ _ _ _ Hx Hsend) by discriminate.
    unfold delivered_commands, addCmd, addCmdLargeInt. simpl.
    rewrite (short_int_small _ Hid).
    fold (delivered_sequence (data_id d)). fold xa. fold rqa.
    rewrite Hnew. simpl. unfold get_msg. rewrite Hmp. simpl.
    rewrite (assert_true (0 <=? Z.of_nat k)) by (apply Z.leb_le; lia). simpl.
    rewrite (get_data_ret _ _ _ _ Hxb Hda). simpl.
    rewrite (assert_true (0 <=? data_id d)) by (apply Z.leb_le; lia). simpl.
    assert (bool_decide
              (msg_data
                 (if BIT_TEST (data_flags d) RQ_DATA_FLAG_NOREPLY
                  then msg_set_noreply 1
                         (msg_set_src_id (data_id d)
                            (msg_set_id (Z.of_nat k) (msg_initial (Some c))))
                  else msg_set_src_id (data_id d)
                         (msg_set_id (Z.of_nat k) (msg_initial (Some c))))
               = None) = true) as ->
      by (destruct (BIT_TEST (data_flags d) RQ_DATA_FLAG_NOREPLY); reflexivity).
    simpl. rewrite Hpl. simpl.
    unfold m1, msg_delivering, request_noreply, rqc.
    destruct (BIT_TEST (data_flags d) RQ_DATA_FLAG_NOREPLY); reflexivity. }
  split; [exact Hrun|].
  assert (msgs rqc = msgs rqb /\ msg_list rqc = msg_list rqb
          /\ msg_used rqc = msg_used rqb /\ queues rqc = queues rqb
          /\ connlist rqc = connlist rqb) as (Hms & Hml & Hmu & Hq & Hc)
    by (unfold rqc; destruct rqb; simpl; auto).
  assert (table_inv rqc /\ pool_ok rqc) as [Hinvc Hpoolc].
  { unfold rqc, put_data. split;
      [apply table_inv_put_conn, Hinvb | apply pool_ok_put_conn, Hpoolb]. }
  destruct (table_inv_put_msg rqc p _ m1 (eq_trans (f_equal (fun l => l !! p) Hms) Hmp)
              eq_refl Hinvc Hpoolc) as [Hinv1 Hpool1].
  split; [|split; [|split; [|split; [|split; [|split; [|split; [|split]]]]]]].
  - unfold rqc, put_data, put_msg, put_conn. simpl. rewrite Hcs.
    unfold rqa, put_conn. simpl. rewrite list_insert_insert_eq. reflexivity.
  - destruct rqc; simpl in *. rewrite Hml. exact Hk.
  - intros j Hj. destruct rqc; simpl in *. rewrite Hml, (Hne j Hj).
    unfold rqa. destruct rq; reflexivity.
  - intros q Hq'. apply (Hfree q). unfold rqa. destruct rq; exact Hq'.
  - destruct rqc; simpl in *. apply list_lookup_insert_eq.
    rewrite Hms. eapply lookup_lt_Some; exact Hmp.
  - destruct rqc; simpl in *. rewrite Hmu, Hused. unfold rqa. destruct rq; reflexivity.
  - destruct rqc; simpl in *. rewrite Hq, Hqs. unfold rqa. destruct rq; reflexivity.
  - destruct rqc; simpl in *. rewrite Hc, Hcl. unfold rqa. destruct rq; reflexivity.
  - split; assumption.
Qed.

Lemma request_finish_cases (p : msg_ptr) (rq : rq_t) (m : rq_message_t) :
  msgs rq !! p = Some m ->
  (msg_noreply m = 1 \/ msg_state m = rq_msgstate_replied ->
     request_finish p rq = rq_msg_clear rq p) /\
  (msg_noreply m <> 1 -> msg_state m <> rq_msgstate_replied ->
     request_finish p rq
     = Ret (put_msg p (msg_set_state rq_msgstate_delivered m) rq)).
Proof.
  intros Hm. unfold request_finish, get_msg. rewrite Hm. simpl. split.
  - intros [H|H].
    + rewrite H. reflexivity.
    + rewrite H. destruct (msg_noreply m =? 1); reflexivity.
  - intros Hn Hs. apply Z.eqb_neq in Hn. rewrite Hn.
    destruct (msg_state m); try reflexivity. contradiction.
Qed.

(** The search of [cmdRequest] ends at subscription [q] exactly when the
    request's queue matches [q]: by name at the first subscription of that
    name, by queue-id at the head of the list. *)
Lemma find_queue_names (d : rq_data_t) (qs : list rq_queue_t) (q : rq_queue_t) :
  (request_qname d = None /\ 0 < request_qid d) \/
  (request_qname d <> None /\ request_qid d = 0) ->
  find_queue (request_qid d) (request_qname d) qs = Ret (Some q)
  <-> request_names d qs q.
Proof.
  intros Hone. unfold request_names.
  destruct (request_qname d) as [n|] eqn:En.
  - destruct Hone as [[Hn _]|[_ Hq]]; [discriminate|]. rewrite Hq. clear Hq.
    induction qs as [|t qs IH]; cbn [find_queue].
    + split; [discriminate|]. intros (pre & post & H & _).
      destruct pre; discriminate.
    + split.
      * intros H. res_inv H. cbn beta in H.
        rewrite (proj2 (Z.eqb_neq 0 (q_qid t))) in H by lia.
        destruct (strcmp_eq n (q_queue t)) eqn:Es.
        -- injection H as <-. exists [], qs. split; [reflexivity|].
           split; [intros u Hu; apply elem_of_nil in Hu; contradiction|].
           split; [assumption|]. split; [exact Es|].
           intros u Hu. apply elem_of_nil in Hu. contradiction.
        -- apply IH in H. destruct H as (pre & post & -> & Hpre & Hq & Hm & Hno).
           exists (t :: pre), post. split; [reflexivity|].
           split; [|split; [exact Hq|split; [exact Hm|]]].
           ++ intros u Hu. apply elem_of_cons in Hu.
              destruct Hu as [->|Hu]; [assumption|exact (Hpre u Hu)].
           ++ intros u Hu. apply elem_of_cons in Hu.
              destruct Hu as [->|Hu]; [exact Es|exact (Hno u Hu)].
      * intros (pre & post & H & Hpre & Hq & Hm & Hno).
        destruct pre as [|t' pre]; cbn [app] in H; injection H as -> ->.
        -- rewrite (assert_true (0 <? q_qid q)) by (apply Z.ltb_lt; exact Hq).
           cbn [mbind res_bind].
           rewrite (proj2 (Z.eqb_neq 0 (q_qid q))) by lia.
           rewrite Hm. reflexivity.
        -- pose proof (Hpre t' (list_elem_of_here t' pre)) as Ht.
           rewrite (assert_true (0 <? q_qid t')) by (apply Z.ltb_lt; exact Ht).
           cbn [mbind res_bind].
           rewrite (proj2 (Z.eqb_neq 0 (q_qid t'))) by lia.
           rewrite (Hno t' (list_elem_of_here t' pre)). apply IH.
           exists pre, post. split; [reflexivity|].
           split; [intros u Hu; apply Hpre; right; exact Hu|].
           split; [exact Hq|]. split; [exact Hm|].
           intros u Hu. apply Hno. right. exact Hu.
  - destruct Hone as [[_ Hq]|[Hn _]]; [|contradiction].
    destruct qs as [|t qs]; cbn [find_queue].
    + split; [discriminate|]. intros (pre & post & H & _).
      destruct pre; discriminate.
    + split.
      * intros H. res_inv H. cbn beta in H.
        destruct (request_qid d =? q_qid t) eqn:E; [|discriminate].
        injection H as <-. apply Z.eqb_eq in E.
        exists [], qs. split; [reflexivity|].
        split; [intros u Hu; apply elem_of_nil in Hu; contradiction|].
        split; [assumption|]. split; [symmetry; exact E|reflexivity].
      * intros (pre & post & H & _ & Hpos & Hid & ->). cbn [app] in H.
        injection H as -> ->.
        rewrite (assert_true (0 <? q_qid q)) by (apply Z.ltb_lt; exact Hpos).
        cbn [mbind res_bind]. rewrite Hid, Z.eqb_refl. reflexivity.
Qed.

Section Dispatch.

Variable call_handler : fn_ptr -> msg_ptr -> option arg_ptr -> rq_t -> res rq_t.

(** C1, as amended.  A REQUEST with id (below 32768), payload and exactly
    one of queue-id and queue name, whose queue matches the registered
    subscription [q] (by name the first subscription of that name, by
    queue-id the head of the list; the subscriptions up to [q] all
    acknowledged), on a connection that can send and a well-formed
    table.  Before the handler runs, CLEAR, ID=id, DELIVERED is queued on
    the same connection, a message is allocated in a free slot [k] with the
    connection set, [src_id] the wire id, the accumulator's payload as its
    data and state delivering, and the accumulator's payload is NULL.  Then
    the handler of [q] is called on that message.  When it returns, the
    message is cleared if its noreply flag is 1 or its state is replied;
    otherwise its state becomes delivered and it stays in the table. *)
Theorem cmdRequest_dispatch (c : conn_ptr) (rq : rq_t) (x : rq_conn_t)
    (d : rq_data_t) (q : rq_queue_t) (out : expbuf_t) (pl : string) :
  conns rq !! c = Some x ->
  conn_data x = Some d ->
  request_complete d ->
  0 <= data_id d < 32768 ->
  data_payload d = Some pl ->
  request_names d (queues rq) q ->
  conn_can_send rq x out ->
  table_inv rq -> pool_ok rq -> hint_ok rq -> 0 < msg_max rq ->
  exists (p : msg_ptr) (k : nat) (rq1 : rq_t),
    conns rq1
    = <[c := conn_set_data (Some (data_set_payload None d))
               (conn_after_send x (out ++ delivered_sequence (data_id d)))]>
        (conns rq) /\
    msg_list rq1 !! k = Some (Some p) /\
    (forall j : nat, j <> k -> msg_list rq1 !! j = msg_list rq !! j) /\
    (forall r : msg_ptr, msg_list rq !! k <> Some (Some r)) /\
    msgs rq1 !! p
    = Some (msg_delivering c k (data_id d) (request_noreply d) pl) /\
    msg_used rq1 = msg_used rq + 1 /\
    cmdRequest call_handler c rq
    = (call_handler (q_handler q) p (q_arg q) rq1 ≫= request_finish p) /\
    forall (rq2 : rq_t) (m2 : rq_message_t),
      call_handler (q_handler q) p (q_arg q) rq1 = Ret rq2 ->
      msgs rq2 !! p = Some m2 ->
      (msg_noreply m2 = 1 \/ msg_state m2 = rq_msgstate_replied ->
         cmdRequest call_handler c rq = rq_msg_clear rq2 p) /\
      (msg_noreply m2 <> 1 -> msg_state m2 <> rq_msgstate_replied ->
         cmdRequest call_handler c rq
         = Ret (put_msg p (msg_set_state rq_msgstate_delivered m2) rq2) /\
         msg_list (put_msg p (msg_set_state rq_msgstate_delivered m2) rq2)
         = msg_list rq2).
Proof.
  intros Hx Hd (Hmi & Hmp & Hone) Hid Hpl Hnames Hsend Hinv Hpool Hhint Hmax.
  pose proof (proj2 (find_queue_names d (queues rq) q Hone) Hnames) as Hfind.
  destruct (request_accept_spec c rq x d out pl Hx Hd Hpl Hid Hsend Hinv Hpool
              Hhint Hmax)
    as (p & k & rq1 & Hacc & Hcs & Hk & Hne & Hfree & Hm & Hused & _).
  exists p, k, rq1.
  assert (cmdRequest call_handler c rq
          = (call_handler (q_handler q) p (q_arg q) rq1 ≫= request_finish p))
    as Hrun.
  { unfold cmdRequest. rewrite (get_data_ret _ _ _ _ Hx Hd). simpl.
    rewrite Hmi, Hmp. simpl.
    assert (BIT_TEST (data_mask d) RQ_DATA_MASK_QUEUEID
            || BIT_TEST (data_mask d) RQ_DATA_MASK_QUEUE = true) as ->.
    { unfold request_qid, request_qname in Hone.
      destruct (BIT_TEST (data_mask d) RQ_DATA_MASK_QUEUEID);
        destruct (BIT_TEST (data_mask d) RQ_DATA_MASK_QUEUE); try reflexivity.
      destruct Hone as [[_ H]|[H _]]; [lia|contradiction]. }
    rewrite (assert_true (0 <=? data_id d)) by (apply Z.leb_le; lia). simpl.
    rewrite (assert_true (_ || _)).
    - simpl. rewrite Hfind. simpl. rewrite Hacc. reflexivity.
    - apply orb_true_iff. destruct Hone as [[Hn Hq]|[Hn Hq]].
      + left. rewrite Hn. apply andb_true_iff. split; [reflexivity|].
        apply Z.ltb_lt. exact Hq.
      + right. rewrite Hq. destruct (request_qname d); [reflexivity|contradiction]. }
  repeat (split; [assumption|]).
  intros rq2 m2 Hcall Hm2. rewrite Hrun, Hcall. simpl.
  destruct (request_finish_cases p rq2 m2 Hm2) as [Hclear Hkeep].
  split; [exact Hclear|]. intros Hn Hs. split; [apply Hkeep; assumption|].
  destruct rq2; reflexivity.
Qed.

End Dispatch.

Lemma client_example_inv :
  table_inv client_example /\ pool_ok client_example /\ hint_ok client_example.
Proof.
  split; [split; [|split]|split].
  - intros i p H. apply lookup_replicate in H. destruct H; discriminate.
  - reflexivity.
  - unfold used_bounds, msg_max; simpl. lia.
  - split; [constructor|]. intros p H. apply elem_of_nil in H. contradiction.
  - right. unfold msg_max; simpl. split; [lia|reflexivity].
Qed.

Lemma cmdRequest_dispatch_witness :
  exists (p : msg_ptr) (k : nat) (rq1 : rq_t),
    conns rq1
    = <[0%nat := conn_set_data
                   (Some (data_set_payload None (data_request_example "q1")))
                   (conn_after_send
                      (conn_set_data (Some (data_request_example "q1")) conn_example)
                      ([] ++ delivered_sequence
                               (data_id (data_request_example "q1"))))]>
        (conns (with_data (data_request_example "q1") client_example)) /\
    msg_list rq1 !! k = Some (Some p) /\
    (forall j : nat, j <> k ->
       msg_list rq1 !! j
       = msg_list (with_data (data_request_example "q1") client_example) !! j) /\
    (forall r : msg_ptr,
       msg_list (with_data (data_request_example "q1") client_example) !! k
       <> Some (Some r)) /\
    msgs rq1 !! p
    = Some (msg_delivering 0%nat k (data_id (data_request_example "q1"))
              (request_noreply (data_request_example "q1")) "hi") /\
    msg_used rq1
    = msg_used (with_data (data_request_example "q1") client_example) + 1 /\
    cmdRequest handler_replies 0%nat
      (with_data (data_request_example "q1") client_example)
    = (handler_replies (q_handler queue_example) p (q_arg queue_example) rq1
       ≫= request_finish p) /\
    forall (rq2 : rq_t) (m2 : rq_message_t),
      handler_replies (q_handler queue_example) p (q_arg queue_example) rq1
      = Ret rq2 ->
      msgs rq2 !! p = Some m2 ->
      (msg_noreply m2 = 1 \/ msg_state m2 = rq_msgstate_replied ->
         cmdRequest handler_replies 0%nat
           (with_data (data_request_example "q1") client_example)
         = rq_msg_clear rq2 p) /\
      (msg_noreply m2 <> 1 -> msg_state m2 <> rq_msgstate_replied ->
         cmdRequest handler_replies 0%nat
           (with_data (data_request_example "q1") client_example)
         = Ret (put_msg p (msg_set_state rq_msgstate_delivered m2) rq2) /\
         msg_list (put_msg p (msg_set_state rq_msgstate_delivered m2) rq2)
         = msg_list rq2).
Proof.
  apply (cmdRequest_dispatch handler_replies 0%nat
           (with_data (data_request_example "q1") client_example)
           (conn_set_data (Some (data_request_example "q1")) conn_example)
           (data_request_example "q1") queue_example [] "hi").
  - reflexivity.
  - reflexivity.
  - unfold request_complete. repeat split; try reflexivity.
    right. split; [discriminate|reflexivity].
  - simpl. lia.
  - reflexivity.
  - exists [], []. split; [reflexivity|].
    split; [intros t Ht; apply elem_of_nil in Ht; contradiction|].
    split; [reflexivity|]. split; [reflexivity|].
    intros t Ht. apply elem_of_nil in Ht. contradiction.
  - unfold conn_can_send, INVALID_HANDLE; simpl. repeat split; try reflexivity. lia.
  - apply (table_inv_put_conn client_example), client_example_inv.
  - apply (pool_ok_put_conn client_example), client_example_inv.
  - apply (hint_ok_put_conn client_example), client_example_inv.
  - unfold msg_max; simpl. lia.
Defined.

(** C1 as stated fails: the request names the registered subscription "q1",
    but the controller has not acknowledged that subscription yet (qid 0),
    and [cmdRequest] stops at [assert(tmp->qid > 0)]: nothing is emitted, no
    message is allocated, no handler runs. *)
Lemma cmdRequest_dispatch_counterexample :
  queue_known "q1" (queues client_pending_example) = true /\
  request_complete (data_request_example "q1") /\
  cmdRequest handler_silent 0%nat
    (with_data (data_request_example "q1") client_pending_example)
  = Fail AssertFailed.
Proof.
  split; [reflexivity|]. split; [|reflexivity].
  unfold request_complete. repeat split; try reflexivity.
  right. split; [discriminate|reflexivity].
Qed.

(** ** The request scenarios of the specification, run on the sample client *)

(** The handler replies from inside the dispatch: DELIVERED(7) and then
    REPLY(7, "ok") are queued, and the message is back in the pool. *)
Example request_replied_in_handler :
  exists rq' x',
    cmdRequest handler_replies 0%nat
      (with_data (data_request_example "q1") client_example) = Ret rq' /\
    conns rq' !! 0%nat = Some x' /\
    conn_outbuf x'
    = Some (delivered_sequence 7 ++ reply_sequence 7 (Some "ok"%string)) /\
    msg_list rq' = replicate DEFAULT_MSG_ARRAY None /\
    msg_used rq' = 0 /\ msg_pool rq' = [0%nat].
Proof.
  eexists. eexists. split; [vm_compute; reflexivity|].
  split; [reflexivity|]. repeat split; reflexivity.
Qed.

(** The handler returns without replying: the message stays, delivered, and
    a later [rq_reply] sends the REPLY and clears it. *)
Example request_replied_later :
  exists rq1 rq2 m x2,
    cmdRequest handler_silent 0%nat
      (with_data (data_request_example "q1") client_example) = Ret rq1 /\
    msg_list rq1 !! 0%nat = Some (Some 0%nat) /\
    msgs rq1 !! 0%nat = Some m /\ msg_state m = rq_msgstate_delivered /\
    rq_reply 0%nat 2 (Some "ok"%string) rq1 = Ret rq2 /\
    conns rq2 !! 0%nat = Some x2 /\
    conn_outbuf x2
    = Some (delivered_sequence 7 ++ reply_sequence 7 (Some "ok"%string)) /\
    msg_list rq2 = replicate DEFAULT_MSG_ARRAY None.
Proof.
  eexists. eexists. eexists. eexists.
  split; [vm_compute; reflexivity|].
  split; [reflexivity|]. split; [reflexivity|]. split; [reflexivity|].
  split; [vm_compute; reflexivity|].
  split; [reflexivity|]. split; reflexivity.
Qed.

(** Ids from 32768 on do not survive the [(short int)] cast of the
    acknowledgement: request 40000 is acknowledged as -25536. *)
Example short_int_wraps : short_int 40000 = -25536.
Proof. reflexivity. Qed.

(** A request that carries a queue-id only reaches [strcmp] with a NULL
    name as soon as a subscription has another queue-id. *)
Example request_by_id_null_name :
  cmdRequest handler_silent 0%nat
    (with_data (mk_data 0 42 7 9 0 0 (Some "hi"%string) EmptyString) client_example)
  = Fail Undefined.
Proof. reflexivity. Qed.

(** C6 as stated fails for a subscription that [rq_send_consume] refuses:
    [rq_consume] registers a queue with an empty name while the head is
    still connecting, and the replay on activation then stops at
    [assert(strlen(queue->queue) > 0)]. *)
Lemma connect_handler_replay_counterexample :
  rq_consume client_connecting_example EmptyString 10 RQ_PRIORITY_NORMAL 0 1%nat
    None None None
  = Ret (rq_set_queues [queue_pending_example; queue_unnamed_example]
           client_connecting_example) /\
  rq_connect_handler parse_example socket_example connect_example
    process_read_example 5 EV_WRITE 0%nat 0
    (rq_set_queues [queue_pending_example; queue_unnamed_example]
       client_connecting_example)
  = Fail AssertFailed.
Proof.
  split; reflexivity.
Qed.

(** A queue-id that has been set is positive: [cmdQueueID] accepts no
    other value, and CLEAR drops the mask bit together with the value. *)
Lemma cmdQueueID_positive (c : conn_ptr) (value : Z) (rq rq' : rq_t) :
  cmdQueueID c value rq = Ret rq' ->
  exists x d, conns rq' !! c = Some x /\ conn_data x = Some d /\
    BIT_TEST (data_mask d) RQ_DATA_MASK_QUEUEID = true /\ 0 < data_qid d.
Proof.
  unfold cmdQueueID. intros H. res_inv H.
  destruct (get_data rq c) as [[x d]|f] eqn:E; [|discriminate].
  simpl in H. injection H as <-. apply get_data_inv in E. destruct E as [Hx Hd].
  eexists. eexists. split; [eapply lookup_put_conn; exact Hx|].
  split; [destruct x; reflexivity|]. simpl. split; [|lia].
  unfold BIT_TEST, BIT_SET, RQ_DATA_MASK_QUEUEID.
  apply negb_true_iff, Z.eqb_neq. intros Hz.
  rewrite Z.land_lor_distr_l in Hz. apply Z.lor_eq_0_iff in Hz.
  destruct Hz as [_ Hz]. discriminate.
Qed.

(** ** The sample states come from the public operations *)

(** Cold connect: attach the reactor, add two controllers, subscribe to
    "q1".  The head is then connecting and the subscription waits for its
    acknowledgement. *)
Example cold_connect_reaches_connecting :
  (rq ← rq_setevbase rq_init true;
   rq ← rq_addcontroller parse_example socket_example connect_example rq
          "127.0.0.1:13555";
   rq ← rq_addcontroller parse_example socket_example connect_example rq
          "127.0.0.1:13556";
   rq_consume rq "q1" 10 RQ_PRIORITY_NORMAL 0 1%nat (Some 2%nat) None None)
  = Ret client_connecting_example.
Proof. reflexivity. Qed.

(** The reactor then reports the connect as complete: the head is active
    with the CONSUME for "q1" pending, and the CONSUMING acknowledgement
    gives the subscription its queue-id. *)
Example activation_then_acknowledgement :
  exists rq1 rq2,
    rq_connect_handler parse_example socket_example connect_example
      process_read_example 5 EV_WRITE 0%nat 0 client_connecting_example
    = Ret rq1 /\
    (rq ← cmdClear 0%nat rq1;
     rq ← cmdQueueID 0%nat 3 rq;
     rq ← cmdQueue 0%nat "q1" rq;
     cmdConsuming (fun _ _ _ _ rq => Ret rq) 0%nat rq) = Ret rq2 /\
    queues rq2 = [queue_example] /\
    (conn_outbuf <$> conns rq2 !! 0%nat)
    = Some (Some (consume_sequence queue_pending_example)).
Proof.
  eexists. eexists. split; [vm_compute; reflexivity|].
  split; [vm_compute; reflexivity|]. split; reflexivity.
Qed.

(** * Properties of the rest of librq.c *)

(** A computation that returns no value has stopped at a failure. *)
Lemma res_no_return {A : Type} (m : res A) :
  (forall a : A, m <> Ret a) -> exists f, m = Fail f.
Proof.
  intros H. destruct m as [a|f]; [destruct (H a eq_refl)|exists f; reflexivity].
Qed.

(** ** Sending a request *)

Lemma send_request_commands_sequence (m : rq_message_t) (queue data : string)
    (buf : expbuf_t) :
  send_request_commands m queue data buf
  = buf ++ request_sequence (msg_id m) queue data (msg_noreply m) (msg_broadcast m).
Proof.
  unfold send_request_commands, request_sequence, addCmd, addCmdLargeInt,
    addCmdShortStr, addCmdLargeStr.
  destruct (0 <? msg_noreply m); destruct (0 <? msg_broadcast m);
    simpl; rewrite <- ?app_assoc; reflexivity.
Qed.

Lemma rq_send_run (p : msg_ptr) (reply fail : option fn_ptr)
    (arg : option arg_ptr) (rq : rq_t) (m : rq_message_t) (queue data : string)
    (c : conn_ptr) (rest : list conn_ptr) (x : rq_conn_t) (out : expbuf_t) :
  msgs rq !! p = Some m ->
  msg_outbound_ready m queue data ->
  (arg = None \/ reply <> None \/ fail <> None) ->
  connlist rq = c :: rest ->
  conns rq !! c = Some x ->
  conn_serving x ->
  conn_can_send rq x out ->
  rq_send p reply fail arg rq
  = Ret (put_conn c
           (conn_after_send x
              (out ++ request_sequence (msg_id m) queue data (msg_noreply m)
                        (msg_broadcast m)))
           (put_msg p (msg_set_handlers reply fail arg m) rq)).
Proof.
  intros Hm (Hc & Hst & Hsrc & Hid & Hq & Hd & Hne) Harg Hl Hx (Hact & Hcl) Hsend.
  unfold rq_send, get_msg. rewrite Hm. simpl. rewrite Hd. simpl.
  rewrite (assert_true (0 <? _))
    by (apply Z.ltb_lt; destruct data; [contradiction|simpl; lia]).
  simpl.
  rewrite (assert_true (0 <=? msg_id m)) by (apply Z.leb_le; exact Hid). simpl.
  rewrite Hc, Hq, Hsrc, Hst. simpl.
  rewrite (assert_true (_ || _)).
  2:{ destruct Harg as [->|[H|H]].
      - reflexivity.
      - destruct reply; [|contradiction]. apply orb_true_iff. left.
        apply orb_true_iff. right. reflexivity.
      - destruct fail; [|contradiction]. apply orb_true_iff. right. reflexivity. }
  simpl.
  rewrite Hl.
  assert (conns (put_msg p (msg_set_handlers reply fail arg m) rq) !! c = Some x)
    as Hx' by (destruct rq; exact Hx).
  rewrite (get_conn_ret _ _ _ Hx'). simpl.
  assert ((0 <? conn_active x) = true) as -> by (apply Z.ltb_lt; exact Hact).
  rewrite Hcl. simpl.
  rewrite (send_commands_spec c _ _ x out Hx').
  - rewrite send_request_commands_sequence. reflexivity.
  - destruct Hsend as (H1 & H2 & H3 & H4). unfold conn_can_send.
    destruct rq; simpl in *. auto.
  - rewrite send_request_commands_sequence. discriminate.
Qed.

(** X1.  [rq_send] on an outbound message, with an active head that is not
    closing: the callbacks are stored in the message and exactly one
    sequence CLEAR, ID=msg.id, QUEUE, PAYLOAD, [NOREPLY], BROADCAST or
    REQUEST is queued on the head connection; the table is not touched. *)
Theorem rq_send_emits (p : msg_ptr) (reply fail : option fn_ptr)
    (arg : option arg_ptr) (rq : rq_t) (m : rq_message_t) (queue data : string)
    (c : conn_ptr) (rest : list conn_ptr) (x : rq_conn_t) (out : expbuf_t) :
  msgs rq !! p = Some m ->
  msg_outbound_ready m queue data ->
  (arg = None \/ reply <> None \/ fail <> None) ->
  connlist rq = c :: rest ->
  conns rq !! c = Some x ->
  conn_serving x ->
  conn_can_send rq x out ->
  rq_send p reply fail arg rq
  = Ret (put_conn c
           (conn_after_send x
              (out ++ request_sequence (msg_id m) queue data (msg_noreply m)
                        (msg_broadcast m)))
           (put_msg p (msg_set_handlers reply fail arg m) rq)).
Proof.
  intros Hm Hready Harg Hl Hx Hserving Hsend.
  exact (rq_send_run p reply fail arg rq m queue data c rest x out
           Hm Hready Harg Hl Hx Hserving Hsend).
Qed.

Lemma rq_send_emits_witness :
  rq_send 0%nat None None None client_outbound_example
  = Ret (put_conn 0%nat
           (conn_after_send conn_example
              ([] ++ request_sequence (msg_id msg_outbound_example) "w" "x"
                       (msg_noreply msg_outbound_example)
                       (msg_broadcast msg_outbound_example)))
           (put_msg 0%nat (msg_set_handlers None None None msg_outbound_example)
              client_outbound_example)).
Proof.
  apply (rq_send_emits 0%nat None None None client_outbound_example
           msg_outbound_example "w" "x" 0%nat [] conn_example []).
  - reflexivity.
  - unfold msg_outbound_ready; simpl. repeat split; try reflexivity; try lia.
    discriminate.
  - left; reflexivity.
  - reflexivity.
  - reflexivity.
  - unfold conn_serving; simpl. split; [lia|reflexivity].
  - unfold conn_can_send, INVALID_HANDLE; simpl. repeat split; try reflexivity. lia.
Defined.

Lemma rq_send_no_return (p : msg_ptr) (reply fail : option fn_ptr)
    (arg : option arg_ptr) (rq rq' : rq_t) :
  (connlist rq = [] \/
   exists c rest x, connlist rq = c :: rest /\ conns rq !! c = Some x /\
                    (conn_active x <= 0 \/ conn_closing x <> 0)) ->
  rq_send p reply fail arg rq <> Ret rq'.
Proof.
  intros Hhead H. unfold rq_send in H.
  apply bind_ret_inv in H. destruct H as (m & _ & H).
  apply bind_ret_inv in H. destruct H as (data & _ & H). res_inv H.
  apply bind_ret_inv in H. destruct H as (queue & _ & H). res_inv H.
  set (rq1 := put_msg p (msg_set_handlers reply fail arg m) rq) in H.
  assert (connlist rq1 = connlist rq) as Hl by (destruct rq; reflexivity).
  assert (conns rq1 = conns rq) as Hcs by (destruct rq; reflexivity).
  rewrite Hl in H. destruct Hhead as [He|(c & rest & x & Hc & Hx & Hbad)].
  - rewrite He in H. discriminate.
  - rewrite Hc in H. unfold get_conn in H. rewrite Hcs, Hx in H. simpl in H.
    destruct Hbad as [Hact|Hcl].
    + assert ((0 <? conn_active x) = false) as E by (apply Z.ltb_ge; exact Hact).
      rewrite E in H. discriminate.
    + assert ((conn_closing x =? 0) = false) as E by (apply Z.eqb_neq; exact Hcl).
      rewrite E, andb_false_r in H. discriminate.
Qed.

(** X2.  [rq_send] never returns when the list of connections is empty or its
    head is not active or is closing: the message is not kept for a later
    connection, the call stops at a failed assertion, at the latest at
    [assert(0)]. *)
Theorem rq_send_needs_serving_head (p : msg_ptr) (reply fail : option fn_ptr)
    (arg : option arg_ptr) (rq : rq_t) :
  (connlist rq = [] \/
   exists c rest x, connlist rq = c :: rest /\ conns rq !! c = Some x /\
                    (conn_active x <= 0 \/ conn_closing x <> 0)) ->
  exists f, rq_send p reply fail arg rq = Fail f.
Proof.
  intros Hhead. apply res_no_return. intros rq'.
  exact (rq_send_no_return p reply fail arg rq rq' Hhead).
Qed.

Lemma rq_send_needs_serving_head_witness :
  exists f,
    rq_send 0%nat None None None
      (put_conn 0%nat (conn_set_closing 1 conn_example) client_outbound_example)
    = Fail f.
Proof.
  apply rq_send_needs_serving_head. right.
  exists 0%nat, [], (conn_set_closing 1 conn_example).
  split; [reflexivity|]. split; [reflexivity|]. right. simpl. lia.
Defined.

(** ** DELIVERED and REPLY *)

Lemma table_inv_put_msg_id (rq : rq_t) (p : msg_ptr) (m0 m : rq_message_t) :
  msgs rq !! p = Some m0 -> msg_id m = msg_id m0 ->
  table_inv rq -> table_inv (put_msg p m rq).
Proof.
  intros Hm0 Hid (Hs & Hu & Hb).
  destruct rq as [ev cl cs qs ml mu mn pool ms]; simpl in *.
  split; [|split]; try assumption.
  intros i q Hi. simpl in *. destruct (Hs i q Hi) as (mq & Hmq & Hiq).
  simpl in Hmq. destruct (decide (p = q)) as [->|Hpq].
  - rewrite list_lookup_insert_eq by (eapply lookup_lt_Some; exact Hm0).
    rewrite Hm0 in Hmq. injection Hmq as <-. eexists; split; [reflexivity|lia].
  - rewrite list_lookup_insert_ne by exact Hpq. eauto.
Qed.

(** X3.  A DELIVERED that names an outbound message in state new marks it
    delivered and changes nothing else; a second DELIVERED for the same
    message never returns. *)
Theorem cmdDelivered_marks_once (c : conn_ptr) (rq : rq_t) (x : rq_conn_t)
    (d : rq_data_t) (k : nat) (p : msg_ptr) (m : rq_message_t) :
  conns rq !! c = Some x ->
  conn_data x = Some d ->
  BIT_TEST (data_mask d) RQ_DATA_MASK_ID = true ->
  data_id d = Z.of_nat k ->
  msg_list rq !! k = Some (Some p) ->
  msgs rq !! p = Some m ->
  msg_conn m = None ->
  msg_state m = rq_msgstate_new ->
  cmdDelivered c rq
  = Ret (put_msg p (msg_set_state rq_msgstate_delivered m) rq) /\
  forall rq' : rq_t,
    cmdDelivered c (put_msg p (msg_set_state rq_msgstate_delivered m) rq)
    <> Ret rq'.
Proof.
  intros Hx Hd Hbit Hid Hk Hm Hc Hst.
  pose proof (lookup_lt_Some _ _ _ Hk) as Hlt. split.
  - unfold cmdDelivered. rewrite (get_data_ret _ _ _ _ Hx Hd). simpl.
    rewrite Hbit, Hid.
    rewrite (assert_true (0 <=? Z.of_nat k)) by (apply Z.leb_le; lia). simpl.
    rewrite (assert_true (_ && _))
      by (apply andb_true_iff; split;
          [apply Z.leb_le|apply Z.ltb_lt; unfold msg_max]; lia).
    simpl. rewrite Nat2Z.id, Hk. simpl. unfold get_msg. rewrite Hm. simpl.
    rewrite Hc, Hst. reflexivity.
  - intros rq' H. unfold cmdDelivered in H.
    assert (get_data (put_msg p (msg_set_state rq_msgstate_delivered m) rq) c
            = Ret (x, d)) as E
      by (apply get_data_ret; [destruct rq; exact Hx | exact Hd]).
    rewrite E in H. simpl in H. rewrite Hbit, Hid in H. res_inv H.
    destruct rq as [ev cl cs qs ml mu mn pool ms]; simpl in *.
    rewrite Nat2Z.id, Hk in H. simpl in H. unfold get_msg in H. simpl in H.
    rewrite list_lookup_insert_eq in H by (eapply lookup_lt_Some; exact Hm).
    simpl in H. rewrite Hc in H. simpl in H. discriminate.
Qed.

Section Reply.

Variable call_reply_handler : fn_ptr -> msg_ptr -> rq_t -> res rq_t.

Lemma cmdReply_run (c : conn_ptr) (rq : rq_t) (x : rq_conn_t) (d : rq_data_t)
    (k : nat) (pl : string) (p : msg_ptr) (m : rq_message_t) :
  conns rq !! c = Some x ->
  conn_data x = Some d ->
  data_reply d k pl ->
  table_inv rq -> hint_ok rq ->
  msg_list rq !! k = Some (Some p) ->
  msgs rq !! p = Some m ->
  msg_outbound m ->
  msg_state m = rq_msgstate_delivered ->
  cmdReply call_reply_handler c rq
  = (match msg_reply_handler m with
     | Some f => call_reply_handler f p (reply_delivery c x d p m rq)
     | None => Ret (reply_delivery c x d p m rq)
     end ≫= fun rq1 => rq_msg_clear rq1 p).
Proof.
  intros Hx Hd (Hbi & Hbp & Hid & Hpl) Hinv Hhint Hk Hm (Hc & Hsrc & Hdata) Hst.
  pose proof Hinv as (Hs & Hu & Hb).
  destruct (Hs k p Hk) as (m' & Hm' & Hmid).
  rewrite Hm in Hm'. injection Hm' as <-.
  pose proof (lookup_lt_Some _ _ _ Hk) as Hlt.
  pose proof (count_live_pos _ _ _ Hk) as Hpos.
  unfold used_ok in Hu.
  assert (Z.of_nat k <> msg_next rq) as Hnext.
  { intros E. destruct Hhint as [Hh|[_ Hh]]; [lia|].
    rewrite <- E, Nat2Z.id, Hk in Hh. discriminate. }
  unfold cmdReply. rewrite (get_data_ret _ _ _ _ Hx Hd). simpl.
  rewrite Hbi, Hbp, Hid. simpl.
  rewrite (assert_true (0 <=? Z.of_nat k)) by (apply Z.leb_le; lia). simpl.
  rewrite (assert_true (0 <? msg_used rq)) by (apply Z.ltb_lt; lia). simpl.
  rewrite (assert_true (0 <? msg_max rq))
    by (apply Z.ltb_lt; unfold msg_max; lia).
  simpl.
  rewrite (assert_true (Z.of_nat k <? msg_max rq))
    by (apply Z.ltb_lt; unfold msg_max; lia).
  simpl.
  rewrite (assert_true (negb (Z.of_nat k =? msg_next rq)))
    by (apply negb_true_iff, Z.eqb_neq; exact Hnext).
  simpl. rewrite Nat2Z.id, Hk. simpl. unfold get_msg. rewrite Hm. simpl.
  rewrite (assert_true (msg_id m =? Z.of_nat k)) by (apply Z.eqb_eq; exact Hmid).
  simpl. rewrite Hsrc, Hc, Hst. simpl.
  rewrite (assert_true (negb (bool_decide (msg_data m = None))))
    by (apply negb_true_iff, bool_decide_eq_false; exact Hdata).
  simpl. rewrite Hpl. simpl. unfold reply_delivery. rewrite Hpl. reflexivity.
Qed.

(** X4.  A REPLY that names an outbound message in state delivered: the reply
    payload moves from the accumulator into the message, the message's
    reply handler (if any) runs on it, and the message is then cleared.
    Whenever the handler leaves the message in its slot, the slot is free
    afterwards, [msg_used] has dropped by one and the hint is the freed id. *)
Theorem cmdReply_delivers_and_clears (c : conn_ptr) (rq : rq_t) (x : rq_conn_t)
    (d : rq_data_t) (k : nat) (pl : string) (p : msg_ptr) (m : rq_message_t) :
  conns rq !! c = Some x ->
  conn_data x = Some d ->
  data_reply d k pl ->
  table_inv rq -> hint_ok rq ->
  msg_list rq !! k = Some (Some p) ->
  msgs rq !! p = Some m ->
  msg_outbound m ->
  msg_state m = rq_msgstate_delivered ->
  msgs (reply_delivery c x d p m rq) !! p = Some (msg_set_data (Some pl) m) /\
  (conn_data <$> conns (reply_delivery c x d p m rq) !! c)
  = Some (Some (data_set_payload None d)) /\
  (forall rq2 : rq_t,
     match msg_reply_handler m with
     | Some f => call_reply_handler f p (reply_delivery c x d p m rq)
     | None => Ret (reply_delivery c x d p m rq)
     end = Ret rq2 ->
     table_inv rq2 -> msg_list rq2 !! k = Some (Some p) ->
     exists rq' : rq_t,
       cmdReply call_reply_handler c rq = Ret rq' /\
       msg_list rq' = <[k := None]> (msg_list rq2) /\
       msg_used rq' = msg_used rq2 - 1 /\
       msg_next rq' = Z.of_nat k) /\
  (msg_reply_handler m = None ->
     exists rq' : rq_t,
       cmdReply call_reply_handler c rq = Ret rq' /\
       msg_list rq' = <[k := None]> (msg_list rq) /\
       msg_used rq' = msg_used rq - 1 /\
       msg_next rq' = Z.of_nat k).
Proof.
  intros Hx Hd Hrep Hinv Hhint Hk Hm Hout Hst.
  pose proof (cmdReply_run c rq x d k pl p m Hx Hd Hrep Hinv Hhint Hk Hm Hout Hst)
    as Hrun.
  destruct Hrep as (_ & _ & _ & Hpl).
  assert (forall rq2 : rq_t,
            table_inv rq2 -> msg_list rq2 !! k = Some (Some p) ->
            exists rq', rq_msg_clear rq2 p = Ret rq' /\
              msg_list rq' = <[k := None]> (msg_list rq2) /\
              msg_used rq' = msg_used rq2 - 1 /\ msg_next rq' = Z.of_nat k)
    as Hclear.
  { intros rq2 Hinv2 Hk2.
    destruct (rq_msg_clear_total rq2 k p Hinv2 Hk2) as (rq' & Hclr).
    exists rq'. split; [exact Hclr|].
    destruct (rq_msg_clear_spec _ _ _ Hclr)
      as (m2 & Hm2 & _ & _ & _ & Hl & Hn & Hu & _).
    destruct Hinv2 as (Hs2 & _). destruct (Hs2 k p Hk2) as (m3 & Hm3 & Hid3).
    rewrite Hm2 in Hm3. injection Hm3 as <-.
    rewrite Hl, Hn, Hu, Hid3, Nat2Z.id. auto. }
  assert (msgs (reply_delivery c x d p m rq) !! p
          = Some (msg_set_data (Some pl) m)) as Hmp.
  { unfold reply_delivery. rewrite Hpl. destruct rq; simpl in *.
    apply list_lookup_insert_eq. eapply lookup_lt_Some; exact Hm. }
  split; [exact Hmp|]. split.
  { unfold reply_delivery, put_data. destruct rq; simpl in *.
    rewrite list_lookup_insert_eq by (eapply lookup_lt_Some; exact Hx).
    destruct x; reflexivity. }
  split.
  - intros rq2 Hcall Hinv2 Hk2. rewrite Hrun, Hcall. simpl.
    apply Hclear; assumption.
  - intros Hnone. rewrite Hrun, Hnone. simpl.
    destruct (Hclear (reply_delivery c x d p m rq)) as (rq' & Hclr & Hl & Hu & Hn).
    + unfold reply_delivery.
      apply (table_inv_put_msg_id _ p m); [destruct rq; exact Hm|reflexivity|].
      unfold put_data. apply table_inv_put_conn, Hinv.
    + unfold reply_delivery. destruct rq; exact Hk.
    + exists rq'. split; [exact Hclr|].
      rewrite Hl, Hu, Hn. unfold reply_delivery. destruct rq; simpl. auto.
Qed.

Lemma cmdReply_no_return (c : conn_ptr) (rq rq' : rq_t)
    (x : rq_conn_t) (d : rq_data_t) (k : nat) (p : msg_ptr) (m : rq_message_t) :
  conns rq !! c = Some x ->
  conn_data x = Some d ->
  data_id d = Z.of_nat k ->
  msg_list rq !! k = Some (Some p) ->
  msgs rq !! p = Some m ->
  msg_state m <> rq_msgstate_delivered ->
  cmdReply call_reply_handler c rq <> Ret rq'.
Proof.
  intros Hx Hd Hid Hk Hm Hst H. unfold cmdReply in H.
  rewrite (get_data_ret _ _ _ _ Hx Hd) in H. simpl in H.
  destruct (BIT_TEST (data_mask d) RQ_DATA_MASK_ID
            && BIT_TEST (data_mask d) RQ_DATA_MASK_PAYLOAD); [|discriminate].
  rewrite Hid in H. res_inv H. rewrite Nat2Z.id, Hk in H. simpl in H.
  unfold get_msg in H. rewrite Hm in H. simpl in H. res_inv H.
  destruct (msg_state m); try discriminate; contradiction.
Qed.

(** X5.  A REPLY for a message that has not been marked delivered never
    returns: the client insists on DELIVERED before REPLY, and stops at a
    failed assertion otherwise. *)
Theorem cmdReply_needs_delivered (c : conn_ptr) (rq : rq_t)
    (x : rq_conn_t) (d : rq_data_t) (k : nat) (p : msg_ptr) (m : rq_message_t) :
  conns rq !! c = Some x ->
  conn_data x = Some d ->
  data_id d = Z.of_nat k ->
  msg_list rq !! k = Some (Some p) ->
  msgs rq !! p = Some m ->
  msg_state m <> rq_msgstate_delivered ->
  exists f, cmdReply call_reply_handler c rq = Fail f.
Proof.
  intros Hx Hd Hid Hk Hm Hst. apply res_no_return. intros rq'.
  exact (cmdReply_no_return c rq rq' x d k p m Hx Hd Hid Hk Hm Hst).
Qed.

End Reply.

Lemma cmdDelivered_marks_once_witness :
  cmdDelivered 0%nat (with_data data_id_example client_outbound_example)
  = Ret (put_msg 0%nat (msg_set_state rq_msgstate_delivered msg_outbound_example)
           (with_data data_id_example client_outbound_example)) /\
  forall rq' : rq_t,
    cmdDelivered 0%nat
      (put_msg 0%nat (msg_set_state rq_msgstate_delivered msg_outbound_example)
         (with_data data_id_example client_outbound_example))
    <> Ret rq'.
Proof.
  apply (cmdDelivered_marks_once 0%nat
           (with_data data_id_example client_outbound_example)
           (conn_set_data (Some data_id_example) conn_example)
           data_id_example 0%nat 0%nat msg_outbound_example);
    reflexivity.
Defined.

Lemma client_delivered_example_inv :
  table_inv client_delivered_example /\ hint_ok client_delivered_example.
Proof.
  split; [split; [|split]|].
  - intros [|[|i]] p H; simpl in H; try discriminate.
    injection H as <-. eexists; split; reflexivity.
  - reflexivity.
  - unfold used_bounds, msg_max; simpl. lia.
  - left. reflexivity.
Qed.

Lemma cmdReply_delivers_and_clears_witness :
  msgs (reply_delivery 0%nat (conn_set_data (Some data_reply_example) conn_example)
          data_reply_example 0%nat
          (msg_set_state rq_msgstate_delivered msg_outbound_example)
          client_delivered_example) !! 0%nat
  = Some (msg_set_data (Some "r"%string)
            (msg_set_state rq_msgstate_delivered msg_outbound_example)) /\
  (conn_data <$>
     conns (reply_delivery 0%nat
              (conn_set_data (Some data_reply_example) conn_example)
              data_reply_example 0%nat
              (msg_set_state rq_msgstate_delivered msg_outbound_example)
              client_delivered_example) !! 0%nat)
  = Some (Some (data_set_payload None data_reply_example)) /\
  (forall rq2 : rq_t,
     match msg_reply_handler
             (msg_set_state rq_msgstate_delivered msg_outbound_example) with
     | Some f =>
         reply_handler_silent f 0%nat
           (reply_delivery 0%nat
              (conn_set_data (Some data_reply_example) conn_example)
              data_reply_example 0%nat
              (msg_set_state rq_msgstate_delivered msg_outbound_example)
              client_delivered_example)
     | None =>
         Ret (reply_delivery 0%nat
                (conn_set_data (Some data_reply_example) conn_example)
                data_reply_example 0%nat
                (msg_set_state rq_msgstate_delivered msg_outbound_example)
                client_delivered_example)
     end = Ret rq2 ->
     table_inv rq2 -> msg_list rq2 !! 0%nat = Some (Some 0%nat) ->
     exists rq' : rq_t,
       cmdReply reply_handler_silent 0%nat client_delivered_example = Ret rq' /\
       msg_list rq' = <[0%nat := None]> (msg_list rq2) /\
       msg_used rq' = msg_used rq2 - 1 /\
       msg_next rq' = Z.of_nat 0) /\
  (msg_reply_handler (msg_set_state rq_msgstate_delivered msg_outbound_example)
   = None ->
     exists rq' : rq_t,
       cmdReply reply_handler_silent 0%nat client_delivered_example = Ret rq' /\
       msg_list rq' = <[0%nat := None]> (msg_list client_delivered_example) /\
       msg_used rq' = msg_used client_delivered_example - 1 /\
       msg_next rq' = Z.of_nat 0).
Proof.
  apply (cmdReply_delivers_and_clears reply_handler_silent 0%nat
           client_delivered_example
           (conn_set_data (Some data_reply_example) conn_example)
           data_reply_example 0%nat "r" 0%nat
           (msg_set_state rq_msgstate_delivered msg_outbound_example)).
  - reflexivity.
  - reflexivity.
  - unfold data_reply. repeat split; reflexivity.
  - apply client_delivered_example_inv.
  - apply client_delivered_example_inv.
  - reflexivity.
  - reflexivity.
  - unfold msg_outbound; simpl. repeat split; try reflexivity. discriminate.
  - reflexivity.
Defined.

Lemma cmdReply_needs_delivered_witness :
  exists f,
    cmdReply reply_handler_silent 0%nat
      (with_data data_reply_example client_outbound_example)
    = Fail f.
Proof.
  apply (cmdReply_needs_delivered reply_handler_silent 0%nat
           (with_data data_reply_example client_outbound_example)
           (conn_set_data (Some data_reply_example) conn_example)
           data_reply_example 0%nat 0%nat msg_outbound_example).
  - reflexivity.
  - reflexivity.
  - reflexivity.
  - reflexivity.
  - reflexivity.
  - simpl. discriminate.
Defined.

(** ** Recycling of slots and records *)

(** X6.  Once [rq_msg_clear] has freed slot [k], the next [rq_msg_new] takes the
    same record from the pool and puts it back in slot [k]: the id is
    reused, the table is as before the clear, and the store does not grow. *)
Theorem freed_slot_is_reused (rq rq1 : rq_t) (k : nat) (p : msg_ptr)
    (conn : option conn_ptr) :
  table_inv rq -> pool_ok rq ->
  msg_list rq !! k = Some (Some p) ->
  rq_msg_clear rq p = Ret rq1 ->
  exists rq2 : rq_t,
    rq_msg_new rq1 conn = Ret (p, rq2) /\
    msg_list rq2 = msg_list rq /\
    msgs rq2 !! p = Some (msg_set_id (Z.of_nat k) (msg_initial conn)) /\
    msg_used rq2 = msg_used rq /\
    msg_next rq2 = -1 /\
    length (msgs rq2) = length (msgs rq).
Proof.
  intros Hinv Hpool Hk Hclr.
  destruct (rq_msg_clear_preserves _ _ _ Hinv Hpool Hclr) as [Hinv1 Hpool1].
  pose proof (rq_msg_clear_hint _ _ _ Hclr) as Hhint1.
  destruct (rq_msg_clear_spec _ _ _ Hclr)
    as (m & Hm & Hpos & Hid & Hslot & Hl & Hn & Hu & Hms & Hpl & _).
  pose proof Hinv as (Hs & Hused & Hb).
  destruct (Hs k p Hk) as (m' & Hm' & Hmid).
  rewrite Hm in Hm'. injection Hm' as <-.
  assert (0 < msg_max rq1) as Hmax1
    by (unfold msg_max in *; rewrite Hl, length_insert; lia).
  destruct (rq_msg_new_total rq1 conn Hinv1 Hhint1 Hmax1) as (q & rq2 & Hnew).
  pose proof Hinv1 as (_ & Hu1 & _). pose proof Hpool1 as [_ Hp1].
  destruct (rq_msg_new_spec _ _ _ _ Hu1 (fun r Hr => proj1 (Hp1 r Hr)) Hnew)
    as (k' & Hplace & Hmp & Hoth & Hlen & Hused2 & Hhd & _).
  rewrite Hpl in Hhd. simpl in Hhd. subst q.
  exists rq2. split; [exact Hnew|].
  assert (msg_used rq1 < msg_max rq1) as Hroom.
  { unfold used_bounds, msg_max in *. rewrite Hl, length_insert. lia. }
  destruct Hplace as [H|[H|H]].
  - destruct H as (_ & _ & Hk' & _ & Hl2 & Hn2).
    rewrite Hn, Hmid, Nat2Z.id in Hk'. subst k'.
    rewrite Hl2, Hl, Hmid, Nat2Z.id, list_insert_insert_eq, Hmp.
    rewrite (list_insert_id _ _ _ Hk).
    repeat split; try reflexivity; try lia.
    apply Nat.le_antisymm.
    + pose proof (lookup_lt_Some _ _ _ Hmp) as Hlt.
      destruct (decide (length (msgs rq2) <= length (msgs rq))%nat) as [?|Hgt];
        [assumption|].
      exfalso.
      assert (length (msgs rq) <> p) as Hne
        by (apply lookup_lt_Some in Hm; lia).
      pose proof (Hoth (length (msgs rq)) Hne) as Hsame.
      rewrite Hms in Hsame.
      rewrite (lookup_ge_None_2 (<[p:=msg_cleared m]> (msgs rq))) in Hsame
        by (rewrite length_insert; lia).
      apply lookup_ge_None_1 in Hsame. lia.
    + rewrite Hms, length_insert in Hlen. exact Hlen.
  - destruct H as (_ & Hneg & _). lia.
  - destruct H as (Hfull & _). lia.
Qed.

Lemma freed_slot_is_reused_witness :
  exists rq1 : rq_t,
    rq_msg_clear table_example 0%nat = Ret rq1 /\
    exists rq2 : rq_t,
      rq_msg_new rq1 None = Ret (0%nat, rq2) /\
      msg_list rq2 = msg_list table_example /\
      msgs rq2 !! 0%nat = Some (msg_set_id (Z.of_nat 0) (msg_initial None)) /\
      msg_used rq2 = msg_used table_example /\
      msg_next rq2 = -1 /\
      length (msgs rq2) = length (msgs table_example).
Proof.
  destruct table_example_ok as (Hinv & Hpool & _).
  eexists. split; [reflexivity|].
  apply (freed_slot_is_reused table_example _ 0%nat 0%nat None Hinv Hpool);
    reflexivity.
Defined.

(** X7.  An allocation followed by the release of the same message leaves the
    table as it was, except that a table that had to grow keeps its new,
    empty, last slot; the use count is restored and the hint is the slot
    the message had. *)
Theorem new_then_clear_restores (rq rq1 : rq_t) (conn : option conn_ptr)
    (p : msg_ptr) :
  table_inv rq -> pool_ok rq -> hint_ok rq -> 0 < msg_max rq ->
  rq_msg_new rq conn = Ret (p, rq1) ->
  exists (rq2 : rq_t) (k : nat),
    rq_msg_clear rq1 p = Ret rq2 /\
    msg_list rq1 !! k = Some (Some p) /\
    msg_used rq2 = msg_used rq /\
    msg_next rq2 = Z.of_nat k /\
    (msg_used rq < msg_max rq -> msg_list rq2 = msg_list rq) /\
    (msg_used rq = msg_max rq -> msg_list rq2 = msg_list rq ++ [None]) /\
    msg_pool rq2 = p :: tail (msg_pool rq).
Proof.
  intros Hinv Hpool Hhint Hmax Hnew.
  destruct (rq_msg_new_preserves _ _ _ _ Hinv Hpool Hnew) as [Hinv1 Hpool1].
  pose proof Hinv as (Hs & Hu & Hb). pose proof Hpool as [_ Hp].
  destruct (rq_msg_new_spec _ _ _ _ Hu (fun r Hr => proj1 (Hp r Hr)) Hnew)
    as (k & Hplace & Hmp & _ & _ & Hused & _ & Htl & _).
  destruct (placed_facts _ _ _ _ Hplace) as (Hk & _ & _ & _ & _).
  destruct (rq_msg_clear_total rq1 k p Hinv1 Hk) as (rq2 & Hclr).
  destruct (rq_msg_clear_spec _ _ _ Hclr)
    as (m & Hm & _ & _ & _ & Hl & Hn & Hu2 & _ & Hpl & _).
  rewrite Hmp in Hm. injection Hm as <-. simpl in Hl, Hn.
  rewrite Nat2Z.id in Hl.
  exists rq2, k. split; [exact Hclr|]. split; [exact Hk|].
  split; [lia|]. split; [exact Hn|].
  split; [|split; [|rewrite Hpl, Htl; reflexivity]].
  - intros Hroom. rewrite Hl. destruct Hplace as [H|[H|H]].
    + destruct H as (_ & _ & _ & Hnil & -> & _).
      rewrite list_insert_insert_eq. apply list_insert_id, Hnil.
    + destruct H as (_ & _ & Hf & -> & _).
      apply find_free_first in Hf. destruct Hf as [Hnil _].
      rewrite list_insert_insert_eq. apply list_insert_id, Hnil.
    + destruct H as (Hfull & _). lia.
  - intros Hfull. rewrite Hl. destruct Hplace as [H|[H|H]].
    + destruct H as (Hlt & _). lia.
    + destruct H as (Hlt & _). lia.
    + destruct H as (_ & -> & -> & _).
      rewrite insert_app_r_alt by lia. rewrite Nat.sub_diag. reflexivity.
Qed.

Lemma new_then_clear_restores_witness :
  exists (p : msg_ptr) (rq1 rq2 : rq_t) (k : nat),
    rq_msg_new table_example None = Ret (p, rq1) /\
    rq_msg_clear rq1 p = Ret rq2 /\
    msg_list rq1 !! k = Some (Some p) /\
    msg_used rq2 = msg_used table_example /\
    msg_next rq2 = Z.of_nat k /\
    (msg_used table_example < msg_max table_example ->
       msg_list rq2 = msg_list table_example) /\
    (msg_used table_example = msg_max table_example ->
       msg_list rq2 = msg_list table_example ++ [None]) /\
    msg_pool rq2 = p :: tail (msg_pool table_example).
Proof.
  destruct table_example_ok as (Hinv & Hpool & Hhint & Hmax).
  assert (exists p rq1, rq_msg_new table_example None = Ret (p, rq1))
    as (p & rq1 & Hnew) by (eexists; eexists; reflexivity).
  destruct (new_then_clear_restores table_example rq1 None p Hinv Hpool Hhint
              Hmax Hnew) as (rq2 & k & H).
  exists p, rq1, rq2, k. split; [exact Hnew|exact H].
Defined.

(** ** Connecting and failing over *)

Section Connect.

Variable evutil_parse_sockaddr_port : string -> Z.
Variable socket : rq_t -> Z.
Variable connect : Z -> string -> Z * Z.

(** What [rq_connect] can do to the client: nothing, or start the head. *)
Lemma rq_connect_cases (rq rq1 : rq_t) :
  rq_connect evutil_parse_sockaddr_port socket connect rq = Ret rq1 ->
  evbase rq = true /\
  exists c rest x, connlist rq = c :: rest /\ conns rq !! c = Some x /\
    (rq1 = rq \/
     (conn_connect_event x = false /\
      rq1 = put_conn c (conn_started (socket rq) x) rq)).
Proof.
  unfold rq_connect. intros H. res_inv H.
  destruct (connlist rq) as [|c rest] eqn:El; [discriminate|].
  unfold get_conn in H. destruct (conns rq !! c) as [x|] eqn:Ex; [|discriminate].
  simpl in H. split; [assumption|]. exists c, rest, x.
  split; [first [exact El | reflexivity]|].
  split; [first [exact Ex | reflexivity]|].
  destruct ((conn_shutdown x =? 0) && (conn_closing x =? 0)
            && negb (conn_connect_event x) && (conn_active x =? 0)) eqn:Eg.
  - res_inv H.
    destruct (negb (evutil_parse_sockaddr_port (conn_hostname x) =? 0));
      [discriminate|].
    res_inv H. destruct (connect (socket rq) (conn_hostname x)) as [r e].
    res_inv H. injection H as <-. right. split; [|reflexivity].
    assumption.
  - injection H as <-. left. reflexivity.
Qed.

(** X8.  [rq_connect] only ever acts on the head of the list: the order of the
    list, every other connection, the subscriptions and the message table
    are as before, and running it again changes nothing more. *)
Theorem rq_connect_head_only (rq rq1 : rq_t) :
  rq_connect evutil_parse_sockaddr_port socket connect rq = Ret rq1 ->
  connlist rq1 = connlist rq /\
  (forall (c : conn_ptr) (rest : list conn_ptr),
     connlist rq = c :: rest ->
     forall c' : conn_ptr, c' <> c -> conns rq1 !! c' = conns rq !! c') /\
  queues rq1 = queues rq /\ msg_list rq1 = msg_list rq /\
  msgs rq1 = msgs rq /\ msg_used rq1 = msg_used rq /\
  rq_connect evutil_parse_sockaddr_port socket connect rq1 = Ret rq1.
Proof.
  intros H. pose proof H as Hrun.
  destruct (rq_connect_cases _ _ H) as (Hev & c & rest & x & Hl & Hx & [->|[Hce ->]]).
  - repeat split; try reflexivity. exact Hrun.
  - split; [destruct rq; exact eq_refl|]. split.
    { intros c0 rest0 Hl0 c' Hne. rewrite Hl in Hl0. injection Hl0 as <- <-.
      destruct rq; simpl. apply list_lookup_insert_ne. congruence. }
    split; [destruct rq; reflexivity|]. split; [destruct rq; reflexivity|].
    split; [destruct rq; reflexivity|]. split; [destruct rq; reflexivity|].
    unfold rq_connect.
    assert (evbase (put_conn c (conn_started (socket rq) x) rq) = true) as ->
      by (destruct rq; exact Hev).
    assert (connlist (put_conn c (conn_started (socket rq) x) rq) = c :: rest)
      as -> by (destruct rq; exact Hl).
    simpl. erewrite get_conn_put by exact Hx. simpl.
    rewrite !andb_false_r. reflexivity.
Qed.

(** [rq_connect] on an idle head whose address parses, when the kernel
    hands out a descriptor and starts the connect in the background. *)
Lemma rq_connect_starts (rq : rq_t) (c : conn_ptr) (rest : list conn_ptr)
    (x : rq_conn_t) (r : Z) :
  connlist rq = c :: rest ->
  conns rq !! c = Some x ->
  conn_idle x ->
  evbase rq = true ->
  evutil_parse_sockaddr_port (conn_hostname x) = 0 ->
  0 <= socket rq ->
  connect (socket rq) (conn_hostname x) = (r, EINPROGRESS) -> r < 0 ->
  rq_connect evutil_parse_sockaddr_port socket connect rq
  = Ret (put_conn c (conn_started (socket rq) x) rq).
Proof.
  intros Hl Hx (Hsh & Hcl & Hac & Hce & Hre & Hwe & Hh & Hhn & Hrb & Hib & Hda & Hob)
    Hev Hparse Hsock Hconn Hr.
  unfold rq_connect. rewrite Hev, Hl. simpl.
  rewrite (get_conn_ret _ _ _ Hx). simpl.
  rewrite Hsh, Hcl, Hce, Hac, Hre, Hwe, Hh, Hparse, Hconn. simpl.
  rewrite (assert_true (0 <? strlen (conn_hostname x)))
    by (apply Z.ltb_lt; exact Hhn).
  simpl.
  rewrite (assert_true (0 <=? socket rq)) by (apply Z.leb_le; exact Hsock). simpl.
  rewrite (assert_true (r <? 0)) by (apply Z.ltb_lt; exact Hr). simpl.
  rewrite Hib, Hrb, Hda. simpl.
  rewrite (assert_true (negb (bool_decide (conn_outbuf x = None))))
    by (apply negb_true_iff, bool_decide_eq_false; exact Hob).
  reflexivity.
Qed.

Lemma check_no_pending_ok (rq : rq_t) (c : conn_ptr)
    (slots : list (option msg_ptr)) :
  (forall (i : nat) (p : msg_ptr),
     slots !! i = Some (Some p) ->
     exists m, msgs rq !! p = Some m /\ msg_conn m <> Some c) ->
  check_no_pending rq c slots = Ret tt.
Proof.
  induction slots as [|[p|] slots IH]; intros H; simpl; [reflexivity| |].
  - destruct (H 0%nat p eq_refl) as (m & Hm & Hc).
    unfold get_msg. rewrite Hm. simpl.
    rewrite (assert_true (negb _))
      by (apply negb_true_iff, bool_decide_eq_false; exact Hc).
    simpl. apply IH. intros i q Hi. exact (H (S i) q Hi).
  - apply IH. intros i q Hi. exact (H (S i) q Hi).
Qed.

(** What [rq_conn_closed] does to an open connection that has no message
    in flight, before it tries the head of the list again. *)
Lemma rq_conn_closed_run (c : conn_ptr) (rq : rq_t) (x : rq_conn_t) :
  conns rq !! c = Some x ->
  conn_open x ->
  connlist rq <> [] ->
  no_pending rq c ->
  rq_conn_closed evutil_parse_sockaddr_port socket connect c rq
  = rq_connect evutil_parse_sockaddr_port socket connect
      (rq_set_connlist (rotate c (connlist rq)) (put_conn c (conn_closed x) rq)).
Proof.
  intros Hx (Hh & Hce & Hrb & Hsb & Hob) Hne Hnp.
  unfold rq_conn_closed. rewrite (get_conn_ret _ _ _ Hx). simpl.
  rewrite (assert_true (negb (conn_handle x =? INVALID_HANDLE)))
    by (apply negb_true_iff, Z.eqb_neq; exact Hh).
  simpl. rewrite Hrb, Hsb. simpl.
  rewrite (assert_true (negb (bool_decide (conn_outbuf x = None))))
    by (apply negb_true_iff, bool_decide_eq_false; exact Hob).
  simpl.
  rewrite (assert_true (0 <? Z.of_nat (length (connlist rq))))
    by (apply Z.ltb_lt; destruct (connlist rq); [contradiction|simpl; lia]).
  simpl. rewrite Hce. simpl.
  assert ((if 0 <? msg_used
                     (if 1 <? Z.of_nat (length (connlist rq))
                      then rq_set_connlist
                             (ll_push_tail (ll_remove (connlist rq) c) c) rq
                      else rq)
           then check_no_pending
                  (if 1 <? Z.of_nat (length (connlist rq))
                   then rq_set_connlist
                          (ll_push_tail (ll_remove (connlist rq) c) c) rq
                   else rq) c
                  (msg_list
                     (if 1 <? Z.of_nat (length (connlist rq))
                      then rq_set_connlist
                             (ll_push_tail (ll_remove (connlist rq) c) c) rq
                      else rq))
           else Ret tt) = Ret tt) as ->.
  { destruct (0 <? msg_used _); [|reflexivity].
    apply check_no_pending_ok. intros i p Hi.
    destruct (1 <? Z.of_nat (length (connlist rq))); destruct rq;
      simpl in *; exact (Hnp i p Hi). }
  simpl. f_equal. unfold rotate, conn_closed.
  destruct (1 <? Z.of_nat (length (connlist rq))); destruct rq; destruct x;
    simpl in *; subst; reflexivity.
Qed.

End Connect.

Section Loss.

Variable evutil_parse_sockaddr_port : string -> Z.
Variable socket : rq_t -> Z.
Variable connect : Z -> string -> Z * Z.

(** X9.  Losing an open connection that has no message in flight: it is closed
    (socket, events, buffers and accumulator released, pending output
    dropped), it goes to the tail of the list when there is another
    controller, and a connect is started on the idle connection that is now
    at the head.  With a single controller that head is the connection
    itself, which is reconnected at once. *)
Theorem conn_lost_fails_over (c h : conn_ptr) (t : list conn_ptr) (rq : rq_t)
    (x xh : rq_conn_t) (r : Z) :
  conns rq !! c = Some x ->
  conn_open x ->
  no_pending rq c ->
  connlist (closed_state c x rq) = h :: t ->
  conns (closed_state c x rq) !! h = Some xh ->
  conn_idle xh ->
  evbase rq = true ->
  evutil_parse_sockaddr_port (conn_hostname xh) = 0 ->
  0 <= socket (closed_state c x rq) ->
  connect (socket (closed_state c x rq)) (conn_hostname xh) = (r, EINPROGRESS) ->
  r < 0 ->
  rq_conn_closed evutil_parse_sockaddr_port socket connect c rq
  = Ret (put_conn h (conn_started (socket (closed_state c x rq)) xh)
           (closed_state c x rq)).
Proof.
  intros Hx Hopen Hnp Hl Hxh Hidle Hev Hparse Hsock Hconn Hr.
  rewrite (rq_conn_closed_run _ _ _ c rq x Hx Hopen).
  - apply (rq_connect_starts _ _ _ (closed_state c x rq) h t xh r);
      first [assumption | destruct rq; exact Hev].
  - intros He. unfold closed_state, rotate in Hl. rewrite He in Hl.
    simpl in Hl. destruct rq; simpl in *. subst. discriminate.
  - exact Hnp.
Qed.

(** X10.  The same loss when the connection now at the head has been shut down
    by the application, is closing, or is already connecting or active:
    nothing is started. *)
Theorem conn_lost_no_reconnect (c h : conn_ptr) (t : list conn_ptr) (rq : rq_t)
    (x xh : rq_conn_t) :
  conns rq !! c = Some x ->
  conn_open x ->
  no_pending rq c ->
  connlist (closed_state c x rq) = h :: t ->
  conns (closed_state c x rq) !! h = Some xh ->
  (conn_shutdown xh <> 0 \/ conn_closing xh <> 0 \/
   conn_connect_event xh = true \/ conn_active xh <> 0) ->
  evbase rq = true ->
  rq_conn_closed evutil_parse_sockaddr_port socket connect c rq
  = Ret (closed_state c x rq).
Proof.
  intros Hx Hopen Hnp Hl Hxh Hbusy Hev.
  rewrite (rq_conn_closed_run _ _ _ c rq x Hx Hopen).
  - fold (closed_state c x rq). unfold rq_connect.
    assert (evbase (closed_state c x rq) = true) as ->
      by (destruct rq; exact Hev).
    rewrite Hl. simpl. rewrite (get_conn_ret _ _ _ Hxh). simpl.
    assert ((conn_shutdown xh =? 0) && (conn_closing xh =? 0)
            && negb (conn_connect_event xh) && (conn_active xh =? 0) = false)
      as ->; [|reflexivity].
    destruct Hbusy as [H|[H|[H|H]]].
    + apply Z.eqb_neq in H. rewrite H. reflexivity.
    + apply Z.eqb_neq in H. rewrite H, andb_false_r. reflexivity.
    + rewrite H. simpl. rewrite andb_false_r. reflexivity.
    + apply Z.eqb_neq in H. rewrite H, andb_false_r. reflexivity.
  - intros He. unfold closed_state, rotate in Hl. rewrite He in Hl.
    simpl in Hl. destruct rq; simpl in *. subst. discriminate.
  - exact Hnp.
Qed.

Lemma rq_conn_closed_no_return (c : conn_ptr) (rq rq' : rq_t) (i : nat)
    (p : msg_ptr) (m : rq_message_t) :
  table_inv rq ->
  msg_list rq !! i = Some (Some p) ->
  msgs rq !! p = Some m ->
  msg_conn m = Some c ->
  rq_conn_closed evutil_parse_sockaddr_port socket connect c rq <> Ret rq'.
Proof.
  intros (Hs & Hu & _) Hi Hm Hc H.
  unfold rq_conn_closed in H.
  apply bind_ret_inv in H. destruct H as (x & _ & H). res_inv H.
  apply bind_ret_inv in H. destruct H as (rb & _ & H). res_inv H.
  apply bind_ret_inv in H. destruct H as (sb & _ & H). res_inv H.
  apply bind_ret_inv in H. destruct H as ([] & Hchk & _).
  set (rq1 := if 1 <? Z.of_nat (length (connlist rq))
              then rq_set_connlist (ll_push_tail (ll_remove (connlist rq) c) c) rq
              else rq) in Hchk.
  assert (msg_used rq1 = msg_used rq /\ msg_list rq1 = msg_list rq
          /\ msgs rq1 = msgs rq) as (Eu & El & Em).
  { unfold rq1. destruct (1 <? _); destruct rq; auto. }
  rewrite Eu, El in Hchk. unfold used_ok in Hu.
  pose proof (count_live_pos _ _ _ Hi) as Hpos.
  assert ((0 <? msg_used rq) = true) as E by (apply Z.ltb_lt; lia).
  rewrite E in Hchk. clear E.
  assert (forall slots j, slots !! j = Some (Some p) ->
            check_no_pending rq1 c slots <> Ret tt) as Hscan.
  { induction slots as [|[q|] slots IH]; intros j Hj; simpl.
    - rewrite lookup_nil in Hj. discriminate.
    - destruct j as [|j].
      + assert (q = p) as -> by (cbn in Hj; congruence). unfold get_msg.
        rewrite Em, Hm. simpl.
        rewrite Hc, bool_decide_eq_true_2 by reflexivity. simpl. discriminate.
      + intros Hr. apply bind_ret_inv in Hr. destruct Hr as (mq & _ & Hr).
        res_inv Hr. exact (IH j Hj Hr).
    - destruct j as [|j]; [cbn in Hj; discriminate|]. exact (IH j Hj). }
  exact (Hscan _ i Hi Hchk).
Qed.

(** X11.  A connection that still has a live inbound message cannot be closed:
    [rq_conn_closed] never returns, it stops at a failed assertion, at the
    latest at the [assert(0)] of its message scan. *)
Theorem conn_lost_pending_aborts (c : conn_ptr) (rq : rq_t) (i : nat)
    (p : msg_ptr) (m : rq_message_t) :
  table_inv rq ->
  msg_list rq !! i = Some (Some p) ->
  msgs rq !! p = Some m ->
  msg_conn m = Some c ->
  exists f,
    rq_conn_closed evutil_parse_sockaddr_port socket connect c rq = Fail f.
Proof.
  intros Hinv Hi Hm Hc. apply res_no_return. intros rq'.
  exact (rq_conn_closed_no_return c rq rq' i p m Hinv Hi Hm Hc).
Qed.

End Loss.

Lemma no_pending_empty (rq : rq_t) (c : conn_ptr) (n : nat) :
  msg_list rq = replicate n None -> no_pending rq c.
Proof.
  intros H i p Hi. rewrite H in Hi. apply lookup_replicate in Hi.
  destruct Hi; discriminate.
Qed.

Lemma conn_lost_fails_over_witness :
  rq_conn_closed parse_example socket_example connect_example 0%nat
    client_failover_example
  = Ret (put_conn 1%nat
           (conn_started
              (socket_example (closed_state 0%nat conn_example client_failover_example))
              conn_idle_example)
           (closed_state 0%nat conn_example client_failover_example)).
Proof.
  apply (conn_lost_fails_over parse_example socket_example connect_example
           0%nat 1%nat [0%nat] client_failover_example conn_example
           conn_idle_example (-1)).
  - reflexivity.
  - unfold conn_open, INVALID_HANDLE; simpl. repeat split; try reflexivity.
    + lia.
    + discriminate.
  - apply (no_pending_empty _ _ DEFAULT_MSG_ARRAY). reflexivity.
  - reflexivity.
  - reflexivity.
  - unfold conn_idle. repeat split; try reflexivity; discriminate.
  - reflexivity.
  - reflexivity.
  - unfold socket_example. lia.
  - reflexivity.
  - lia.
Defined.

Lemma conn_lost_no_reconnect_witness :
  rq_conn_closed parse_example socket_example connect_example 0%nat
    client_shut_example
  = Ret (closed_state 0%nat (conn_set_shutdown 1 conn_example) client_shut_example).
Proof.
  apply (conn_lost_no_reconnect parse_example socket_example connect_example
           0%nat 0%nat [] client_shut_example (conn_set_shutdown 1 conn_example)
           (conn_closed (conn_set_shutdown 1 conn_example))).
  - reflexivity.
  - unfold conn_open, INVALID_HANDLE; simpl. repeat split; try reflexivity.
    + lia.
    + discriminate.
  - apply (no_pending_empty _ _ DEFAULT_MSG_ARRAY). reflexivity.
  - reflexivity.
  - reflexivity.
  - left. simpl. lia.
  - reflexivity.
Defined.

Lemma conn_lost_pending_aborts_witness :
  exists f,
    rq_conn_closed parse_example socket_example connect_example 0%nat
      (client_inbound_example 0 rq_msgstate_delivered)
    = Fail f.
Proof.
  apply (conn_lost_pending_aborts parse_example socket_example connect_example
           0%nat (client_inbound_example 0 rq_msgstate_delivered) 0%nat 0%nat
           (msg_inbound_example 0 rq_msgstate_delivered)).
  - apply client_inbound_example_inv.
  - reflexivity.
  - reflexivity.
  - reflexivity.
Defined.

Lemma rq_connect_head_only_witness :
  connlist (put_conn 0%nat (conn_started 5 (conn_new "127.0.0.1:13555"))
              (rq_set_conns [conn_new "127.0.0.1:13555"; conn_idle_example]
                 client_failover_example))
  = connlist (rq_set_conns [conn_new "127.0.0.1:13555"; conn_idle_example]
                client_failover_example) /\
  rq_connect parse_example socket_example connect_example
    (put_conn 0%nat (conn_started 5 (conn_new "127.0.0.1:13555"))
       (rq_set_conns [conn_new "127.0.0.1:13555"; conn_idle_example]
          client_failover_example))
  = Ret (put_conn 0%nat (conn_started 5 (conn_new "127.0.0.1:13555"))
           (rq_set_conns [conn_new "127.0.0.1:13555"; conn_idle_example]
              client_failover_example)).
Proof.
  assert (rq_connect parse_example socket_example connect_example
            (rq_set_conns [conn_new "127.0.0.1:13555"; conn_idle_example]
               client_failover_example)
          = Ret (put_conn 0%nat (conn_started 5 (conn_new "127.0.0.1:13555"))
                   (rq_set_conns [conn_new "127.0.0.1:13555"; conn_idle_example]
                      client_failover_example))) as Hrun by reflexivity.
  destruct (rq_connect_head_only parse_example socket_example connect_example
              _ _ Hrun) as (Hl & _ & _ & _ & _ & _ & Hagain).
  split; [exact Hl | exact Hagain].
Defined.

(** ** Shutting down *)

Lemma count_unmarked_insert_same (l : list rq_conn_t) (c : nat) (x y : rq_conn_t) :
  l !! c = Some x -> conn_shutdown y = conn_shutdown x ->
  count_unmarked (<[c := y]> l) = count_unmarked l.
Proof.
  revert c. induction l as [|z l IH]; intros [|c] H Hs; simpl in *;
    try discriminate.
  - injection H as ->. rewrite Hs. reflexivity.
  - rewrite (IH c H Hs). reflexivity.
Qed.

Lemma count_unmarked_insert_mark (l : list rq_conn_t) (c : nat) (x y : rq_conn_t) :
  l !! c = Some x -> conn_shutdown x = 0 -> conn_shutdown y <> 0 ->
  S (count_unmarked (<[c := y]> l)) = count_unmarked l.
Proof.
  revert c. induction l as [|z l IH]; intros [|c] H Hs Hy; simpl in *;
    try discriminate.
  - injection H as ->. rewrite Hs. simpl.
    apply Z.eqb_neq in Hy. rewrite Hy. reflexivity.
  - destruct (conn_shutdown z =? 0); rewrite <- (IH c H Hs Hy); reflexivity.
Qed.

Lemma count_unmarked_le_length (l : list rq_conn_t) :
  (count_unmarked l <= length l)%nat.
Proof.
  induction l as [|z l IH]; simpl; [lia|].
  destruct (conn_shutdown z =? 0); lia.
Qed.

Section Shutdown.

Variable evutil_parse_sockaddr_port : string -> Z.
Variable socket : rq_t -> Z.
Variable connect : Z -> string -> Z * Z.

Lemma marks_kept_refl (rq : rq_t) : marks_kept rq rq.
Proof. split; [reflexivity|]. intros c x H. eauto. Qed.

Lemma marks_kept_trans (a b c : rq_t) :
  marks_kept a b -> marks_kept b c -> marks_kept a c.
Proof.
  intros [Hl1 H1] [Hl2 H2]. split; [congruence|].
  intros k x Hx. destruct (H1 k x Hx) as (y & Hy & Hs).
  destruct (H2 k y Hy) as (z & Hz & Hs'). exists z. split; [exact Hz|congruence].
Qed.

Lemma marks_kept_put (rq : rq_t) (c : conn_ptr) (x y : rq_conn_t) :
  conns rq !! c = Some x -> conn_shutdown y = conn_shutdown x ->
  marks_kept rq (put_conn c y rq).
Proof.
  intros Hx Hs. split; [destruct rq; simpl; apply length_insert|].
  intros k z Hz. destruct rq; simpl in *.
  destruct (decide (c = k)) as [->|Hne].
  - rewrite list_lookup_insert_eq by (eapply lookup_lt_Some; exact Hx).
    exists y. split; [reflexivity|]. congruence.
  - rewrite list_lookup_insert_ne by exact Hne. eauto.
Qed.

Lemma marks_kept_count (rq rq1 : rq_t) :
  marks_kept rq rq1 ->
  count_unmarked (conns rq1) = count_unmarked (conns rq).
Proof.
  intros [Hlen H].
  assert (forall l1 l2 : list rq_conn_t,
            length l1 = length l2 ->
            (forall k x, l2 !! k = Some x ->
               exists y, l1 !! k = Some y /\ conn_shutdown y = conn_shutdown x) ->
            count_unmarked l1 = count_unmarked l2) as Hgen.
  { induction l1 as [|a l1 IH]; intros [|b l2] Hl Hall; simpl in *;
      try discriminate; [reflexivity|].
    destruct (Hall 0%nat b eq_refl) as (y & Hy & Hs). simpl in Hy.
    injection Hy as ->. rewrite Hs.
    rewrite (IH l2); [reflexivity|lia|].
    intros k x Hx. exact (Hall (S k) x Hx). }
  apply Hgen; assumption.
Qed.

Lemma rq_connect_marks (rq rq1 : rq_t) :
  rq_connect evutil_parse_sockaddr_port socket connect rq = Ret rq1 ->
  marks_kept rq rq1 /\ connlist rq1 = connlist rq.
Proof.
  intros H.
  destruct (rq_connect_cases _ _ _ _ _ H)
    as (_ & c & rest & x & _ & Hx & [->|[_ ->]]).
  - split; [apply marks_kept_refl|reflexivity].
  - split; [|destruct rq; reflexivity].
    apply (marks_kept_put _ _ x); [exact Hx|reflexivity].
Qed.

(** What [rq_conn_closed] does when it returns at all. *)
Lemma rq_conn_closed_inv (c : conn_ptr) (rq rq1 : rq_t) :
  rq_conn_closed evutil_parse_sockaddr_port socket connect c rq = Ret rq1 ->
  exists x, conns rq !! c = Some x /\ conn_connect_event x = false /\
    rq_connect evutil_parse_sockaddr_port socket connect (closed_state c x rq)
    = Ret rq1.
Proof.
  intros H. unfold rq_conn_closed in H.
  unfold get_conn in H. destruct (conns rq !! c) as [x|] eqn:Ex; [|discriminate].
  simpl in H. res_inv H.
  destruct (conn_readbuf x) as [rb|] eqn:Erb; [|discriminate]. simpl in H.
  res_inv H.
  destruct (conn_sendbuf x) as [sb|] eqn:Esb; [|discriminate]. simpl in H.
  res_inv H.
  apply bind_ret_inv in H. destruct H as ([] & _ & H).
  exists x. split; [reflexivity|]. split; [assumption|].
  rewrite <- H. f_equal. unfold closed_state, rotate, conn_closed.
  destruct (1 <? Z.of_nat (length (connlist rq))); destruct rq; destruct x;
    simpl in *; subst; reflexivity.
Qed.

Lemma rq_conn_closed_marks (c : conn_ptr) (rq rq1 : rq_t) :
  rq_conn_closed evutil_parse_sockaddr_port socket connect c rq = Ret rq1 ->
  marks_kept rq rq1.
Proof.
  intros H. destruct (rq_conn_closed_inv _ _ _ H) as (x & Hx & _ & Hrun).
  apply rq_connect_marks in Hrun. destruct Hrun as [Hk _].
  refine (marks_kept_trans _ _ _ _ Hk).
  assert (marks_kept rq (put_conn c (conn_closed x) rq)) as H1
    by (apply (marks_kept_put _ _ x); [exact Hx|reflexivity]).
  unfold closed_state. destruct H1 as [Hl Hall]. split.
  - destruct rq; exact Hl.
  - intros k z Hz. destruct (Hall k z Hz) as (y & Hy & Hs).
    exists y. split; [destruct rq; exact Hy|exact Hs].
Qed.

End Shutdown.

Lemma rq_senddata_inv (c : conn_ptr) (data : expbuf_t) (rq rq1 : rq_t) :
  rq_senddata c data rq = Ret rq1 ->
  exists x out, conns rq !! c = Some x /\ conn_outbuf x = Some out /\
    conn_handle x <> INVALID_HANDLE /\
    rq1 = put_conn c (conn_after_send x (out ++ data)) rq.
Proof.
  unfold rq_senddata, get_conn. intros H.
  destruct (conns rq !! c) as [x|] eqn:Ex; [|discriminate]. simpl in H.
  res_inv H. destruct (conn_outbuf x) as [out|] eqn:Eo; [|discriminate].
  exists x, out. split; [first [exact Ex | reflexivity]|].
  split; [first [exact Eo | reflexivity]|].
  split; [assumption|].
  destruct (conn_write_event x) eqn:Ew.
  - injection H as <-. unfold conn_after_send. f_equal.
    destruct x; simpl in *. subst. reflexivity.
  - res_inv H. injection H as <-. reflexivity.
Qed.

Section ShutdownStep.

Variable evutil_parse_sockaddr_port : string -> Z.
Variable socket : rq_t -> Z.
Variable connect : Z -> string -> Z * Z.

(** One turn of the loop of [rq_shutdown]: a connection that is already
    marked is skipped; otherwise it is marked, no other mark changes, and
    the list keeps its order unless the walk is to start again. *)
Lemma shutdown_conn_step (c : conn_ptr) (rq rq1 : rq_t) (b : bool) :
  shutdown_conn evutil_parse_sockaddr_port socket connect c rq = Ret (b, rq1) ->
  exists x, conns rq !! c = Some x /\
    ((conn_shutdown x <> 0 /\ b = false /\ rq1 = rq) \/
     (conn_shutdown x = 0 /\
      marks_kept (put_conn c (conn_set_shutdown 1 x) rq) rq1 /\
      (b = false -> connlist rq1 = connlist rq))).
Proof.
  unfold shutdown_conn, get_conn. intros H.
  destruct (conns rq !! c) as [x|] eqn:Ex; [|discriminate]. simpl in H.
  exists x. split; [reflexivity|].
  destruct (conn_shutdown x =? 0) eqn:Es.
  2:{ injection H as <- <-. left. apply Z.eqb_neq in Es. auto. }
  apply Z.eqb_eq in Es. right. split; [exact Es|].
  rewrite Es in H. simpl in H.
  set (x1 := conn_set_shutdown 1 x) in *.
  assert (conns (put_conn c x1 rq) !! c = Some x1) as Hx0
    by (eapply lookup_put_conn; exact Ex).
  change (conn_set_shutdown (0 + 1) x) with x1 in H.
  destruct (negb (conn_handle x =? INVALID_HANDLE)) eqn:Eh.
  2:{ injection H as <- <-. split; [apply marks_kept_refl|reflexivity]. }
  destruct (conn_active x =? 0) eqn:Ea.
  - res_inv H. apply bind_ret_inv in H. destruct H as (rq2 & Hclosed & H).
    apply bind_ret_inv in H. destruct H as (x2 & _ & H). res_inv H.
    injection H as <- <-. split; [|discriminate].
    apply rq_conn_closed_marks in Hclosed.
    refine (marks_kept_trans _ _ _ _ Hclosed).
    apply (marks_kept_put _ _ x1); [exact Hx0|reflexivity].
  - res_inv H. apply bind_ret_inv in H. destruct H as (rq2 & Hsend & H).
    apply bind_ret_inv in H. destruct H as (x2 & Hx2 & H). res_inv H.
    unfold rq_send_closing in Hsend.
    destruct (rq_senddata_inv _ _ _ _ Hsend) as (x' & out & Hx' & _ & _ & ->).
    rewrite Hx0 in Hx'. injection Hx' as <-.
    fold (get_conn (put_conn c (conn_after_send x1 (out ++ [Cmd RQ_CMD_CLOSING]))
                      (put_conn c x1 rq)) c) in Hx2.
    erewrite get_conn_put in Hx2 by exact Hx0. injection Hx2 as <-.
    assert (marks_kept (put_conn c x1 rq)
              (put_conn c
                 (conn_set_closing
                    (conn_closing (conn_after_send x1 (out ++ [Cmd RQ_CMD_CLOSING])) + 1)
                    (conn_after_send x1 (out ++ [Cmd RQ_CMD_CLOSING])))
                 (put_conn c (conn_after_send x1 (out ++ [Cmd RQ_CMD_CLOSING]))
                    (put_conn c x1 rq))))
      as Hk.
    { rewrite put_conn_put. apply (marks_kept_put _ _ x1); [exact Hx0|reflexivity]. }
    destruct (msg_used _ =? 0) eqn:Ep.
    + apply bind_ret_inv in H. destruct H as (rq3 & Hclosed & H).
      apply bind_ret_inv in H. destruct H as (x3 & _ & H). res_inv H.
      injection H as <- <-. split; [|discriminate].
      apply rq_conn_closed_marks in Hclosed.
      exact (marks_kept_trans _ _ _ Hk Hclosed).
    + injection H as <- <-. split; [exact Hk|]. intros _.
      destruct rq; reflexivity.
Qed.

End ShutdownStep.

Section ShutdownLoop.

Variable evutil_parse_sockaddr_port : string -> Z.
Variable socket : rq_t -> Z.
Variable connect : Z -> string -> Z * Z.

Lemma shutdown_conn_count (c : conn_ptr) (rq rq1 : rq_t) (b : bool) :
  shutdown_conn evutil_parse_sockaddr_port socket connect c rq = Ret (b, rq1) ->
  (count_unmarked (conns rq1) <= count_unmarked (conns rq))%nat /\
  (b = true -> (count_unmarked (conns rq1) < count_unmarked (conns rq))%nat).
Proof.
  intros H. destruct (shutdown_conn_step _ _ _ _ _ _ _ H)
    as (x & Hx & [(_ & -> & ->)|(Hs & Hk & _)]).
  - split; [lia|discriminate].
  - apply marks_kept_count in Hk.
    assert (S (count_unmarked (conns (put_conn c (conn_set_shutdown 1 x) rq)))
            = count_unmarked (conns rq)) as Hm.
    { destruct rq; simpl in *.
      apply (count_unmarked_insert_mark _ _ x); [exact Hx|exact Hs|simpl; lia]. }
    lia.
Qed.

Lemma shutdown_scan_fuel (n : nat) :
  (forall rq : rq_t,
     (count_unmarked (conns rq) < n)%nat ->
     shutdown_loop evutil_parse_sockaddr_port socket connect n rq <> None) ->
  forall (todo : list conn_ptr) (rq : rq_t),
    (count_unmarked (conns rq) <= n)%nat ->
    shutdown_scan evutil_parse_sockaddr_port socket connect
      (shutdown_loop evutil_parse_sockaddr_port socket connect n) todo rq
    <> None.
Proof.
  intros IHn. induction todo as [|c rest IH]; intros rq Hc; simpl; [discriminate|].
  destruct (shutdown_conn evutil_parse_sockaddr_port socket connect c rq)
    as [[b rq1]|f] eqn:E; [|discriminate].
  destruct (shutdown_conn_count _ _ _ _ E) as [Hle Hlt].
  destruct b.
  - apply IHn. specialize (Hlt eq_refl). lia.
  - apply IH. lia.
Qed.

Lemma shutdown_loop_fuel (n : nat) :
  forall rq : rq_t,
    (count_unmarked (conns rq) < n)%nat ->
    shutdown_loop evutil_parse_sockaddr_port socket connect n rq <> None.
Proof.
  induction n as [|n IH]; intros rq Hc; [lia|]. simpl.
  apply shutdown_scan_fuel; [exact IH|lia].
Qed.

(** X12.  The walks of [rq_shutdown] come to an end: each restart follows the
    marking of one more connection, so the bound of one walk per
    connection record is never reached. *)
Theorem rq_shutdown_terminates (rq : rq_t) :
  exists r, rq_shutdown evutil_parse_sockaddr_port socket connect rq = Some r.
Proof.
  assert (rq_shutdown evutil_parse_sockaddr_port socket connect rq <> None) as H.
  { unfold rq_shutdown. apply shutdown_loop_fuel.
    pose proof (count_unmarked_le_length (conns rq)). lia. }
  destruct (rq_shutdown evutil_parse_sockaddr_port socket connect rq) as [r|];
    [exists r; reflexivity|contradiction].
Qed.

Lemma marks_kept_marked (rq rq1 : rq_t) (c : conn_ptr) :
  marks_kept rq rq1 -> conn_marked rq c -> conn_marked rq1 c.
Proof.
  intros [_ H] (x & Hx & Hs). destruct (H c x Hx) as (y & Hy & Hsy).
  exists y. split; [exact Hy|congruence].
Qed.

Lemma shutdown_conn_marks (c : conn_ptr) (rq rq1 : rq_t) (b : bool) :
  shutdown_conn evutil_parse_sockaddr_port socket connect c rq = Ret (b, rq1) ->
  conn_marked rq1 c /\
  (forall k, conn_marked rq k -> conn_marked rq1 k) /\
  (b = false -> connlist rq1 = connlist rq).
Proof.
  intros H. destruct (shutdown_conn_step _ _ _ _ _ _ _ H)
    as (x & Hx & [(Hs & -> & ->)|(Hs & Hk & Hl)]).
  - split; [exists x; auto|]. split; [auto|reflexivity].
  - assert (conn_marked (put_conn c (conn_set_shutdown 1 x) rq) c) as Hc.
    { exists (conn_set_shutdown 1 x). split; [eapply lookup_put_conn; exact Hx|].
      simpl. lia. }
    split; [exact (marks_kept_marked _ _ _ Hk Hc)|]. split; [|exact Hl].
    intros k (z & Hz & Hsz). apply (marks_kept_marked _ _ _ Hk).
    destruct (decide (k = c)) as [->|Hne]; [exact Hc|].
    exists z. split; [|exact Hsz].
    destruct rq; simpl in *. rewrite list_lookup_insert_ne by congruence.
    exact Hz.
Qed.

Lemma shutdown_scan_marks (n : nat) :
  (forall rq rq' : rq_t,
     shutdown_loop evutil_parse_sockaddr_port socket connect n rq = Some (Ret rq') ->
     forall c, c ∈ connlist rq' -> conn_marked rq' c) ->
  forall (todo : list conn_ptr) (rq rq' : rq_t),
    shutdown_scan evutil_parse_sockaddr_port socket connect
      (shutdown_loop evutil_parse_sockaddr_port socket connect n) todo rq
    = Some (Ret rq') ->
    (forall c, c ∈ connlist rq' -> conn_marked rq' c) \/
    (connlist rq' = connlist rq /\
     (forall c, c ∈ todo -> conn_marked rq' c) /\
     (forall c, conn_marked rq c -> conn_marked rq' c)).
Proof.
  intros IHn. induction todo as [|c rest IH]; intros rq rq' H; simpl in H.
  - injection H as <-. right. split; [reflexivity|]. split; [|auto].
    intros c Hc. apply elem_of_nil in Hc. contradiction.
  - destruct (shutdown_conn evutil_parse_sockaddr_port socket connect c rq)
      as [[b rq1]|f] eqn:E; [|discriminate].
    destruct (shutdown_conn_marks _ _ _ _ E) as (Hc & Hmono & Hl).
    destruct b.
    + left. exact (IHn _ _ H).
    + destruct (IH _ _ H) as [Hall|(Hl' & Hrest & Hmono')]; [left; exact Hall|].
      right. split; [rewrite Hl', (Hl eq_refl); reflexivity|].
      split; [|auto].
      intros k Hk. apply elem_of_cons in Hk. destruct Hk as [->|Hk]; auto.
Qed.

Lemma shutdown_loop_marks (n : nat) :
  forall rq rq' : rq_t,
    shutdown_loop evutil_parse_sockaddr_port socket connect n rq = Some (Ret rq') ->
    forall c, c ∈ connlist rq' -> conn_marked rq' c.
Proof.
  induction n as [|n IH]; intros rq rq' H; [discriminate|]. simpl in H.
  destruct (shutdown_scan_marks n IH _ _ _ H) as [Hall|(Hl & Htodo & _)];
    [exact Hall|].
  intros c Hc. apply Htodo. rewrite <- Hl. exact Hc.
Qed.

Lemma shutdown_scan_marked (restart : rq_t -> option (res rq_t))
    (todo : list conn_ptr) (rq : rq_t) :
  (forall c, c ∈ todo -> conn_marked rq c) ->
  shutdown_scan evutil_parse_sockaddr_port socket connect restart todo rq
  = Some (Ret rq).
Proof.
  induction todo as [|c rest IH]; intros Hall; simpl; [reflexivity|].
  destruct (Hall c) as (x & Hx & Hs); [left|].
  unfold shutdown_conn. rewrite (get_conn_ret _ _ _ Hx). simpl.
  apply Z.eqb_neq in Hs. rewrite Hs. apply IH.
  intros k Hk. apply Hall. right. exact Hk.
Qed.

(** X13.  When [rq_shutdown] returns, every connection of the list is marked as
    shut down, and a further [rq_shutdown] changes nothing. *)
Theorem rq_shutdown_marks_all (rq rq' : rq_t) :
  rq_shutdown evutil_parse_sockaddr_port socket connect rq = Some (Ret rq') ->
  (forall c, c ∈ connlist rq' -> conn_marked rq' c) /\
  rq_shutdown evutil_parse_sockaddr_port socket connect rq' = Some (Ret rq').
Proof.
  intros H. unfold rq_shutdown in H.
  pose proof (shutdown_loop_marks _ _ _ H) as Hall.
  split; [exact Hall|].
  unfold rq_shutdown. simpl. apply shutdown_scan_marked, Hall.
Qed.

End ShutdownLoop.

Section ShutdownCases.

Variable evutil_parse_sockaddr_port : string -> Z.
Variable socket : rq_t -> Z.
Variable connect : Z -> string -> Z * Z.

(** [rq_conn_closed] on a connection whose read buffer was never
    allocated stops at [assert(conn->readbuf)]. *)
Lemma rq_conn_closed_no_readbuf (c : conn_ptr) (rq : rq_t) (x : rq_conn_t) :
  conns rq !! c = Some x ->
  conn_readbuf x = None ->
  rq_conn_closed evutil_parse_sockaddr_port socket connect c rq
  = Fail AssertFailed.
Proof.
  intros Hx Hrb. unfold rq_conn_closed. rewrite (get_conn_ret _ _ _ Hx). simpl.
  destruct (negb (conn_handle x =? INVALID_HANDLE)); simpl; [|reflexivity].
  rewrite Hrb. reflexivity.
Qed.

(** The loop body of [rq_shutdown] on a connection that has a descriptor
    but is not active yet. *)
Lemma shutdown_conn_connecting (c : conn_ptr) (rq : rq_t) (x : rq_conn_t) :
  conns rq !! c = Some x ->
  conn_shutdown x = 0 -> conn_handle x <> INVALID_HANDLE ->
  conn_active x = 0 -> conn_readbuf x = None ->
  shutdown_conn evutil_parse_sockaddr_port socket connect c rq
  = Fail AssertFailed.
Proof.
  intros Hx Hs Hh Ha Hrb. unfold shutdown_conn.
  rewrite (get_conn_ret _ _ _ Hx). simpl. rewrite Hs. simpl.
  apply Z.eqb_neq in Hh. rewrite Hh, Ha. simpl.
  destruct (conn_closing x =? 0); simpl; [|reflexivity].
  destruct (conn_connect_event x); simpl; [|reflexivity].
  rewrite put_conn_put.
  rewrite (rq_conn_closed_no_readbuf c _
             (conn_set_connect_event false (conn_set_shutdown 1 x))).
  - reflexivity.
  - eapply lookup_put_conn. exact Hx.
  - exact Hrb.
Qed.

Lemma shutdown_scan_skip (restart : rq_t -> option (res rq_t))
    (pre todo : list conn_ptr) (rq : rq_t) :
  (forall c, c ∈ pre -> conn_marked rq c) ->
  shutdown_scan evutil_parse_sockaddr_port socket connect restart
    (pre ++ todo) rq
  = shutdown_scan evutil_parse_sockaddr_port socket connect restart todo rq.
Proof.
  induction pre as [|c pre IH]; intros Hall; simpl; [reflexivity|].
  destruct (Hall c) as (x & Hx & Hs); [left|].
  unfold shutdown_conn. rewrite (get_conn_ret _ _ _ Hx). simpl.
  apply Z.eqb_neq in Hs. rewrite Hs. apply IH.
  intros k Hk. apply Hall. right. exact Hk.
Qed.

(** X14.  [rq_shutdown] cannot cancel a connect that is still in progress: the
    first connection of the list that is not yet marked has a descriptor
    but is not active, so its buffers were never allocated, and the
    [rq_conn_closed] that is to close it stops at an assertion. *)
Theorem rq_shutdown_connecting_aborts (rq : rq_t) (pre rest : list conn_ptr)
    (c : conn_ptr) (x : rq_conn_t) :
  connlist rq = pre ++ c :: rest ->
  (forall k, k ∈ pre -> conn_marked rq k) ->
  conns rq !! c = Some x ->
  conn_shutdown x = 0 -> conn_handle x <> INVALID_HANDLE ->
  conn_active x = 0 -> conn_readbuf x = None ->
  rq_shutdown evutil_parse_sockaddr_port socket connect rq
  = Some (Fail AssertFailed).
Proof.
  intros Hl Hpre Hx Hs Hh Ha Hrb. unfold rq_shutdown. simpl.
  rewrite Hl, (shutdown_scan_skip _ pre (c :: rest) rq Hpre). simpl.
  rewrite (shutdown_conn_connecting c rq x Hx Hs Hh Ha Hrb). reflexivity.
Qed.

(** The loop body of [rq_shutdown] on an established connection. *)
Lemma shutdown_conn_established (c : conn_ptr) (rq : rq_t) (x : rq_conn_t)
    (out : expbuf_t) :
  conns rq !! c = Some x ->
  conn_established x out ->
  evbase rq = true ->
  shutdown_conn evutil_parse_sockaddr_port socket connect c rq
  = if msg_used rq =? 0 then
      rq1 ← rq_conn_closed evutil_parse_sockaddr_port socket connect c
              (put_conn c (conn_draining x out) rq);
      y ← get_conn rq1 c;
      _ ← assert (conn_closing y =? 0);
      Ret (true, rq1)
    else Ret (false, put_conn c (conn_draining x out) rq).
Proof.
  intros Hx (Hs & Hh & Ha & Hce & Hre & Hcl & Hob) Hev. unfold shutdown_conn.
  rewrite (get_conn_ret _ _ _ Hx). simpl. rewrite Hs. simpl.
  pose proof Hh as Hh'. apply Z.eqb_neq in Hh'. rewrite Hh'. simpl.
  assert ((conn_active x =? 0) = false) as -> by (apply Z.eqb_neq; lia).
  rewrite (assert_true (0 <? conn_active x)) by (apply Z.ltb_lt; exact Ha).
  simpl. rewrite Hce, Hre. simpl.
  unfold rq_send_closing. change (0 + 1) with 1.
  rewrite (rq_senddata_spec c [Cmd RQ_CMD_CLOSING] (put_conn c (conn_set_shutdown 1 x) rq)
             (conn_set_shutdown 1 x) out).
  - simpl. rewrite put_conn_put.
    rewrite (get_conn_put _ _ _ _ Hx). simpl. rewrite Hcl. simpl.
    rewrite put_conn_put.
    unfold conn_draining, conn_after_send. simpl. reflexivity.
  - eapply lookup_put_conn. exact Hx.
  - discriminate.
  - exact Hh.
  - exact Hob.
  - destruct rq; exact Hev.
Qed.

(** [rq_conn_closed] on an open connection while no message is live,
    before it tries the head of the list again. *)
Lemma rq_conn_closed_run_idle (c : conn_ptr) (rq : rq_t) (x : rq_conn_t) :
  conns rq !! c = Some x ->
  conn_open x ->
  connlist rq <> [] ->
  msg_used rq = 0 ->
  rq_conn_closed evutil_parse_sockaddr_port socket connect c rq
  = rq_connect evutil_parse_sockaddr_port socket connect (closed_state c x rq).
Proof.
  intros Hx (Hh & Hce & Hrb & Hsb & Hob) Hne Hmu.
  unfold rq_conn_closed. rewrite (get_conn_ret _ _ _ Hx). simpl.
  rewrite (assert_true (negb (conn_handle x =? INVALID_HANDLE)))
    by (apply negb_true_iff, Z.eqb_neq; exact Hh).
  simpl. rewrite Hrb, Hsb. simpl.
  rewrite (assert_true (negb (bool_decide (conn_outbuf x = None))))
    by (apply negb_true_iff, bool_decide_eq_false; exact Hob).
  simpl.
  rewrite (assert_true (0 <? Z.of_nat (length (connlist rq))))
    by (apply Z.ltb_lt; destruct (connlist rq); [contradiction|simpl; lia]).
  simpl. rewrite Hce. simpl.
  unfold closed_state, rotate, conn_closed.
  destruct (1 <? Z.of_nat (length (connlist rq))); destruct rq; destruct x;
    simpl in *; subst; reflexivity.
Qed.

(** [rq_connect] on an idle head: it stops at an assertion, or the head
    is connecting on a descriptor that is not negative. *)
Lemma rq_connect_idle_head (rq : rq_t) (h : conn_ptr) (t : list conn_ptr)
    (xh : rq_conn_t) :
  connlist rq = h :: t ->
  conns rq !! h = Some xh ->
  conn_idle xh ->
  rq_connect evutil_parse_sockaddr_port socket connect rq = Fail AssertFailed \/
  (0 <= socket rq /\
   rq_connect evutil_parse_sockaddr_port socket connect rq
   = Ret (put_conn h (conn_started (socket rq) xh) rq)).
Proof.
  intros Hl Hx (Hsh & Hcl & Hac & Hce & Hre & Hwe & Hh & Hhn & Hrb & Hib & Hda & Hob).
  unfold rq_connect. destruct (evbase rq); simpl; [|left; reflexivity].
  rewrite Hl. simpl. rewrite (get_conn_ret _ _ _ Hx). simpl.
  rewrite Hsh, Hcl, Hce, Hac, Hre, Hwe, Hh. simpl.
  rewrite (assert_true (0 <? strlen (conn_hostname xh)))
    by (apply Z.ltb_lt; exact Hhn).
  simpl.
  destruct (evutil_parse_sockaddr_port (conn_hostname xh) =? 0); simpl;
    [|left; reflexivity].
  destruct (0 <=? socket rq) eqn:Es; simpl; [|left; reflexivity].
  destruct (connect (socket rq) (conn_hostname xh)) as [r e].
  destruct (r <? 0); simpl; [|left; reflexivity].
  destruct (e =? EINPROGRESS); simpl; [|left; reflexivity].
  rewrite Hib, Hrb, Hda. simpl.
  rewrite (assert_true (negb (bool_decide (conn_outbuf xh = None))))
    by (apply negb_true_iff, bool_decide_eq_false; exact Hob).
  simpl. right. split; [apply Z.leb_le; exact Es|reflexivity].
Qed.

Lemma conn_draining_open (x : rq_conn_t) (out : expbuf_t) :
  conn_established x out -> conn_quiet x -> conn_open (conn_draining x out).
Proof.
  intros (Hs & Hh & Ha & Hce & Hre & Hcl & Hob) (Hrb & Hsb).
  unfold conn_open, conn_draining, conn_after_send. simpl.
  repeat split; try assumption; discriminate.
Qed.

(** With no message in the table, an established connection is closed as
    soon as [rq_shutdown] reaches it, and the head of the list is tried. *)
Lemma shutdown_conn_closes (c : conn_ptr) (rq : rq_t) (x : rq_conn_t)
    (out : expbuf_t) :
  conns rq !! c = Some x ->
  conn_established x out -> conn_quiet x ->
  evbase rq = true -> msg_used rq = 0 -> connlist rq <> [] ->
  shutdown_conn evutil_parse_sockaddr_port socket connect c rq
  = rq1 ← rq_connect evutil_parse_sockaddr_port socket connect
            (closed_state c (conn_set_shutdown 1 x) rq);
    y ← get_conn rq1 c;
    _ ← assert (conn_closing y =? 0);
    Ret (true, rq1).
Proof.
  intros Hx He Hq Hev Hmu Hne.
  rewrite (shutdown_conn_established c rq x out Hx He Hev), Hmu. simpl.
  rewrite (rq_conn_closed_run_idle c _ (conn_draining x out)).
  - assert (closed_state c (conn_draining x out)
              (put_conn c (conn_draining x out) rq)
            = closed_state c (conn_set_shutdown 1 x) rq) as ->; [|reflexivity].
    unfold closed_state. rewrite put_conn_put. destruct rq; reflexivity.
  - eapply lookup_put_conn. exact Hx.
  - apply conn_draining_open; assumption.
  - destruct rq; exact Hne.
  - destruct rq; exact Hmu.
Qed.

Lemma rq_shutdown_single_run (rq : rq_t) (c : conn_ptr) (x : rq_conn_t)
    (out : expbuf_t) :
  connlist rq = [c] ->
  conns rq !! c = Some x ->
  conn_established x out -> conn_quiet x ->
  evbase rq = true -> msg_used rq = 0 ->
  rq_shutdown evutil_parse_sockaddr_port socket connect rq
  = Some (Ret (put_conn c (conn_closed (conn_set_shutdown 1 x)) rq)).
Proof.
  intros Hl Hx He Hq Hev Hmu.
  unfold rq_shutdown.
  destruct (length (conns rq)) as [|n] eqn:En;
    [apply lookup_lt_Some in Hx; lia|].
  cbn [shutdown_loop]. rewrite Hl. cbn [shutdown_scan].
  rewrite (shutdown_conn_closes c rq x out Hx He Hq Hev Hmu)
    by (rewrite Hl; discriminate).
  assert (closed_state c (conn_set_shutdown 1 x) rq
          = put_conn c (conn_closed (conn_set_shutdown 1 x)) rq) as ->.
  { unfold closed_state, rotate. rewrite Hl. simpl.
    destruct rq; simpl in *; subst; reflexivity. }
  set (y := conn_closed (conn_set_shutdown 1 x)).
  assert (conns (put_conn c y rq) !! c = Some y) as Hy
    by (eapply lookup_put_conn; exact Hx).
  assert (rq_connect evutil_parse_sockaddr_port socket connect (put_conn c y rq)
          = Ret (put_conn c y rq)) as ->.
  { unfold rq_connect.
    assert (evbase (put_conn c y rq) = true) as -> by (destruct rq; exact Hev).
    assert (connlist (put_conn c y rq) = [c]) as -> by (destruct rq; exact Hl).
    simpl. rewrite (get_conn_ret _ _ _ Hy). reflexivity. }
  cbn [mbind res_bind]. rewrite (get_conn_ret _ _ _ Hy).
  cbn [mbind res_bind]. change (conn_closing y =? 0) with true.
  cbn [assert mbind res_bind shutdown_loop].
  apply shutdown_scan_marked.
  assert (connlist (put_conn c y rq) = [c]) as -> by (destruct rq; exact Hl).
  intros k Hk. apply list_elem_of_singleton in Hk. subst k.
  exists y. split; [exact Hy|]. simpl. lia.
Qed.

(** X15.  A client with one controller and no message in the table: [rq_shutdown]
    closes the connection at once.  The CLOSING command it has just queued
    is discarded with the rest of the output buffer, so it is never
    written to the controller. *)
Theorem rq_shutdown_closes_at_once (rq : rq_t) (c : conn_ptr) (x : rq_conn_t)
    (out : expbuf_t) :
  connlist rq = [c] ->
  conns rq !! c = Some x ->
  conn_established x out -> conn_quiet x ->
  evbase rq = true -> msg_used rq = 0 ->
  rq_shutdown evutil_parse_sockaddr_port socket connect rq
  = Some (Ret (put_conn c (conn_closed (conn_set_shutdown 1 x)) rq)) /\
  conn_outbuf (conn_closed (conn_set_shutdown 1 x)) = Some [].
Proof.
  intros Hl Hx He Hq Hev Hmu. split; [|reflexivity].
  exact (rq_shutdown_single_run rq c x out Hl Hx He Hq Hev Hmu).
Qed.

(** X16.  A client with a second controller waiting behind the established one,
    and no message in the table: [rq_shutdown] never returns.  Closing the
    first connection rotates the list and starts a connect to the second
    controller, which is not marked yet; the walk starts again, finds that
    connection connecting, and stops at the assertion of
    [rq_conn_closed]; or the connect itself stops at one. *)
Theorem rq_shutdown_failover_aborts (rq : rq_t) (c h : conn_ptr)
    (t : list conn_ptr) (x xh : rq_conn_t) (out : expbuf_t) :
  connlist rq = c :: h :: t ->
  c <> h ->
  conns rq !! c = Some x ->
  conn_established x out -> conn_quiet x ->
  conns rq !! h = Some xh ->
  conn_idle xh ->
  evbase rq = true -> msg_used rq = 0 ->
  rq_shutdown evutil_parse_sockaddr_port socket connect rq
  = Some (Fail AssertFailed).
Proof.
  intros Hl Hne Hx He Hq Hxh Hidle Hev Hmu. unfold rq_shutdown.
  destruct (length (conns rq)) as [|n] eqn:En;
    [apply lookup_lt_Some in Hx; lia|].
  cbn [shutdown_loop]. rewrite Hl. cbn [shutdown_scan].
  rewrite (shutdown_conn_closes c rq x out Hx He Hq Hev Hmu)
    by (rewrite Hl; discriminate).
  set (rqc := closed_state c (conn_set_shutdown 1 x) rq).
  assert (connlist rqc = h :: t ++ [c]) as Hlc.
  { unfold rqc, closed_state, rotate. rewrite Hl.
    cbn [length]. rewrite (proj2 (Z.ltb_lt 1 _)) by lia.
    cbn [ll_remove]. rewrite Nat.eqb_refl. destruct rq; reflexivity. }
  assert (conns rqc !! h = Some xh) as Hxhc.
  { unfold rqc, closed_state. destruct rq; simpl in *.
    rewrite list_lookup_insert_ne by congruence. exact Hxh. }
  assert (conns rqc !! c = Some (conn_closed (conn_set_shutdown 1 x))) as Hxc.
  { unfold rqc, closed_state. destruct rq; simpl in *.
    apply list_lookup_insert_eq. apply lookup_lt_Some in Hx. exact Hx. }
  destruct (rq_connect_idle_head rqc h (t ++ [c]) xh Hlc Hxhc Hidle)
    as [Hf|[Hs Hr]]; rewrite ?Hf, ?Hr; [reflexivity|].
  set (rq1 := put_conn h (conn_started (socket rqc) xh) rqc).
  assert (conns rq1 !! c = Some (conn_closed (conn_set_shutdown 1 x))) as Hxc1.
  { unfold rq1. destruct rqc; simpl in *.
    rewrite list_lookup_insert_ne by congruence. exact Hxc. }
  cbn [mbind res_bind]. rewrite (get_conn_ret _ _ _ Hxc1).
  cbn [mbind res_bind].
  change (conn_closing (conn_closed (conn_set_shutdown 1 x)) =? 0) with true.
  cbn [assert mbind res_bind].
  destruct n as [|n].
  { apply lookup_lt_Some in Hx. apply lookup_lt_Some in Hxh. lia. }
  cbn [shutdown_loop].
  assert (connlist rq1 = h :: t ++ [c]) as -> by (destruct rqc; exact Hlc).
  cbn [shutdown_scan].
  rewrite (shutdown_conn_connecting h rq1 (conn_started (socket rqc) xh));
    [reflexivity| | | | |].
  - unfold rq1. eapply lookup_put_conn. exact Hxhc.
  - destruct Hidle as (Hsh & _). exact Hsh.
  - unfold conn_started, INVALID_HANDLE. simpl. lia.
  - destruct Hidle as (_ & _ & Hac & _). exact Hac.
  - destruct Hidle as (_ & _ & _ & _ & _ & _ & _ & _ & Hrb & _). exact Hrb.
Qed.



End ShutdownCases.

Lemma rq_shutdown_marks_all_witness :
  (forall c, c ∈ connlist (put_conn 0%nat (conn_closed (conn_set_shutdown 1 conn_example))
                            client_example) ->
             conn_marked (put_conn 0%nat (conn_closed (conn_set_shutdown 1 conn_example))
                            client_example) c) /\
  rq_shutdown parse_example socket_example connect_example
    (put_conn 0%nat (conn_closed (conn_set_shutdown 1 conn_example)) client_example)
  = Some (Ret (put_conn 0%nat (conn_closed (conn_set_shutdown 1 conn_example))
                 client_example)).
Proof.
  apply (rq_shutdown_marks_all parse_example socket_example connect_example
           client_example).
  reflexivity.
Defined.

Lemma rq_shutdown_connecting_aborts_witness :
  rq_shutdown parse_example socket_example connect_example
    client_connecting_example
  = Some (Fail AssertFailed).
Proof.
  apply (rq_shutdown_connecting_aborts parse_example socket_example
           connect_example client_connecting_example [] [1%nat] 0%nat
           conn_connecting_example).
  - reflexivity.
  - intros k Hk. apply elem_of_nil in Hk. contradiction.
  - reflexivity.
  - reflexivity.
  - unfold INVALID_HANDLE. simpl. lia.
  - reflexivity.
  - reflexivity.
Defined.

Lemma conn_example_established : conn_established conn_example [].
Proof.
  unfold conn_established, INVALID_HANDLE. simpl.
  repeat split; try reflexivity; lia.
Qed.

Lemma rq_shutdown_closes_at_once_witness :
  rq_shutdown parse_example socket_example connect_example client_example
  = Some (Ret (put_conn 0%nat (conn_closed (conn_set_shutdown 1 conn_example))
                 client_example)) /\
  conn_outbuf (conn_closed (conn_set_shutdown 1 conn_example)) = Some [].
Proof.
  apply (rq_shutdown_closes_at_once parse_example socket_example
           connect_example client_example 0%nat conn_example []).
  - reflexivity.
  - reflexivity.
  - exact conn_example_established.
  - split; reflexivity.
  - reflexivity.
  - reflexivity.
Defined.

Lemma rq_shutdown_failover_aborts_witness :
  rq_shutdown parse_example socket_example connect_example
    client_failover_example
  = Some (Fail AssertFailed).
Proof.
  apply (rq_shutdown_failover_aborts parse_example socket_example
           connect_example client_failover_example 0%nat 1%nat []
           conn_example conn_idle_example []).
  - reflexivity.
  - discriminate.
  - reflexivity.
  - exact conn_example_established.
  - split; reflexivity.
  - reflexivity.
  - unfold conn_idle. repeat split; try reflexivity; discriminate.
  - reflexivity.
  - reflexivity.
Defined.


(** ** Final clean-up *)

Lemma cleanup_conn_inv (c : conn_ptr) (rq rq1 : rq_t) :
  cleanup_conn c rq = Ret rq1 ->
  exists x y, conns rq !! c = Some x /\ conn_released x /\
    conn_outbuf y = None /\ rq1 = put_conn c y rq.
Proof.
  unfold cleanup_conn, get_conn. intros H.
  destruct (conns rq !! c) as [x|] eqn:Ex; [|discriminate]. simpl in H.
  res_inv H. injection H as <-.
  eexists x, _. split; [reflexivity|]. split; [|split; [|reflexivity]].
  - unfold conn_released. destruct (conn_read_event x), (conn_write_event x),
      (conn_connect_event x); try discriminate.
    repeat split; assumption.
  - reflexivity.
Qed.

Lemma cleanup_conn_run (c : conn_ptr) (rq : rq_t) (x : rq_conn_t) :
  conns rq !! c = Some x -> conn_released x ->
  exists y, cleanup_conn c rq = Ret (put_conn c y rq).
Proof.
  intros Hx (Hh & Ha & Hcl & Hs & Hre & Hwe & Hce & Hob & Hib & Hrb & Hd).
  unfold cleanup_conn. rewrite (get_conn_ret _ _ _ Hx). simpl.
  rewrite Hh, Ha, Hcl, Hre, Hwe, Hce, Hib, Hrb, Hd. simpl.
  rewrite (assert_true (0 <? conn_shutdown x)) by (apply Z.ltb_lt; exact Hs).
  simpl.
  rewrite (assert_true (negb (bool_decide (conn_outbuf x = None))))
    by (apply negb_true_iff, bool_decide_eq_false; exact Hob).
  simpl. eexists. reflexivity.
Qed.

Lemma cleanup_conns_inv (l : list conn_ptr) :
  forall rq rq' : rq_t,
    cleanup_conns l rq = Ret rq' ->
    NoDup l /\
    (forall c, c ∈ l -> exists x, conns rq !! c = Some x /\ conn_released x) /\
    msg_used rq' = msg_used rq /\ msg_list rq' = msg_list rq.
Proof.
  induction l as [|c rest IH]; intros rq rq' H; simpl in H.
  - injection H as <-. split; [constructor|]. split; [|split; reflexivity].
    intros c Hc. apply elem_of_nil in Hc. contradiction.
  - apply bind_ret_inv in H. destruct H as (rq1 & Hc & H).
    destruct (cleanup_conn_inv _ _ _ Hc) as (x & y & Hx & Hrel & Hy & ->).
    destruct (IH _ _ H) as (Hnd & Hall & Hmu & Hml).
    assert (conns (rq_set_connlist rest rq) !! c = Some x) as Hx'
      by (destruct rq; exact Hx).
    assert (c ∉ rest) as Hnin.
    { intros Hin. destruct (Hall c Hin) as (z & Hz & Hzrel).
      rewrite (lookup_put_conn _ _ _ y Hx') in Hz. injection Hz as <-.
      destruct Hzrel as (_ & _ & _ & _ & _ & _ & _ & Hob & _). contradiction. }
    split; [constructor; assumption|].
    split; [|split; [rewrite Hmu|rewrite Hml]; destruct rq; reflexivity].
    intros k Hk. apply elem_of_cons in Hk. destruct Hk as [->|Hk].
    + exists x. split; [destruct rq; exact Hx|exact Hrel].
    + destruct (Hall k Hk) as (z & Hz & Hzrel). exists z. split; [|exact Hzrel].
      destruct rq; simpl in *. rewrite list_lookup_insert_ne in Hz; [exact Hz|].
      intros ->. contradiction.
Qed.

Lemma cleanup_conns_run (l : list conn_ptr) :
  forall rq : rq_t,
    NoDup l ->
    (forall c, c ∈ l -> exists x, conns rq !! c = Some x /\ conn_released x) ->
    exists rq', cleanup_conns l rq = Ret rq'.
Proof.
  induction l as [|c rest IH]; intros rq Hnd Hall; simpl.
  - exists rq. reflexivity.
  - apply NoDup_cons in Hnd. destruct Hnd as [Hnin Hnd].
    destruct (Hall c) as (x & Hx & Hrel); [left|].
    assert (conns (rq_set_connlist rest rq) !! c = Some x) as Hx'
      by (destruct rq; exact Hx).
    destruct (cleanup_conn_run c _ x Hx' Hrel) as (y & ->). simpl.
    apply (IH (put_conn c y (rq_set_connlist rest rq)) Hnd).
    intros k Hk. destruct (Hall k) as (z & Hz & Hzrel); [right; exact Hk|].
    exists z. split; [|exact Hzrel]. destruct rq; simpl in *.
    rewrite list_lookup_insert_ne; [exact Hz|]. intros ->. contradiction.
Qed.

Lemma cleanup_slots_iff (slots : list (option msg_ptr)) :
  cleanup_slots slots = Ret tt <->
  Forall (fun s : option msg_ptr => s = None) slots.
Proof.
  induction slots as [|s rest IH]; simpl.
  - split; [constructor|reflexivity].
  - split.
    + intros H. apply bind_ret_inv in H. destruct H as ([] & Hr & Hs).
      apply assert_ret_inv in Hs. apply bool_decide_eq_true in Hs.
      constructor; [exact Hs|apply IH; exact Hr].
    + intros H. apply Forall_cons in H. destruct H as [-> H].
      apply IH in H. rewrite H. reflexivity.
Qed.

Lemma rq_cleanup_ready_run (rq : rq_t) :
  cleanup_ready rq -> exists a', rq_cleanup (live rq) = Ret a'.
Proof.
  unfold rq_cleanup, cleanup_ready, live. intros (Hnd & Hall & Hmu & Hsl).
  cbn [a_risp a_msg_list a_msg_pool a_rq assert mbind res_bind].
  destruct (cleanup_conns_run _ rq Hnd Hall) as (rq1 & Hr).
  rewrite Hr. cbn [mbind res_bind].
  destruct (cleanup_conns_inv _ _ _ Hr) as (_ & _ & Hmu1 & Hml1).
  assert (msg_used (rq_set_queues [] rq1) = 0) as ->
    by (destruct rq1; simpl in *; congruence).
  assert (msg_list (rq_set_queues [] rq1) = msg_list rq) as ->
    by (destruct rq1; simpl in *; congruence).
  apply cleanup_slots_iff in Hsl. rewrite Hsl. simpl.
  eexists. reflexivity.
Qed.

(** X18.  [rq_cleanup] returns exactly for a client that is ready for it:
    its command table, slot array and pool are still allocated, every
    controller is listed once, closed, marked as shut down by
    [rq_shutdown] and without events or input buffers, and the message
    table is empty.  In every other state it stops at an assertion or
    dereferences a pointer that is not there; so it does on the client a
    first [rq_cleanup] has left, at [assert(rq->risp != NULL)]. *)
Theorem rq_cleanup_returns_iff (a : rq_alloc) :
  ((exists a', rq_cleanup a = Ret a') <->
   (a_risp a = true /\ a_msg_list a = true /\ a_msg_pool a = true /\
    cleanup_ready (a_rq a))) /\
  (forall a', rq_cleanup a = Ret a' ->
     a_risp a' = false /\ a_msg_list a' = false /\ a_msg_pool a' = false /\
     rq_cleanup a' = Fail AssertFailed).
Proof.
  split; [split|].
  - unfold rq_cleanup, cleanup_ready.
    intros (a' & H). res_inv H.
    apply bind_ret_inv in H. destruct H as (rq1 & Hc & H).
    destruct (cleanup_conns_inv _ _ _ Hc) as (Hnd & Hall & Hmu & Hml).
    res_inv H. apply bind_ret_inv in H. destruct H as ([] & Hs & H).
    res_inv H. apply cleanup_slots_iff in Hs.
    destruct (a_risp a), (a_msg_list a), (a_msg_pool a); try discriminate.
    repeat (split; [reflexivity|]).
    split; [exact Hnd|]. split; [exact Hall|].
    split; [rewrite <- Hmu; destruct rq1; assumption|].
    rewrite <- Hml. destruct rq1; exact Hs.
  - intros (Hr & Hl & Hp & Hready). destruct a as [r l p rq].
    simpl in *. subst r l p. exact (rq_cleanup_ready_run rq Hready).
  - unfold rq_cleanup at 1. intros a' H. res_inv H.
    apply bind_ret_inv in H. destruct H as (rq1 & _ & H).
    res_inv H. apply bind_ret_inv in H. destruct H as ([] & _ & H).
    res_inv H. injection H as <-.
    repeat (split; [reflexivity|]). reflexivity.
Qed.

Lemma count_live_zero (l : list (option msg_ptr)) :
  count_live l = 0 -> Forall (fun s : option msg_ptr => s = None) l.
Proof.
  induction l as [|[p|] l IH]; simpl; intros H.
  - constructor.
  - pose proof (count_live_bounds l). lia.
  - constructor; [reflexivity|exact (IH H)].
Qed.

Lemma cleanup_conns_connlist (l : list conn_ptr) :
  forall rq rq' : rq_t,
    cleanup_conns l rq = Ret rq' ->
    connlist rq' = match l with [] => connlist rq | _ => [] end.
Proof.
  induction l as [|c rest IH]; intros rq rq' H; simpl in H.
  - injection H as <-. reflexivity.
  - apply bind_ret_inv in H. destruct H as (rq1 & Hc & H).
    destruct (cleanup_conn_inv _ _ _ Hc) as (x & y & _ & _ & _ & ->).
    rewrite (IH _ _ H). destruct rest; [destruct rq|]; reflexivity.
Qed.

(** What [rq_cleanup] leaves: no controller, no subscription, no table and
    no pool. *)
Lemma rq_cleanup_result (a a' : rq_alloc) :
  rq_cleanup a = Ret a' ->
  connlist (a_rq a') = [] /\ queues (a_rq a') = [] /\
  msg_list (a_rq a') = [] /\ msg_pool (a_rq a') = [] /\
  a_risp a' = false /\ a_msg_list a' = false /\ a_msg_pool a' = false.
Proof.
  unfold rq_cleanup. intros H. res_inv H.
  apply bind_ret_inv in H. destruct H as (rq1 & Hc & H).
  apply cleanup_conns_connlist in Hc.
  res_inv H. apply bind_ret_inv in H. destruct H as ([] & _ & H).
  res_inv H. injection H as <-.
  assert (connlist rq1 = []) as Hl
    by (rewrite Hc; destruct (connlist (a_rq a)); reflexivity).
  destruct rq1; simpl in *. auto 10.
Qed.

Section Teardown.

Variable evutil_parse_sockaddr_port : string -> Z.
Variable socket : rq_t -> Z.
Variable connect : Z -> string -> Z * Z.

(** X19.  The orderly end of a live client with one controller: once its
    table is empty, [rq_shutdown] followed by [rq_cleanup] runs through,
    and leaves no controller, subscription, table, pool or command table
    behind. *)
Theorem shutdown_then_cleanup (rq : rq_t) (c : conn_ptr) (x : rq_conn_t)
    (out : expbuf_t) :
  connlist rq = [c] ->
  conns rq !! c = Some x ->
  conn_established x out -> conn_quiet x ->
  evbase rq = true ->
  used_ok rq -> msg_used rq = 0 ->
  exists (rq1 : rq_t) (a2 : rq_alloc),
    rq_shutdown evutil_parse_sockaddr_port socket connect rq = Some (Ret rq1) /\
    rq_cleanup (live rq1) = Ret a2 /\
    connlist (a_rq a2) = [] /\ queues (a_rq a2) = [] /\
    msg_list (a_rq a2) = [] /\ msg_pool (a_rq a2) = [] /\
    a_risp a2 = false /\ a_msg_list a2 = false /\ a_msg_pool a2 = false.
Proof.
  intros Hl Hx He Hq Hev Hused Hmu.
  set (y := conn_closed (conn_set_shutdown 1 x)).
  assert (cleanup_ready (put_conn c y rq)) as Hready.
  { split; [|split; [|split]].
    - assert (connlist (put_conn c y rq) = [c]) as ->
        by (destruct rq; exact Hl).
      apply NoDup_singleton.
    - assert (connlist (put_conn c y rq) = [c]) as ->
        by (destruct rq; exact Hl).
      intros k Hk. apply list_elem_of_singleton in Hk. subst k.
      exists y. split; [eapply lookup_put_conn; exact Hx|].
      destruct He as (_ & _ & _ & Hce & _).
      unfold conn_released, y. simpl.
      repeat split; try reflexivity; try assumption; try lia; discriminate.
    - destruct rq; exact Hmu.
    - apply count_live_zero. unfold used_ok in Hused.
      destruct rq; simpl in *. congruence. }
  apply rq_cleanup_ready_run in Hready. destruct Hready as (a2 & H2).
  exists (put_conn c y rq), a2.
  split; [exact (rq_shutdown_single_run _ _ _ rq c x out Hl Hx He Hq Hev Hmu)|].
  split; [exact H2|]. exact (rq_cleanup_result _ _ H2).
Qed.

End Teardown.

Lemma shutdown_then_cleanup_witness :
  exists (rq1 : rq_t) (a2 : rq_alloc),
    rq_shutdown parse_example socket_example connect_example client_example
    = Some (Ret rq1) /\
    rq_cleanup (live rq1) = Ret a2 /\
    connlist (a_rq a2) = [] /\ queues (a_rq a2) = [] /\
    msg_list (a_rq a2) = [] /\ msg_pool (a_rq a2) = [] /\
    a_risp a2 = false /\ a_msg_list a2 = false /\ a_msg_pool a2 = false.
Proof.
  apply (shutdown_then_cleanup parse_example socket_example connect_example
           client_example 0%nat conn_example []).
  - reflexivity.
  - reflexivity.
  - exact conn_example_established.
  - split; reflexivity.
  - reflexivity.
  - reflexivity.
  - reflexivity.
Defined.

(** ** Building a request and sending it *)

Lemma lookup_put_msg (rq : rq_t) (p : msg_ptr) (m0 m : rq_message_t) :
  msgs rq !! p = Some m0 -> msgs (put_msg p m rq) !! p = Some m.
Proof.
  intros H. destruct rq; simpl in *. apply list_lookup_insert_eq.
  apply lookup_lt_Some in H. exact H.
Qed.

Lemma put_msg_put (rq : rq_t) (p : msg_ptr) (m m' : rq_message_t) :
  put_msg p m (put_msg p m' rq) = put_msg p m rq.
Proof.
  unfold put_msg. destruct rq; simpl. rewrite list_insert_insert_eq. reflexivity.
Qed.

Lemma length_substring_prefix (n : nat) :
  forall s : string,
    (n <= String.length s)%nat -> String.length (substring 0 n s) = n.
Proof.
  induction n as [|n IH]; intros s H.
  - destruct s; reflexivity.
  - destruct s as [|a s]; simpl in *; [lia|]. rewrite IH by lia. reflexivity.
Qed.

(** X20.  A request built with [rq_msg_new], [rq_msg_setqueue] and
    [rq_msg_setdata], optionally marked with [rq_msg_setnoreply] and
    [rq_msg_setbroadcast], is accepted by [rq_send]: one request sequence
    is queued on the active head, its ID is the index of the table slot
    that holds the message, its payload the [len] bytes given, and the
    table stays as [rq_msg_new] left it. *)
Theorem request_built_then_sent (rq rq1 : rq_t) (p : msg_ptr)
    (queue data : string) (len : Z) (nr bc : bool)
    (reply fail : option fn_ptr) (arg : option arg_ptr)
    (c : conn_ptr) (rest : list conn_ptr) (x : rq_conn_t) (out : expbuf_t) :
  used_ok rq ->
  (forall q : msg_ptr, q ∈ msg_pool rq -> (q < length (msgs rq))%nat) ->
  rq_msg_new rq None = Ret (p, rq1) ->
  0 < len <= Z.of_nat (String.length data) ->
  (arg = None \/ reply <> None \/ fail <> None) ->
  connlist rq = c :: rest ->
  conns rq !! c = Some x ->
  conn_serving x ->
  conn_can_send rq x out ->
  exists (k : nat) (rq' : rq_t),
    msg_list rq1 !! k = Some (Some p) /\
    (rq2 ← rq_msg_setqueue p queue rq1;
     rq3 ← rq_msg_setdata p len data rq2;
     rq4 ← (if nr then rq_msg_setnoreply p rq3 else Ret rq3);
     rq5 ← (if bc then rq_msg_setbroadcast p rq4 else Ret rq4);
     rq_send p reply fail arg rq5) = Ret rq' /\
    conns rq' !! c
    = Some (conn_after_send x
              (out ++ request_sequence (Z.of_nat k) queue
                        (substring 0 (Z.to_nat len) data)
                        (if nr then 1 else 0) (if bc then 1 else 0))) /\
    msg_list rq' = msg_list rq1 /\ msg_used rq' = msg_used rq + 1.
Proof.
  intros Hused Hpool Hnew Hlen Harg Hl Hx Hserving Hsend.
  destruct (rq_msg_new_spec _ _ _ _ Hused Hpool Hnew)
    as (k & Hplaced & Hm & _ & _ & Hmu & _ & _ & Hcs & Hcl & _ & Hev).
  apply placed_facts in Hplaced. destruct Hplaced as (Hslot & _).
  set (m0 := msg_set_id (Z.of_nat k) (msg_initial None)) in *.
  set (m1 := msg_set_queue (Some queue) m0).
  set (sub := substring 0 (Z.to_nat len) data).
  set (m2 := msg_set_data (Some sub) m1).
  set (m3 := if nr then msg_set_noreply 1 m2 else m2).
  set (m4 := if bc then msg_set_broadcast 1 m3 else m3).
  assert (rq_msg_setqueue p queue rq1 = Ret (put_msg p m1 rq1)) as ->.
  { unfold rq_msg_setqueue, get_msg. rewrite Hm. reflexivity. }
  cbn [mbind res_bind].
  assert (rq_msg_setdata p len data (put_msg p m1 rq1)
          = Ret (put_msg p m2 rq1)) as ->.
  { unfold rq_msg_setdata, get_msg.
    rewrite (lookup_put_msg _ _ _ m1 Hm). cbn [mbind res_bind].
    rewrite (assert_true (0 <? len)) by (apply Z.ltb_lt; lia).
    cbn [mbind res_bind]. simpl.
    rewrite (proj2 (Z.leb_le _ _)) by lia.
    rewrite put_msg_put. reflexivity. }
  cbn [mbind res_bind].
  assert ((if nr then rq_msg_setnoreply p (put_msg p m2 rq1)
           else Ret (put_msg p m2 rq1)) = Ret (put_msg p m3 rq1)) as ->.
  { unfold m3. destruct nr; [|reflexivity].
    unfold rq_msg_setnoreply, get_msg.
    rewrite (lookup_put_msg _ _ _ m2 Hm). simpl.
    rewrite put_msg_put. reflexivity. }
  cbn [mbind res_bind].
  assert ((if bc then rq_msg_setbroadcast p (put_msg p m3 rq1)
           else Ret (put_msg p m3 rq1)) = Ret (put_msg p m4 rq1)) as ->.
  { unfold m4. destruct bc; [|reflexivity].
    unfold rq_msg_setbroadcast, get_msg.
    rewrite (lookup_put_msg _ _ _ m3 Hm).
    assert (msg_broadcast m3 = 0) as Hb by (unfold m3; destruct nr; reflexivity).
    cbn [mbind res_bind]. rewrite Hb. simpl.
    rewrite put_msg_put. reflexivity. }
  cbn [mbind res_bind].
  assert (String.length sub = Z.to_nat len) as Hsub
    by (apply length_substring_prefix; lia).
  rewrite (rq_send_run p reply fail arg (put_msg p m4 rq1) m4 queue sub
             c rest x out).
  - exists k. eexists. split; [exact Hslot|]. split; [reflexivity|].
    assert (msg_id m4 = Z.of_nat k) as ->
      by (unfold m4, m3; destruct bc, nr; reflexivity).
    assert (msg_noreply m4 = if nr then 1 else 0) as ->
      by (unfold m4, m3; destruct bc, nr; reflexivity).
    assert (msg_broadcast m4 = if bc then 1 else 0) as ->
      by (unfold m4, m3; destruct bc, nr; reflexivity).
    split.
    + eapply lookup_put_conn. destruct rq1; simpl in *. rewrite Hcs. exact Hx.
    + split; [destruct rq1; reflexivity|]. rewrite <- Hmu.
      destruct rq1; reflexivity.
  - eapply lookup_put_msg. exact Hm.
  - unfold msg_outbound_ready, m4, m3. destruct bc, nr; simpl;
      (repeat split; try reflexivity; try lia;
       intros He; rewrite He in Hsub; simpl in Hsub; lia).
  - exact Harg.
  - destruct rq1; simpl in *. rewrite Hcl. exact Hl.
  - destruct rq1; simpl in *. rewrite Hcs. exact Hx.
  - exact Hserving.
  - destruct Hsend as (H1 & H2 & H3 & H4). unfold conn_can_send.
    destruct rq1; simpl in *. rewrite Hev. auto.
Qed.

Lemma request_built_then_sent_witness :
  exists (p : msg_ptr) (rq1 : rq_t) (k : nat) (rq' : rq_t),
    rq_msg_new client_example None = Ret (p, rq1) /\
    msg_list rq1 !! k = Some (Some p) /\
    (rq2 ← rq_msg_setqueue p "w" rq1;
     rq3 ← rq_msg_setdata p 2 "xyz" rq2;
     rq4 ← rq_msg_setnoreply p rq3;
     rq5 ← Ret rq4;
     rq_send p None None None rq5) = Ret rq' /\
    conns rq' !! 0%nat
    = Some (conn_after_send conn_example
              ([] ++ request_sequence (Z.of_nat k) "w"
                       (substring 0 (Z.to_nat 2) "xyz") 1 0)) /\
    msg_list rq' = msg_list rq1 /\ msg_used rq' = msg_used client_example + 1.
Proof.
  assert (exists p rq1, rq_msg_new client_example None = Ret (p, rq1))
    as (p & rq1 & Hnew) by (eexists; eexists; reflexivity).
  destruct (request_built_then_sent client_example rq1 p "w" "xyz" 2 true false
              None None None 0%nat [] conn_example [])
    as (k & rq' & H).
  - reflexivity.
  - intros q Hq. apply elem_of_nil in Hq. contradiction.
  - exact Hnew.
  - simpl. lia.
  - left. reflexivity.
  - reflexivity.
  - reflexivity.
  - split; [reflexivity|reflexivity].
  - unfold conn_can_send, INVALID_HANDLE. simpl.
    repeat split; try reflexivity. lia.
  - exists p, rq1, k, rq'. split; [exact Hnew|exact H].
Defined.

(** ** Subscribing *)

Lemma cstr_idemp (s : string) : cstr (cstr s) = cstr s.
Proof.
  induction s as [|a s IH]; simpl; [reflexivity|].
  destruct (Ascii.eqb a Ascii.zero) eqn:E; simpl; [reflexivity|].
  rewrite E, IH. reflexivity.
Qed.

Lemma send_commands_frame (c : conn_ptr) (fill : expbuf_t -> expbuf_t)
    (rq rq1 : rq_t) :
  send_commands c fill rq = Ret rq1 ->
  queues rq1 = queues rq /\ connlist rq1 = connlist rq /\
  msg_list rq1 = msg_list rq /\ msg_used rq1 = msg_used rq /\
  msgs rq1 = msgs rq /\ evbase rq1 = evbase rq.
Proof.
  unfold send_commands, get_conn. intros H.
  destruct (conns rq !! c) as [x|] eqn:Ex; [|discriminate]. simpl in H.
  destruct (conn_sendbuf x) as [sb|]; [|discriminate]. res_inv H.
  apply bind_ret_inv in H. destruct H as (rq2 & Hs & H).
  apply rq_senddata_inv in Hs. destruct Hs as (y & out & _ & _ & _ & ->).
  apply bind_ret_inv in H. destruct H as (z & _ & H).
  injection H as <-. destruct rq; simpl. repeat split; reflexivity.
Qed.

Lemma queue_known_names (name : string) (qs : list rq_queue_t) :
  (existsb (fun q => strcmp_eq (q_queue q) name) qs = true) <->
  (cstr name ∈ queue_names qs).
Proof.
  unfold queue_names. induction qs as [|q qs IH]; simpl.
  - split; [discriminate|]. intros H. apply elem_of_nil in H. contradiction.
  - rewrite orb_true_iff, IH, elem_of_cons. unfold strcmp_eq.
    rewrite String.eqb_eq. split; intros [H|H]; auto.
Qed.

(** What a returning [rq_consume] has done to the subscriptions. *)
Lemma rq_consume_queues (rq rq1 : rq_t) (queue : string)
    (max priority exclusive : Z) (handler : fn_ptr)
    (accepted dropped : option fn_ptr) (arg : option arg_ptr) :
  rq_consume rq queue max priority exclusive handler accepted dropped arg
  = Ret rq1 ->
  connlist rq1 = connlist rq /\ connlist rq <> [] /\ strlen queue < 256 /\
  ((cstr queue ∈ queue_names (queues rq) /\ rq1 = rq) \/
   ((cstr queue ∉ queue_names (queues rq)) /\
    queue_names (queues rq1) = queue_names (queues rq) ++ [cstr queue])).
Proof.
  unfold rq_consume. intros H. res_inv H.
  assert (connlist rq <> []) as Hne
    by (destruct (connlist rq); [simpl in *; lia|discriminate]).
  destruct (existsb _ (queues rq)) eqn:Ek.
  - injection H as <-. apply queue_known_names in Ek.
    split; [reflexivity|]. split; [exact Hne|]. split; [assumption|].
    left. split; [exact Ek|reflexivity].
  - assert (cstr queue ∉ queue_names (queues rq)) as Hnk.
    { intros Hin. apply queue_known_names in Hin. congruence. }
    match type of H with
    | context [rq_set_queues ?qs rq] => set (rq0 := rq_set_queues qs rq) in *
    end.
    assert (connlist rq0 = connlist rq) as Hl0 by (destruct rq; reflexivity).
    assert (queue_names (queues rq0) = queue_names (queues rq) ++ [cstr queue])
      as Hq0.
    { unfold rq0, queue_names. destruct rq; simpl. rewrite map_app. simpl.
      rewrite cstr_idemp. reflexivity. }
    rewrite Hl0 in H. destruct (connlist rq) as [|c rest]; [contradiction|].
    unfold get_conn in H. destruct (conns rq0 !! c) as [x|]; [|discriminate].
    simpl in H. destruct ((0 <? conn_active x) && (conn_closing x =? 0)).
    + unfold rq_send_consume in H. res_inv H.
      apply send_commands_frame in H. destruct H as (Hq & Hl & _).
      rewrite Hl, Hq, Hl0, Hq0.
      split; [reflexivity|]. split; [discriminate|]. split; [assumption|].
      right. split; [exact Hnk|reflexivity].
    + injection H as <-. rewrite Hl0, Hq0.
      split; [reflexivity|]. split; [discriminate|]. split; [assumption|].
      right. split; [exact Hnk|reflexivity].
Qed.

(** X21.  Subscribing again to a queue this client already consumes does
    nothing: no second entry is made, nothing is sent, and the limits and
    callbacks of the second call are dropped. *)
Theorem rq_consume_once (rq rq1 : rq_t) (queue : string)
    (max priority exclusive : Z) (handler : fn_ptr)
    (accepted dropped : option fn_ptr) (arg : option arg_ptr)
    (max' priority' exclusive' : Z) (handler' : fn_ptr)
    (accepted' dropped' : option fn_ptr) (arg' : option arg_ptr) :
  rq_consume rq queue max priority exclusive handler accepted dropped arg
  = Ret rq1 ->
  0 <= max' -> priority_valid priority' ->
  rq_consume rq1 queue max' priority' exclusive' handler' accepted' dropped' arg'
  = Ret rq1.
Proof.
  intros H Hmax Hprio.
  destruct (rq_consume_queues _ _ _ _ _ _ _ _ _ _ H) as (Hl & Hne & Hlen & Hq).
  assert (cstr queue ∈ queue_names (queues rq1)) as Hin.
  { destruct Hq as [[Hin ->]|[_ ->]]; [exact Hin|].
    apply elem_of_app. right. apply list_elem_of_singleton. reflexivity. }
  apply queue_known_names in Hin.
  unfold rq_consume.
  rewrite (assert_true (strlen queue <? 256)) by (apply Z.ltb_lt; exact Hlen).
  simpl.
  rewrite (assert_true (0 <=? max')) by (apply Z.leb_le; exact Hmax). simpl.
  rewrite (assert_true (_ || _)).
  2:{ rewrite !orb_true_iff, !Z.eqb_eq. unfold priority_valid in Hprio. tauto. }
  simpl.
  rewrite (assert_true (0 <? _))
    by (apply Z.ltb_lt; rewrite Hl; destruct (connlist rq);
        [contradiction|simpl; lia]).
  simpl. rewrite Hin. reflexivity.
Qed.

(** X22.  [rq_consume] keeps the subscription names pairwise distinct. *)
Theorem rq_consume_names_distinct (rq rq1 : rq_t) (queue : string)
    (max priority exclusive : Z) (handler : fn_ptr)
    (accepted dropped : option fn_ptr) (arg : option arg_ptr) :
  NoDup (queue_names (queues rq)) ->
  rq_consume rq queue max priority exclusive handler accepted dropped arg
  = Ret rq1 ->
  NoDup (queue_names (queues rq1)) /\ cstr queue ∈ queue_names (queues rq1).
Proof.
  intros Hnd H.
  destruct (rq_consume_queues _ _ _ _ _ _ _ _ _ _ H) as (_ & _ & _ & Hq).
  destruct Hq as [[Hin ->]|[Hnin ->]]; [auto|]. split.
  - apply NoDup_app. split; [exact Hnd|]. split; [|apply NoDup_singleton].
    intros s Hs Hs'. apply list_elem_of_singleton in Hs'. subst s. contradiction.
  - apply elem_of_app. right. apply list_elem_of_singleton. reflexivity.
Qed.

Lemma rq_consume_once_witness :
  rq_consume client_example "q1" 3 RQ_PRIORITY_LOW 1 7%nat None None None
  = Ret client_example.
Proof.
  apply (rq_consume_once client_example client_example "q1"
           10 RQ_PRIORITY_NORMAL 0 1%nat (Some 2%nat) None None
           3 RQ_PRIORITY_LOW 1 7%nat None None None).
  - reflexivity.
  - lia.
  - right. left. reflexivity.
Defined.

Lemma rq_consume_names_distinct_witness :
  exists rq1,
    rq_consume client_example "q2" 3 RQ_PRIORITY_LOW 1 7%nat None None None
    = Ret rq1 /\
    NoDup (queue_names (queues rq1)) /\ cstr "q2" ∈ queue_names (queues rq1).
Proof.
  assert (exists rq1,
            rq_consume client_example "q2" 3 RQ_PRIORITY_LOW 1 7%nat None None None
            = Ret rq1) as (rq1 & Hrun) by (eexists; reflexivity).
  exists rq1. split; [exact Hrun|].
  apply (rq_consume_names_distinct client_example rq1 "q2" 3 RQ_PRIORITY_LOW 1
           7%nat None None None); [|exact Hrun].
  apply NoDup_singleton.
Defined.

(** ** Adding controllers *)

Section AddController.

Variable evutil_parse_sockaddr_port : string -> Z.
Variable socket : rq_t -> Z.
Variable connect : Z -> string -> Z * Z.

(** X23.  [rq_addcontroller] appends: the new controller goes to the tail of the
    list, so the order of failover is the order of the calls, and the
    records of the controllers already there are not touched.  Only the
    first call starts a connect; a later one leaves its record idle, with
    no descriptor. *)
Theorem rq_addcontroller_appends (rq rq1 : rq_t) (host : string) :
  rq_addcontroller evutil_parse_sockaddr_port socket connect rq host = Ret rq1 ->
  connlist rq1 = connlist rq ++ [length (conns rq)] /\
  length (conns rq1) = S (length (conns rq)) /\
  (forall c x, conns rq !! c = Some x -> conns rq1 !! c = Some x) /\
  (connlist rq <> [] -> conns rq1 !! length (conns rq) = Some (conn_new host)).
Proof.
  unfold rq_addcontroller. intros H. res_inv H.
  pose (rq0 := rq_set_connlist (ll_push_tail (connlist rq) (length (conns rq)))
                 (rq_set_conns (conns rq ++ [conn_new host]) rq)).
  change ((if Z.of_nat (length (connlist rq0)) =? 1
           then rq_connect evutil_parse_sockaddr_port socket connect rq0
           else Ret rq0) = Ret rq1) in H.
  assert (connlist rq0 = connlist rq ++ [length (conns rq)]) as Hl0
    by (destruct rq; reflexivity).
  assert (conns rq0 = conns rq ++ [conn_new host]) as Hc0
    by (destruct rq; reflexivity).
  destruct (Z.of_nat (length (connlist rq0)) =? 1) eqn:E1.
  - assert (connlist rq = []) as Hnil.
    { apply Z.eqb_eq in E1. rewrite Hl0, length_app in E1. simpl in E1.
      destruct (connlist rq); [reflexivity|simpl in E1; lia]. }
    destruct (rq_connect_cases _ _ _ _ _ H) as (_ & c & rest & x & Hl & Hx & Hcase).
    rewrite Hl0, Hnil in Hl. simpl in Hl. injection Hl as <- <-.
    destruct Hcase as [->|[_ ->]].
    + rewrite Hl0, Hc0, length_app. simpl.
      split; [reflexivity|]. split; [lia|]. split; [|contradiction].
      intros c x0 Hc. apply lookup_app_l_Some. exact Hc.
    + assert (connlist (put_conn (length (conns rq))
                          (conn_started (socket rq0) x) rq0) = connlist rq0) as ->
        by (destruct rq0; reflexivity).
      assert (conns (put_conn (length (conns rq))
                       (conn_started (socket rq0) x) rq0)
              = <[length (conns rq) := conn_started (socket rq0) x]> (conns rq0))
        as -> by (destruct rq0; reflexivity).
      rewrite length_insert, Hl0, Hc0, length_app. simpl.
      split; [reflexivity|]. split; [lia|]. split; [|contradiction].
      intros c x0 Hc. pose proof (lookup_lt_Some _ _ _ Hc) as Hlt.
      rewrite list_lookup_insert_ne by lia. apply lookup_app_l_Some. exact Hc.
  - injection H as <-. rewrite Hl0, Hc0, length_app. simpl.
    split; [reflexivity|]. split; [lia|]. split.
    + intros c x0 Hc. apply lookup_app_l_Some. exact Hc.
    + intros _. rewrite lookup_app_r by lia. rewrite Nat.sub_diag. reflexivity.
Qed.

End AddController.

Lemma rq_addcontroller_appends_witness :
  exists rq1,
    rq_addcontroller parse_example socket_example connect_example
      client_example "127.0.0.1:13556" = Ret rq1 /\
    connlist rq1 = connlist client_example ++ [length (conns client_example)] /\
    length (conns rq1) = S (length (conns client_example)) /\
    (forall c x, conns client_example !! c = Some x -> conns rq1 !! c = Some x) /\
    (connlist client_example <> [] ->
     conns rq1 !! length (conns client_example)
     = Some (conn_new "127.0.0.1:13556")).
Proof.
  assert (exists rq1,
            rq_addcontroller parse_example socket_example connect_example
              client_example "127.0.0.1:13556" = Ret rq1)
    as (rq1 & Hrun) by (eexists; reflexivity).
  exists rq1. split; [exact Hrun|].
  apply (rq_addcontroller_appends parse_example socket_example connect_example
           client_example rq1 "127.0.0.1:13556").
  exact Hrun.
Defined.

(** ** The accumulator *)

(** X24.  A payload that no REQUEST or REPLY has taken over stays with the
    connection: CLEAR empties the buffer without releasing it, and the
    next PAYLOAD stops at [assert(conn->data->payload == NULL)]. *)
Theorem payload_survives_clear (c : conn_ptr) (data : string) (rq rq1 : rq_t) :
  cmdPayload c data rq = Ret rq1 ->
  exists rq2,
    cmdClear c rq1 = Ret rq2 /\
    forall data' : string, cmdPayload c data' rq2 = Fail AssertFailed.
Proof.
  unfold cmdPayload. intros H. res_inv H.
  apply bind_ret_inv in H. destruct H as ([x d] & Hd & H). res_inv H.
  injection H as <-. apply get_data_inv in Hd. destruct Hd as (Hx & Hd).
  set (d1 := mk_data (data_flags d) (BIT_SET (data_mask d) RQ_DATA_MASK_PAYLOAD)
               (data_id d) (data_qid d) (data_timeout d) (data_priority d)
               (Some data) (data_queue d)).
  set (x1 := conn_set_data (Some d1) x).
  assert (conns (put_data c x d1 rq) !! c = Some x1) as Hx1
    by (eapply lookup_put_conn; exact Hx).
  eexists. split.
  - unfold cmdClear. rewrite (get_data_ret _ c x1 d1 Hx1 eq_refl). reflexivity.
  - intros data'. unfold cmdPayload.
    destruct (0 <? Z.of_nat (String.length data')); [|reflexivity]. simpl.
    rewrite (get_data_ret _ c (conn_set_data (Some (data_clear d1)) x1)
               (data_clear d1)); [reflexivity| |reflexivity].
    eapply lookup_put_conn. exact Hx1.
Qed.

Lemma payload_survives_clear_witness :
  exists rq2,
    cmdClear 0%nat (with_data data_reply_example client_example) = Ret rq2 /\
    forall data' : string, cmdPayload 0%nat data' rq2 = Fail AssertFailed.
Proof.
  apply (payload_survives_clear 0%nat "r"
           (with_data data_id_example client_example)
           (with_data data_reply_example client_example)).
  reflexivity.
Defined.

(** ** The reactor *)

(** X25.  Attaching a reactor and detaching it again gives the client back as it
    was, while attaching a second one, or detaching when none is attached,
    stops at an assertion. *)
Theorem rq_setevbase_round_trip (rq : rq_t) :
  evbase rq = false ->
  exists rq1,
    rq_setevbase rq true = Ret rq1 /\
    rq_setevbase rq1 false = Ret rq /\
    rq_setevbase rq1 true = Fail AssertFailed /\
    rq_setevbase rq false = Fail AssertFailed.
Proof.
  intros H. unfold rq_setevbase. rewrite H. simpl.
  eexists. split; [reflexivity|]. simpl.
  split; [destruct rq; simpl in *; subst; reflexivity|].
  split; reflexivity.
Qed.

Lemma rq_setevbase_round_trip_witness :
  exists rq1,
    rq_setevbase rq_init true = Ret rq1 /\
    rq_setevbase rq1 false = Ret rq_init /\
    rq_setevbase rq1 true = Fail AssertFailed /\
    rq_setevbase rq_init false = Fail AssertFailed.
Proof.
  apply (rq_setevbase_round_trip rq_init). reflexivity.
Defined.

(** ** The table during the life of an outbound request *)

Lemma table_inv_frame (rq rq' : rq_t) :
  msg_list rq' = msg_list rq -> msg_used rq' = msg_used rq ->
  msgs rq' = msgs rq -> table_inv rq -> table_inv rq'.
Proof.
  intros Hl Hu Hm (Hs & Hused & Hb). unfold table_inv, slot_ids_ok, used_ok,
    used_bounds, msg_max in *.
  rewrite Hl, Hu, Hm. auto.
Qed.

Lemma get_msg_inv (rq : rq_t) (p : msg_ptr) (m : rq_message_t) :
  get_msg rq p = Ret m -> msgs rq !! p = Some m.
Proof.
  unfold get_msg. destruct (msgs rq !! p); [|discriminate].
  intros H. injection H as <-. reflexivity.
Qed.

Lemma table_inv_put_msg_keep (rq : rq_t) (p : msg_ptr) (m0 m : rq_message_t) :
  msgs rq !! p = Some m0 -> msg_id m = msg_id m0 -> table_inv rq ->
  table_inv (put_msg p m rq) /\
  msg_list (put_msg p m rq) = msg_list rq /\
  msg_used (put_msg p m rq) = msg_used rq.
Proof.
  intros Hm Hid Hinv. split; [exact (table_inv_put_msg_id rq p m0 m Hm Hid Hinv)|].
  destruct rq; split; reflexivity.
Qed.

(** X26.  Building a request, sending it and having it acknowledged never moves
    a message: the slots, the use count and the invariants of the table
    are what they were. *)
Theorem outbound_steps_keep_table (rq rq' : rq_t) :
  table_inv rq ->
  outbound_step rq rq' ->
  table_inv rq' /\ msg_list rq' = msg_list rq /\ msg_used rq' = msg_used rq.
Proof.
  intros Hinv [p queue H|p H|p H|p len data H|p reply fail arg H|c H].
  - unfold rq_msg_setqueue in H. apply bind_ret_inv in H.
    destruct H as (m & Hm & H). apply get_msg_inv in Hm. res_inv H.
    injection H as <-.
    apply (table_inv_put_msg_keep rq p m); [exact Hm|reflexivity|exact Hinv].
  - unfold rq_msg_setbroadcast in H. apply bind_ret_inv in H.
    destruct H as (m & Hm & H). apply get_msg_inv in Hm. res_inv H.
    injection H as <-.
    apply (table_inv_put_msg_keep rq p m); [exact Hm|reflexivity|exact Hinv].
  - unfold rq_msg_setnoreply in H. apply bind_ret_inv in H.
    destruct H as (m & Hm & H). apply get_msg_inv in Hm. res_inv H.
    injection H as <-.
    apply (table_inv_put_msg_keep rq p m); [exact Hm|reflexivity|exact Hinv].
  - unfold rq_msg_setdata in H. apply bind_ret_inv in H.
    destruct H as (m & Hm & H). apply get_msg_inv in Hm. res_inv H.
    destruct (msg_data m) as [old|]; [|discriminate]. res_inv H.
    destruct (len <=? Z.of_nat (String.length data)); [|discriminate].
    injection H as <-.
    apply (table_inv_put_msg_keep rq p m); [exact Hm|reflexivity|exact Hinv].
  - unfold rq_send in H. apply bind_ret_inv in H.
    destruct H as (m & Hm & H). apply get_msg_inv in Hm.
    destruct (msg_data m) as [d|]; [|discriminate]. simpl in H. res_inv H.
    destruct (msg_queue m) as [q|]; [|discriminate]. simpl in H. res_inv H.
    destruct (table_inv_put_msg_keep rq p m
                (msg_set_handlers reply fail arg m) Hm eq_refl Hinv)
      as (Hinv1 & Hl1 & Hu1).
    destruct (connlist _) as [|c rest]; [discriminate|].
    apply bind_ret_inv in H. destruct H as (x & _ & H).
    destruct ((0 <? conn_active x) && (conn_closing x =? 0)); [|discriminate].
    apply send_commands_frame in H.
    destruct H as (_ & _ & Hl & Hu & Hms & _).
    split; [exact (table_inv_frame _ _ Hl Hu Hms Hinv1)|].
    split; congruence.
  - unfold cmdDelivered in H. apply bind_ret_inv in H.
    destruct H as ([x d] & _ & H).
    destruct (BIT_TEST (data_mask d) RQ_DATA_MASK_ID); [|discriminate].
    res_inv H.
    destruct (msg_list rq !! Z.to_nat (data_id d)) as [[q|]|]; try discriminate.
    simpl in H. apply bind_ret_inv in H.
    destruct H as (m & Hm & H). apply get_msg_inv in Hm. res_inv H.
    injection H as <-.
    apply (table_inv_put_msg_keep rq q m); [exact Hm|reflexivity|exact Hinv].
Qed.

Lemma outbound_steps_keep_table_witness :
  table_inv (put_msg 0%nat (msg_set_state rq_msgstate_delivered msg_outbound_example)
               (with_data data_id_example client_outbound_example)) /\
  msg_list (put_msg 0%nat (msg_set_state rq_msgstate_delivered msg_outbound_example)
              (with_data data_id_example client_outbound_example))
  = msg_list (with_data data_id_example client_outbound_example) /\
  msg_used (put_msg 0%nat (msg_set_state rq_msgstate_delivered msg_outbound_example)
              (with_data data_id_example client_outbound_example))
  = msg_used (with_data data_id_example client_outbound_example).
Proof.
  apply (outbound_steps_keep_table
           (with_data data_id_example client_outbound_example)).
  - split; [|split].
    + intros [|[|i]] p H; simpl in H; try discriminate.
      injection H as <-. eexists; split; reflexivity.
    + reflexivity.
    + unfold used_bounds, msg_max; simpl. lia.
  - apply (step_delivered _ _ 0%nat). reflexivity.
Defined.

(** X27.  A first [rq_consume] for a queue name records the subscription at
    the tail of the list, with queue-id 0.  When the head connection is
    active and not closing, the CONSUME sequence is queued on it at once,
    and an empty name stops at the assertion of [rq_send_consume];
    otherwise nothing is sent and the subscription, even one with an empty
    name, waits for the next activation. *)
Theorem rq_consume_subscribes (rq : rq_t) (queue : string)
    (max priority exclusive : Z) (handler : fn_ptr)
    (accepted dropped : option fn_ptr) (arg : option arg_ptr)
    (c : conn_ptr) (rest : list conn_ptr) (x : rq_conn_t) (out : expbuf_t) :
  strlen queue < 256 -> 0 <= max -> priority_valid priority ->
  connlist rq = c :: rest ->
  conns rq !! c = Some x ->
  cstr queue ∉ queue_names (queues rq) ->
  (conn_serving x -> conn_can_send rq x out -> 0 < strlen queue ->
   rq_consume rq queue max priority exclusive handler accepted dropped arg
   = Ret (put_conn c
            (conn_after_send x
               (out ++ consume_sequence
                         (queue_new queue max priority exclusive handler
                            accepted dropped arg)))
            (rq_set_queues
               (queues rq ++ [queue_new queue max priority exclusive handler
                                accepted dropped arg]) rq))) /\
  (conn_serving x -> strlen queue = 0 ->
   rq_consume rq queue max priority exclusive handler accepted dropped arg
   = Fail AssertFailed) /\
  (~ conn_serving x ->
   rq_consume rq queue max priority exclusive handler accepted dropped arg
   = Ret (rq_set_queues
            (queues rq ++ [queue_new queue max priority exclusive handler
                             accepted dropped arg]) rq)).
Proof.
  intros Hlen Hmax Hprio Hl Hx Hnew.
  set (q := queue_new queue max priority exclusive handler accepted dropped arg).
  set (rq1 := rq_set_queues (queues rq ++ [q]) rq).
  assert (rq_consume rq queue max priority exclusive handler accepted dropped arg
          = if (0 <? conn_active x) && (conn_closing x =? 0)
            then rq_send_consume c q rq1 else Ret rq1) as Hrun.
  { unfold rq_consume.
    rewrite (assert_true (strlen queue <? 256)) by (apply Z.ltb_lt; exact Hlen).
    cbn [mbind res_bind].
    rewrite (assert_true (0 <=? max)) by (apply Z.leb_le; exact Hmax).
    cbn [mbind res_bind].
    rewrite (assert_true (_ || _)).
    2:{ rewrite !orb_true_iff, !Z.eqb_eq. unfold priority_valid in Hprio. tauto. }
    cbn [mbind res_bind].
    rewrite (assert_true (0 <? _)) by (apply Z.ltb_lt; rewrite Hl; simpl; lia).
    cbn [mbind res_bind].
    destruct (existsb _ (queues rq)) eqn:Ek.
    { apply queue_known_names in Ek. contradiction. }
    unfold rq1, q, queue_new, get_conn.
    cbn [rq_set_queues connlist conns]. rewrite Hl, Hx. reflexivity. }
  assert (conns rq1 !! c = Some x) as Hx1 by (destruct rq; exact Hx).
  assert (strlen (q_queue q) = strlen queue) as Hqlen
    by (unfold strlen, q; simpl; rewrite cstr_idemp; reflexivity).
  rewrite Hrun. split; [|split].
  - intros (Hact & Hcl) Hsend Hpos.
    assert ((0 <? conn_active x) = true) as -> by (apply Z.ltb_lt; exact Hact).
    rewrite Hcl. simpl.
    apply rq_send_consume_spec; [exact Hx1| |].
    + destruct Hsend as (H1 & H2 & H3 & H4). unfold conn_can_send.
      destruct rq; simpl in *. auto.
    + unfold queue_wf. rewrite Hqlen. unfold q; simpl. lia.
  - intros (Hact & Hcl) Hzero.
    assert ((0 <? conn_active x) = true) as -> by (apply Z.ltb_lt; exact Hact).
    rewrite Hcl. simpl. unfold rq_send_consume.
    rewrite (assert_true (0 <=? q_max q)) by (apply Z.leb_le; exact Hmax).
    cbn [mbind res_bind]. rewrite Hqlen, Hzero. reflexivity.
  - intros Hns.
    destruct ((0 <? conn_active x) && (conn_closing x =? 0)) eqn:E;
      [|reflexivity].
    exfalso. apply Hns. apply andb_true_iff in E. destruct E as [Ha Hc].
    split; [apply Z.ltb_lt; exact Ha|apply Z.eqb_eq; exact Hc].
Qed.

Lemma rq_consume_subscribes_witness :
  (conn_serving conn_example -> conn_can_send client_example conn_example [] ->
   0 < strlen "q2" ->
   rq_consume client_example "q2" 3 RQ_PRIORITY_LOW 1 7%nat None None None
   = Ret (put_conn 0%nat
            (conn_after_send conn_example
               ([] ++ consume_sequence
                        (queue_new "q2" 3 RQ_PRIORITY_LOW 1 7%nat None None None)))
            (rq_set_queues
               (queues client_example
                ++ [queue_new "q2" 3 RQ_PRIORITY_LOW 1 7%nat None None None])
               client_example))) /\
  (conn_serving conn_example -> strlen "q2" = 0 ->
   rq_consume client_example "q2" 3 RQ_PRIORITY_LOW 1 7%nat None None None
   = Fail AssertFailed) /\
  (~ conn_serving conn_example ->
   rq_consume client_example "q2" 3 RQ_PRIORITY_LOW 1 7%nat None None None
   = Ret (rq_set_queues
            (queues client_example
             ++ [queue_new "q2" 3 RQ_PRIORITY_LOW 1 7%nat None None None])
            client_example)).
Proof.
  apply (rq_consume_subscribes client_example "q2" 3 RQ_PRIORITY_LOW 1 7%nat
           None None None 0%nat [] conn_example []).
  - reflexivity.
  - lia.
  - right. left. reflexivity.
  - reflexivity.
  - reflexivity.
  - intros H. apply list_elem_of_singleton in H. discriminate.
Defined.
